(** * doc-tools: the information-density scoring engine

    A shallow embedding of the scoring engine shared by
    [03-Doc&Analy/docana.py] (plain text extracted from PDF files) and
    [03-Doc&Analy/mdana.py] (markdown), and of the quote-aware paragraph
    splitter of [02-Doc&Md/根据标点符号分段md文件.py].

    Conventions of the embedding.
    - A Python [str] is the list of its Unicode code points, so [len] is
      [length] and CJK characters count for one.
    - Python [float] values are exact rationals ([Q], compared with [==])
      in the modules [Docana] and [Mdana]: what is proved over them is
      about counts, sums and quotients as written. Where a statement
      depends on the rounding of binary64 arithmetic, the scores are
      computed again in [Binary64] and [Mdana64], IEEE 754 operation by
      operation.  Counts are Python [int]s that are lengths, hence [nat].
    - Exceptions are explicit: a computation that may raise lives in
      [Py.result].
    - The word segmenter [jieba], the Unicode character database, the PDF
      readers, the file system and the YAML parser are not part of the
      repository; they are the fields of the class [Host]. *)

From Stdlib Require Import List ZArith NArith QArith Bool Arith Lia Lqa.
From Stdlib Require Import Permutation Sorted.
From Stdlib Require String.
From Stdlib Require SpecFloat.
Import String.StringSyntax.
Delimit Scope string_scope with string.
Bind Scope string_scope with String.string.
Import ListNotations.

Set Implicit Arguments.

(** ** Python values and exceptions *)

Module Py.

(** A Python string, by code points. *)
Definition char := N.
Definition pystr := list char.

Inductive exn : Type :=
| ZeroDivisionError
| KeyError (key : String.string).

Inductive result (A : Type) : Type :=
| Ok (a : A)
| Raise (e : exn).
Arguments Ok {A} a.
Arguments Raise {A} e.

Definition bind {A B} (m : result A) (k : A -> result B) : result B :=
  match m with
  | Ok a => k a
  | Raise e => Raise e
  end.

(** [a / b] on floats (true division). *)
Definition truediv (a b : Q) : result Q :=
  if Qeq_bool b 0 then Raise ZeroDivisionError else Ok (a / b).

(** [float(n)] for a length [n]. *)
Definition of_nat (n : nat) : Q := inject_Z (Z.of_nat n).

(** [a > b] on floats. *)
Definition gt (a b : Q) : bool := negb (Qle_bool a b).

(** [sum(xs)] on floats and on ints. *)
Definition sumQ (xs : list Q) : Q := fold_left Qplus xs 0.
Definition sum (xs : list nat) : nat := fold_left Nat.add xs 0%nat.

(** A dict with string keys, as the list of its items in insertion
    order. [d[k]] raises [KeyError] on a missing key. *)
Definition dict (V : Type) := list (String.string * V).

Fixpoint get {V} (d : dict V) (k : String.string) : option V :=
  match d with
  | [] => None
  | (k', v) :: d' => if String.eqb k k' then Some v else get d' k
  end.

Definition getitem {V} (d : dict V) (k : String.string) : result V :=
  match get d k with
  | Some v => Ok v
  | None => Raise (KeyError k)
  end.

(** *** Characters *)

(** [str.isspace] for one character; the same set is the [\s] of [re]
    on [str] patterns. *)
Definition isspace (c : char) : bool :=
  ((9 <=? c) && (c <=? 13) || (28 <=? c) && (c <=? 32)
   || (c =? 133) || (c =? 160) || (c =? 5760)
   || (8192 <=? c) && (c <=? 8202)
   || (c =? 8232) || (c =? 8233) || (c =? 8239) || (c =? 8287)
   || (c =? 12288))%N.

Definition SPACE : char := 32%N.
Definition NEWLINE : char := 10%N.

(** *** Strings *)

Fixpoint eqb (s t : pystr) : bool :=
  match s, t with
  | [], [] => true
  | c :: s', d :: t' => N.eqb c d && eqb s' t'
  | _, _ => false
  end.

(** [w in vocabulary] for a list of strings. *)
Definition mem (w : pystr) (l : list pystr) : bool := existsb (eqb w) l.

Fixpoint startswith (s p : pystr) : bool :=
  match p, s with
  | [], _ => true
  | d :: p', c :: s' => N.eqb c d && startswith s' p'
  | _ :: _, [] => false
  end.

(** [t in w]: [t] occurs in [w] as a substring. *)
Fixpoint contains (w t : pystr) : bool :=
  startswith w t ||
  match w with
  | [] => false
  | _ :: w' => contains w' t
  end.

Fixpoint lstrip (s : pystr) : pystr :=
  match s with
  | c :: s' => if isspace c then lstrip s' else s
  | [] => []
  end.

Definition rstrip (s : pystr) : pystr := rev (lstrip (rev s)).

(** [s.strip()] *)
Definition strip (s : pystr) : pystr := rstrip (lstrip s).

(** [s.replace(' ', '')] *)
Definition remove_spaces (s : pystr) : pystr :=
  filter (fun c => negb (N.eqb c SPACE)) s.

(** [s[:n] + "..." if len(s) > n else s] *)
Definition ELLIPSIS : pystr := [46; 46; 46]%N.
Definition truncate (n : nat) (s : pystr) : pystr :=
  if (n <? length s)%nat then firstn n s ++ ELLIPSIS else s.

(** Truth value of a string and of an optional string ([None] and the
    empty string are false). *)
Definition truthy (s : pystr) : bool :=
  match s with [] => false | _ :: _ => true end.

Definition truthy_opt (o : option pystr) : bool :=
  match o with None => false | Some s => truthy s end.

(** [sum(1 for x in xs if p x)] and [len([x for x in xs if p x])]. *)
Definition count {A} (p : A -> bool) (xs : list A) : nat :=
  length (filter p xs).

(** *** The regular expressions of the analyzers

    Each pattern the analyzers hand to [re.findall] or [re.split] is a
    chain of greedy character classes that never has to backtrack into
    an earlier class, so a left-to-right scan with a finite state
    decides the non-overlapping matches. *)

(** The sentence terminators of [r'[。！？\.\!\?]+']. *)
Definition is_terminator (c : char) : bool :=
  ((c =? 12290) || (c =? 65281) || (c =? 65311)
   || (c =? 46) || (c =? 33) || (c =? 63))%N.

(** [re.split(r'[。！？\.\!\?]+', s)]: the pieces between maximal runs of
    terminators, empty pieces at both ends included. [cur] is the
    piece being read, reversed; [in_run] tells that the previous
    character was a terminator. *)
Fixpoint split_loop (cur : pystr) (in_run : bool) (s : pystr)
  : list pystr :=
  match s with
  | [] => [rev cur]
  | c :: s' =>
      if is_terminator c then
        if in_run then split_loop [] true s'
        else rev cur :: split_loop [] true s'
      else split_loop (c :: cur) false s'
  end.

Definition split_sentences (s : pystr) : list pystr :=
  split_loop [] false s.

(** [len(re.findall(r'\d+\.?\d*', s))]. [isdecimal] is the class [\d]. *)
Inductive num_state := NumOut | NumInt | NumFrac.

Fixpoint numbers_loop (isdecimal : char -> bool) (st : num_state)
         (s : pystr) : nat :=
  match s with
  | [] => 0
  | c :: s' =>
      match st with
      | NumOut =>
          if isdecimal c then S (numbers_loop isdecimal NumInt s')
          else numbers_loop isdecimal NumOut s'
      | NumInt =>
          if isdecimal c then numbers_loop isdecimal NumInt s'
          else if N.eqb c 46 then numbers_loop isdecimal NumFrac s'
          else numbers_loop isdecimal NumOut s'
      | NumFrac =>
          if isdecimal c then numbers_loop isdecimal NumFrac s'
          else numbers_loop isdecimal NumOut s'
      end
  end.

Definition count_numbers (isdecimal : char -> bool) (s : pystr) : nat :=
  numbers_loop isdecimal NumOut s.

(** [re.sub(pattern, ' ', s)] for a pattern [[class]+]: every maximal run
    of characters of the class becomes one space. *)
Fixpoint sub_runs (in_class : char -> bool) (in_run : bool) (s : pystr)
  : pystr :=
  match s with
  | [] => []
  | c :: s' =>
      if in_class c then
        if in_run then sub_runs in_class true s'
        else SPACE :: sub_runs in_class true s'
      else c :: sub_runs in_class false s'
  end.

(** *** [sorted(l, key=..., reverse=True)]

    [sorted] is stable, also with [reverse=True]: items with equal keys
    keep their order. A stable sort has one possible output, computed
    here by insertion. *)
Section Sorted.
Variable A : Type.
Variable key : A -> Q.

(** Insert [x], which comes after every item of [l] in the input: it goes
    behind the items whose key is not smaller. *)
Fixpoint insert_desc (x : A) (l : list A) : list A :=
  match l with
  | [] => [x]
  | y :: l' =>
      if Qle_bool (key x) (key y) then y :: insert_desc x l'
      else x :: l
  end.

Definition sorted_desc (l : list A) : list A :=
  fold_left (fun acc x => insert_desc x acc) l [].
End Sorted.

End Py.

Module PyNotations.
Notation "x <- m ;; k" := (Py.bind m (fun x => k))
  (at level 61, m at next level, right associativity).
End PyNotations.

Import PyNotations.

(** ** The quote-aware paragraph splitter
    ([02-Doc&Md/根据标点符号分段md文件.py]) *)

Module Segmenter.
Import Py.

(** The dict literal [quote_pairs], item by item as written: the six
    entries of the source have the keys [U+0022] and [U+0027] only. *)
Definition quote_pairs : list (char * char) :=
  [ (34, 34); (34, 34); (39, 39); (39, 39); (34, 34); (39, 39) ]%N.

(** [char in quote_pairs] *)
Definition is_quote_key (c : char) : bool :=
  existsb (fun kv => N.eqb (fst kv) c) quote_pairs.

(** [quote_pairs.get(k, '')]: the value of the last item with key [k],
    [None] standing for the default [''] (which no character equals). *)
Definition quote_get (k : option char) : option char :=
  match k with
  | None => None
  | Some q =>
      fold_left
        (fun acc kv => if N.eqb (fst kv) q then Some (snd kv) else acc)
        quote_pairs None
  end.

(** [char in ['。', '？', '！']] *)
Definition is_break_mark (c : char) : bool :=
  existsb (N.eqb c) [12290; 65311; 65281]%N.

(** The paragraph separator ['\n\n'] appended to [result]. *)
Definition BREAK : pystr := [NEWLINE; NEWLINE].

Record state : Type := mk_state
  { in_quotes : bool;
    current_quote_start : option char }.

Definition initial : state := mk_state false None.

(** One iteration of the [while] loop: the new state and the pieces
    appended to [result]. *)
Definition step (st : state) (c : char) : state * list pystr :=
  if negb (in_quotes st) && is_quote_key c then
    (mk_state true (Some c), [[c]])
  else if in_quotes st &&
          match quote_get (current_quote_start st) with
          | Some close => N.eqb c close
          | None => false
          end then
    (mk_state false None, [[c]])
  else if is_break_mark c then
    (st, [c] :: (if negb (in_quotes st) then [BREAK] else []))
  else
    (st, [[c]]).

(** The pieces appended while reading [content] from state [st]. *)
Fixpoint scan (st : state) (content : pystr) : list pystr :=
  match content with
  | [] => []
  | c :: rest => snd (step st c) ++ scan (fst (step st c)) rest
  end.

(** The state reached after reading [content] from [st]. *)
Definition state_after (st : state) (content : pystr) : state :=
  fold_left (fun s c => fst (step s c)) content st.

(** [re.sub(r'\n{3,}', r'\n\n', s)]: [run] newlines are pending. *)
Definition flush (run : nat) : pystr :=
  repeat NEWLINE (if (3 <=? run)%nat then 2 else run).

Fixpoint collapse_loop (run : nat) (s : pystr) : pystr :=
  match s with
  | [] => flush run
  | c :: s' =>
      if N.eqb c NEWLINE then collapse_loop (S run) s'
      else flush run ++ c :: collapse_loop 0 s'
  end.

Definition collapse_newlines (s : pystr) : pystr := collapse_loop 0 s.

Definition process_content (content : pystr) : pystr :=
  collapse_newlines (concat (scan initial content)).

(** The text of the design document,
    ["SU7真能把BBA按地上摩擦？" 接下来...] with ASCII quotes and dots, and the
    same text ended by a full-width full stop. *)
Definition EXAMPLE_QUOTED : pystr :=
  [34; 83; 85; 55; 30495; 33021; 25226; 66; 66; 65; 25353; 22320; 19978;
   25705; 25830; 65311; 34]%N.
Definition EXAMPLE : pystr :=
  EXAMPLE_QUOTED ++ [32; 25509; 19979; 26469; 46; 46; 46]%N.
Definition EXAMPLE_FULL_STOP : pystr :=
  EXAMPLE_QUOTED ++ [32; 25509; 19979; 26469; 12290]%N.

End Segmenter.

(** ** What the repository takes from outside *)

Import Py.

(** The result of reading the pages of a PDF inside a [try] block: the
    texts obtained before the block ended, and the message [str(e)] of the
    exception that ended it, if one did. *)
Record pages (T : Type) : Type := mk_pages
  { pages_read : list T;
    pages_raised : option pystr }.

Class Host : Type :=
  { (** [jieba.lcut] *)
    lcut : pystr -> list pystr;
    (** Unicode alphabetic characters: [w.isalpha()] asks it of every
        character of a non-empty [w]. *)
    isalpha_char : char -> bool;
    (** The class [\d] of [re] (Unicode decimal digits). *)
    isdecimal_char : char -> bool;
    (** The class [\w] of [re]. *)
    isword_char : char -> bool;
    (** [os.path.join] *)
    path_join : pystr -> pystr -> pystr;
    (** [PDF_AVAILABLE]: both PDF libraries could be imported. *)
    pdf_available : bool;
    (** [pdfplumber.open(path)] and [page.extract_text()] over its pages;
        a page without text yields [None]. *)
    pdfplumber_pages : pystr -> pages (option pystr);
    (** [PyPDF2.PdfReader] and [page.extract_text()] over its pages. *)
    pypdf2_pages : pystr -> pages pystr;
    (** [open(path).read()]: the content, or [str(e)] of the exception. *)
    read_text : pystr -> pystr + pystr;
    (** [os.path.relpath] *)
    path_relpath : pystr -> pystr -> pystr;
    (** The values of [yaml.safe_load], which returns [None] here when it
        raises, and their truth value. *)
    yaml : Type;
    yaml_safe_load : pystr -> option yaml;
    yaml_truthy : yaml -> bool }.

(** [w.isalpha()] *)
Definition isalpha `{Host} (w : pystr) : bool :=
  truthy w && forallb isalpha_char w.

(** ** The plain-text analyzer ([03-Doc&Analy/docana.py]) *)

Module Docana.

Definition weights : dict Q :=
  [ ("number"%string, 3.0); ("time"%string, 2.5); ("entity"%string, 2.0);
    ("professional"%string, 2.0); ("verb"%string, 1.5);
    ("conjunction"%string, 1.0); ("modifier"%string, -0.5) ]%Q.

Definition time_keywords : list pystr :=
  [ [24180] (* 年 *); [26376] (* 月 *); [26085] (* 日 *)
  ; [26102] (* 时 *); [20998] (* 分 *); [31186] (* 秒 *)
  ; [20170; 22825] (* 今天 *); [26152; 22825] (* 昨天 *); [26126; 22825] (* 明天 *)
  ; [29616; 22312] (* 现在 *); [30446; 21069] (* 目前 *); [24403; 21069] (* 当前 *)
  ; [36817; 26399] (* 近期 *); [26368; 36817] (* 最近 *); [26410; 26469] (* 未来 *)
  ; [36807; 21435] (* 过去 *); [20197; 21069] (* 以前 *); [20043; 21518] (* 之后 *) ]%N.

Definition conjunction_keywords : list pystr :=
  [ [22240; 27492] (* 因此 *); [25152; 20197] (* 所以 *); [28982; 32780] (* 然而 *)
  ; [20294; 26159] (* 但是 *); [21516; 26102] (* 同时 *); [21478; 22806] (* 另外 *)
  ; [27492; 22806] (* 此外 *); [32780; 19988] (* 而且 *); [19981; 36807] (* 不过 *)
  ; [34429; 28982] (* 虽然 *); [23613; 31649] (* 尽管 *); [30001; 20110] (* 由于 *)
  ; [37492; 20110] (* 鉴于 *); [22522; 20110] (* 基于 *); [36890; 36807] (* 通过 *) ]%N.

Definition modifier_keywords : list pystr :=
  [ [24456] (* 很 *); [38750; 24120] (* 非常 *); [29305; 21035] (* 特别 *)
  ; [21313; 20998] (* 十分 *); [30456; 24403] (* 相当 *); [27604; 36739] (* 比较 *)
  ; [36739; 20026] (* 较为 *); [26497; 20854] (* 极其 *); [30456; 23545] (* 相对 *)
  ; [22522; 26412] (* 基本 *); [22823; 27010] (* 大概 *); [21487; 33021] (* 可能 *)
  ; [25110; 35768] (* 或许 *); [20284; 20046] (* 似乎 *); [22909; 20687] (* 好像 *) ]%N.

Definition professional_terms_vocab : list pystr :=
  [ [25968; 25454] (* 数据 *); [20998; 26512] (* 分析 *); [31995; 32479] (* 系统 *)
  ; [24179; 21488] (* 平台 *); [25216; 26415] (* 技术 *); [31639; 27861] (* 算法 *)
  ; [27169; 22411] (* 模型 *); [26694; 26550] (* 框架 *); [26550; 26500] (* 架构 *)
  ; [26041; 26696] (* 方案 *); [31574; 30053] (* 策略 *); [26426; 21046] (* 机制 *)
  ; [27969; 31243] (* 流程 *); [26631; 20934] (* 标准 *); [35268; 33539] (* 规范 *)
  ; [25351; 26631] (* 指标 *) ]%N.

(** The quality labels ["高"], ["中"] and ["低"]. *)
Definition HIGH : pystr := [39640]%N.
Definition MEDIUM : pystr := [20013]%N.
Definition LOW : pystr := [20302]%N.

(** The dict [stats] of [analyze_sentence]. *)
Record stats : Type := mk_stats
  { numbers : nat;
    time_words : nat;
    professional_terms : nat;
    conjunctions : nat;
    modifiers : nat;
    entities : nat }.

(** The dict returned by [analyze_sentence]. *)
Record sentence_result : Type := mk_sentence_result
  { sentence : pystr;
    density : Q;
    quality : pystr;
    total_chars : nat;
    info_score : Q;
    counts : stats }.

Section Analyzer.
Context `{Host}.

Definition extract_stats (sentence : pystr) (words : list pystr) : stats :=
  {| numbers := count_numbers isdecimal_char sentence;
     time_words :=
       count (fun word => existsb (fun t => contains word t) time_keywords)
             words;
     professional_terms :=
       count (fun word => mem word professional_terms_vocab) words;
     conjunctions := count (fun word => mem word conjunction_keywords) words;
     modifiers := count (fun word => mem word modifier_keywords) words;
     entities :=
       length (filter (fun w => (1 <? length w)%nat && isalpha w) words) |}.

(** The expression bound to [info_score]. *)
Definition score (st : stats) : result Q :=
  w_number <- getitem weights "number" ;;
  w_time <- getitem weights "time" ;;
  w_professional <- getitem weights "professional" ;;
  w_conjunction <- getitem weights "conjunction" ;;
  w_modifier <- getitem weights "modifier" ;;
  Ok (of_nat (numbers st) * w_number +
      of_nat (time_words st) * w_time +
      of_nat (professional_terms st) * w_professional +
      of_nat (conjunctions st) * w_conjunction +
      of_nat (modifiers st) * w_modifier).

(** [info_score / total_chars if total_chars > 0 else 0] *)
Definition density_of (info_score : Q) (total_chars : nat) : result Q :=
  if (0 <? total_chars)%nat then truediv info_score (of_nat total_chars)
  else Ok 0.

Definition quality_of (density : Q) : pystr :=
  if gt density 0.15 then HIGH
  else if gt density 0.08 then MEDIUM
  else LOW.

Definition analyze_sentence (sentence : pystr)
  : result (option sentence_result) :=
  if negb (truthy (strip sentence)) then Ok None
  else
    let words := lcut sentence in
    let total_chars := length (remove_spaces sentence) in
    if (total_chars =? 0)%nat then Ok None
    else
      let st := extract_stats sentence words in
      info_score <- score st ;;
      density <- density_of info_score total_chars ;;
      Ok (Some {| sentence := truncate 100 sentence;
                  density := density;
                  quality := quality_of density;
                  total_chars := total_chars;
                  info_score := info_score;
                  counts := st |}).

(** The messages of the error records. *)
Definition MSG_EMPTY_TEXT : pystr := (* 文本为空 *)
  [25991; 26412; 20026; 31354]%N.
Definition MSG_NO_SENTENCES : pystr := (* 未找到有效句子 *)
  [26410; 25214; 21040; 26377; 25928; 21477; 23376]%N.
Definition MSG_ANALYSIS_FAILED : pystr := (* 句子分析失败 *)
  [21477; 23376; 20998; 26512; 22833; 36133]%N.
Definition MSG_READ_FAILED : pystr := (* PDF读取失败: *)
  [80; 68; 70; 35835; 21462; 22833; 36133; 58; 32]%N.
Definition MSG_NOT_INSTALLED : pystr := (* PDF处理库未安装 *)
  [80; 68; 70; 22788; 29702; 24211; 26410; 23433; 35013]%N.

(** [text += t + "\n"] for every [t] of [ts]. *)
Definition add_pages (text : pystr) (ts : list pystr) : pystr :=
  fold_left (fun acc t => acc ++ t ++ [NEWLINE]) ts text.

(** [if page_text:] keeps the pages that have a non-empty text. *)
Definition has_text (t : option pystr) : list pystr :=
  match t with
  | Some s => if truthy s then [s] else []
  | None => []
  end.

(** Returns [(text, error_msg)]; [text] is [None] when the libraries are
    missing. *)
Definition extract_text_from_pdf (pdf_path : pystr)
  : option pystr * option pystr :=
  if negb pdf_available then (None, Some MSG_NOT_INSTALLED)
  else
    let first := pdfplumber_pages pdf_path in
    let text := add_pages [] (flat_map has_text (pages_read first)) in
    match pages_raised first with
    | None => (Some (strip text), None)
    | Some _ =>
        let second := pypdf2_pages pdf_path in
        let text := add_pages text (pages_read second) in
        match pages_raised second with
        | None => (Some (strip text), None)
        | Some e2 => (Some (strip text), Some (MSG_READ_FAILED ++ e2))
        end
    end.

(** The characters the second substitution of [clean_text] keeps. *)
Definition kept_char (c : char) : bool :=
  ((19968 <=? c) && (c <=? 40959))%N
  || isword_char c || isspace c
  || existsb (N.eqb c)
       [12290; 65281; 65311; 65292; 12289; 65307; 65306; 34;
        65288; 65289; 12304; 12305; 12298; 12299;
        46; 33; 63; 44; 59; 58; 40; 41; 91; 93; 34; 39]%N.

Definition clean_text (text : option pystr) : pystr :=
  match text with
  | None => []
  | Some text =>
      if negb (truthy text) then []
      else
        let text := sub_runs isspace false text in
        let text := sub_runs (fun c => negb (kept_char c)) false text in
        strip text
  end.

(** The record returned when no sentence could be scored. *)
Record error_record : Type := mk_error_record
  { e_filename : pystr;
    e_error : pystr;
    e_total_sentences : nat;
    e_average_density : Q;
    e_high_quality_ratio : Q;
    e_sentences : list sentence_result }.

Record quality_distribution : Type := mk_quality_distribution
  { high_count : nat;
    medium_count : nat;
    low_count : nat }.

Record content_stats : Type := mk_content_stats
  { numbers_count : nat;
    time_words_count : nat;
    avg_sentence_length : Q }.

Record document : Type := mk_document
  { filename : pystr;
    total_sentences : nat;
    doc_total_chars : nat;
    average_density : Q;
    high_quality_ratio : Q;
    distribution : quality_distribution;
    doc_content_stats : content_stats;
    sentences : list sentence_result }.

(** A result dict either has the key ['error'] or has the statistics. *)
Inductive doc_result : Type :=
| WithError (e : error_record)
| Analyzed (d : document).

Definition error_result (filename message : pystr) : doc_result :=
  WithError {| e_filename := filename;
               e_error := message;
               e_total_sentences := 0;
               e_average_density := 0;
               e_high_quality_ratio := 0;
               e_sentences := [] |}.

(** [r['total_sentences']], [r['high_quality_ratio']] and
    [r['average_density']], keys that both shapes have. *)
Definition result_total_sentences (r : doc_result) : nat :=
  match r with
  | WithError e => e_total_sentences e
  | Analyzed d => total_sentences d
  end.

Definition result_high_quality_ratio (r : doc_result) : Q :=
  match r with
  | WithError e => e_high_quality_ratio e
  | Analyzed d => high_quality_ratio d
  end.

Definition result_average_density (r : doc_result) : Q :=
  match r with
  | WithError e => e_average_density e
  | Analyzed d => average_density d
  end.

(** [[s.strip() for s in sentences if s.strip() and len(s.strip()) > 5]] *)
Definition keep_candidate (s : pystr) : bool :=
  truthy (strip s) && (5 <? length (strip s))%nat.

Definition candidates (text : pystr) : list pystr :=
  map strip (filter keep_candidate (split_sentences text)).

(** The loop over [sentences]: a result is appended unless it is [None]. *)
Fixpoint analyze_each (sentences : list pystr)
  : result (list sentence_result) :=
  match sentences with
  | [] => Ok []
  | s :: rest =>
      r <- analyze_sentence s ;;
      rs <- analyze_each rest ;;
      Ok (match r with
          | Some x => x :: rs
          | None => rs
          end)
  end.

Definition count_quality (label : pystr) (rs : list sentence_result) : nat :=
  length (filter (fun r => Py.eqb (quality r) label) rs).

Definition analyze_text (text filename : pystr) : result doc_result :=
  if negb (truthy text) then Ok (error_result filename MSG_EMPTY_TEXT)
  else
    let sentences := candidates text in
    match sentences with
    | [] => Ok (error_result filename MSG_NO_SENTENCES)
    | _ :: _ =>
        sentence_results <- analyze_each sentences ;;
        match sentence_results with
        | [] => Ok (error_result filename MSG_ANALYSIS_FAILED)
        | _ :: _ =>
            let densities := map density sentence_results in
            average_density <-
              truediv (sumQ densities) (of_nat (length densities)) ;;
            let high_quality_count := count_quality HIGH sentence_results in
            high_quality_ratio <-
              truediv (of_nat high_quality_count)
                      (of_nat (length sentence_results)) ;;
            let total_chars := sum (map total_chars sentence_results) in
            let total_numbers :=
              sum (map (fun r => numbers (counts r)) sentence_results) in
            let total_time_words :=
              sum (map (fun r => time_words (counts r)) sentence_results) in
            avg_sentence_length <-
              truediv (of_nat total_chars)
                      (of_nat (length sentence_results)) ;;
            Ok (Analyzed
                  {| filename := filename;
                     total_sentences := length sentence_results;
                     doc_total_chars := total_chars;
                     average_density := average_density;
                     high_quality_ratio := high_quality_ratio;
                     distribution :=
                       {| high_count := count_quality HIGH sentence_results;
                          medium_count :=
                            count_quality MEDIUM sentence_results;
                          low_count := count_quality LOW sentence_results |};
                     doc_content_stats :=
                       {| numbers_count := total_numbers;
                          time_words_count := total_time_words;
                          avg_sentence_length := avg_sentence_length |};
                     sentences := firstn 10 sentence_results |})
        end
    end.

(** An entry of [failed_files]. *)
Record failure : Type := mk_failure
  { f_filename : pystr;
    f_error : pystr }.

(** The body of the loop of [analyze_pdf_folder] over [pdf_files], on the
    lists [results] and [failed_files]. *)
Definition folder_step (folder_path : pystr)
           (acc : list doc_result * list failure) (filename : pystr)
  : result (list doc_result * list failure) :=
  let '(results, failed_files) := acc in
  let pdf_path := path_join folder_path filename in
  let '(text, error) := extract_text_from_pdf pdf_path in
  if truthy_opt error then
    Ok (results,
        failed_files ++
          [{| f_filename := filename;
              f_error := match error with Some e => e | None => [] end |}])
  else
    let clean := clean_text text in
    r <- analyze_text clean filename ;;
    Ok (results ++ [r], failed_files).

Fixpoint folder_loop (folder_path : pystr)
         (acc : list doc_result * list failure) (pdf_files : list pystr)
  : result (list doc_result * list failure) :=
  match pdf_files with
  | [] => Ok acc
  | filename :: rest =>
      acc' <- folder_step folder_path acc filename ;;
      folder_loop folder_path acc' rest
  end.

(** [results] and [failed_files] as [analyze_pdf_folder] hands them to
    [generate_reports]. *)
Definition analyze_pdf_folder (folder_path : pystr)
           (pdf_files : list pystr)
  : result (list doc_result * list failure) :=
  folder_loop folder_path ([], []) pdf_files.

(** [[r for r in results if 'error' not in r]] *)
Definition valid_results (results : list doc_result) : list document :=
  flat_map (fun r => match r with
                     | Analyzed d => [d]
                     | WithError _ => []
                     end) results.

(** The figures of the overall section of [generate_summary_report]. *)
Record overall : Type := mk_overall
  { all_sentences : nat;
    all_chars : nat;
    avg_density : Q;
    high_quality_sentences : nat;
    overall_high_quality_ratio : Q;
    sorted_results : list document;
    listed : list document }.

Record summary : Type := mk_summary
  { total_files : nat;
    successful : nat;
    failed : nat;
    stats_section : option overall;
    failed_section : list failure }.

Definition overall_stats (valid : list document) : result overall :=
  let total_sentences := sum (map total_sentences valid) in
  let total_chars := sum (map doc_total_chars valid) in
  avg_density <-
    truediv (sumQ (map average_density valid)) (of_nat (length valid)) ;;
  let high_quality_sentences :=
    sum (map (fun r => high_count (distribution r)) valid) in
  high_quality_ratio <-
    (if (0 <? total_sentences)%nat then
       truediv (of_nat high_quality_sentences) (of_nat total_sentences)
     else Ok 0) ;;
  let sorted_results := sorted_desc average_density valid in
  Ok {| all_sentences := total_sentences;
        all_chars := total_chars;
        avg_density := avg_density;
        high_quality_sentences := high_quality_sentences;
        overall_high_quality_ratio := high_quality_ratio;
        sorted_results := sorted_results;
        listed := firstn 10 sorted_results |}.

Definition generate_summary_report (results : list doc_result)
           (failed_files : list failure) : result summary :=
  let valid := valid_results results in
  section <-
    match valid with
    | [] => Ok None
    | _ :: _ => o <- overall_stats valid ;; Ok (Some o)
    end ;;
  Ok {| total_files := length results + length failed_files;
        successful := length valid;
        failed := length failed_files;
        stats_section := section;
        failed_section := failed_files |}.

End Analyzer.
End Docana.

(** ** The markdown analyzer ([03-Doc&Analy/mdana.py]) *)

Module Mdana.

Definition weights : dict Q :=
  [ ("number"%string, 3.0); ("time"%string, 2.5); ("entity"%string, 2.0);
    ("professional"%string, 2.0); ("code"%string, 2.5);
    ("link"%string, 1.5); ("verb"%string, 1.5);
    ("conjunction"%string, 1.0); ("modifier"%string, -0.5);
    ("list_item"%string, 1.2); ("heading"%string, 1.8) ]%Q.

Definition time_keywords : list pystr :=
  [ [24180] (* 年 *); [26376] (* 月 *); [26085] (* 日 *)
  ; [26102] (* 时 *); [20998] (* 分 *); [31186] (* 秒 *)
  ; [20170; 22825] (* 今天 *); [26152; 22825] (* 昨天 *); [26126; 22825] (* 明天 *)
  ; [29616; 22312] (* 现在 *); [30446; 21069] (* 目前 *); [24403; 21069] (* 当前 *)
  ; [36817; 26399] (* 近期 *); [26368; 36817] (* 最近 *); [26410; 26469] (* 未来 *)
  ; [36807; 21435] (* 过去 *); [20197; 21069] (* 以前 *); [20043; 21518] (* 之后 *)
  ; [50; 48; 50; 51] (* 2023 *); [50; 48; 50; 52] (* 2024 *); [50; 48; 50; 53] (* 2025 *) ]%N.

Definition conjunction_keywords : list pystr :=
  [ [22240; 27492] (* 因此 *); [25152; 20197] (* 所以 *); [28982; 32780] (* 然而 *)
  ; [20294; 26159] (* 但是 *); [21516; 26102] (* 同时 *); [21478; 22806] (* 另外 *)
  ; [27492; 22806] (* 此外 *); [32780; 19988] (* 而且 *); [19981; 36807] (* 不过 *)
  ; [34429; 28982] (* 虽然 *); [23613; 31649] (* 尽管 *); [30001; 20110] (* 由于 *)
  ; [37492; 20110] (* 鉴于 *); [22522; 20110] (* 基于 *); [36890; 36807] (* 通过 *)
  ; [39318; 20808] (* 首先 *); [20854; 27425] (* 其次 *); [26368; 21518] (* 最后 *)
  ; [24635; 20043] (* 总之 *); [32508; 19978] (* 综上 *); [25442; 35328; 20043] (* 换言之 *) ]%N.

Definition modifier_keywords : list pystr :=
  [ [24456] (* 很 *); [38750; 24120] (* 非常 *); [29305; 21035] (* 特别 *)
  ; [21313; 20998] (* 十分 *); [30456; 24403] (* 相当 *); [27604; 36739] (* 比较 *)
  ; [36739; 20026] (* 较为 *); [26497; 20854] (* 极其 *); [30456; 23545] (* 相对 *)
  ; [22522; 26412] (* 基本 *); [22823; 27010] (* 大概 *); [21487; 33021] (* 可能 *)
  ; [25110; 35768] (* 或许 *); [20284; 20046] (* 似乎 *); [22909; 20687] (* 好像 *)
  ; [25402] (* 挺 *); [34542] (* 蛮 *); [36824; 26159] (* 还是 *)
  ; [27604; 36739] (* 比较 *) ]%N.

Definition professional_terms_vocab : list pystr :=
  [ [31639; 27861] (* 算法 *); [25968; 25454; 32467; 26500] (* 数据结构 *); [26426; 22120; 23398; 20064] (* 机器学习 *)
  ; [28145; 24230; 23398; 20064] (* 深度学习 *); [20154; 24037; 26234; 33021] (* 人工智能 *); [31070; 32463; 32593; 32476] (* 神经网络 *)
  ; [25968; 25454; 24211] (* 数据库 *); [26550; 26500] (* 架构 *); [26694; 26550] (* 框架 *)
  ; [65; 80; 73] (* API *); [25509; 21475] (* 接口 *); [21327; 35758] (* 协议 *)
  ; [26381; 21153; 22120] (* 服务器 *); [23458; 25143; 31471] (* 客户端 *); [21069; 31471] (* 前端 *)
  ; [21518; 31471] (* 后端 *); [20840; 26632] (* 全栈 *); [24494; 26381; 21153] (* 微服务 *)
  ; [23481; 22120] (* 容器 *); [20113; 35745; 31639] (* 云计算 *); [22823; 25968; 25454] (* 大数据 *)
  ; [21306; 22359; 38142] (* 区块链 *); [29289; 32852; 32593] (* 物联网 *); [36793; 32536; 35745; 31639] (* 边缘计算 *)
  ; [20998; 24067; 24335] (* 分布式 *); [24182; 21457] (* 并发 *); [24322; 27493] (* 异步 *)
  ; [21516; 27493] (* 同步 *); [32531; 23384] (* 缓存 *); [32034; 24341] (* 索引 *)
  ; [20248; 21270] (* 优化 *); [24615; 33021] (* 性能 *); [23433; 20840] (* 安全 *)
  ; [21152; 23494] (* 加密 *); [35748; 35777] (* 认证 *); [25480; 26435] (* 授权 *) ]%N.

Definition HIGH : pystr := [39640]%N.
Definition MEDIUM : pystr := [20013]%N.
Definition LOW : pystr := [20302]%N.

(** [len(re.findall(r'`[^`]+`', s))]: a backquote, at least one other
    character, a backquote. After an opening backquote a second one
    at once makes the first fail and opens anew. *)
Inductive code_state := CodeOut | CodeOpen | CodeBody.

Fixpoint code_loop (st : code_state) (s : pystr) : nat :=
  match s with
  | [] => 0
  | c :: s' =>
      match st with
      | CodeOut =>
          if N.eqb c 96 then code_loop CodeOpen s' else code_loop CodeOut s'
      | CodeOpen =>
          if N.eqb c 96 then code_loop CodeOpen s' else code_loop CodeBody s'
      | CodeBody =>
          if N.eqb c 96 then S (code_loop CodeOut s')
          else code_loop CodeBody s'
      end
  end.

Definition count_code_snippets (s : pystr) : nat := code_loop CodeOut s.

(** [len(re.findall(r'\[([^\]]+)\]\([^\)]+\)', s))]: [[text](target)]
    with a non-empty text without []] and a non-empty target without
    [)]. When an attempt fails, no later start inside it can succeed,
    and the scan goes on at the character that made it fail. *)
Inductive link_state :=
| LinkOut | LinkOpen | LinkText | LinkClosed | LinkParen | LinkTarget.

Fixpoint link_loop (st : link_state) (s : pystr) : nat :=
  match s with
  | [] => 0
  | c :: s' =>
      match st with
      | LinkOut =>
          if N.eqb c 91 then link_loop LinkOpen s' else link_loop LinkOut s'
      | LinkOpen =>
          if N.eqb c 93 then link_loop LinkOut s' else link_loop LinkText s'
      | LinkText =>
          if N.eqb c 93 then link_loop LinkClosed s'
          else link_loop LinkText s'
      | LinkClosed =>
          if N.eqb c 40 then link_loop LinkParen s'
          else if N.eqb c 91 then link_loop LinkOpen s'
          else link_loop LinkOut s'
      | LinkParen =>
          if N.eqb c 41 then link_loop LinkOut s'
          else link_loop LinkTarget s'
      | LinkTarget =>
          if N.eqb c 41 then S (link_loop LinkOut s')
          else link_loop LinkTarget s'
      end
  end.

Definition count_links (s : pystr) : nat := link_loop LinkOut s.

(** The dict built by [get_sentence_context]. *)
Record context : Type := mk_context
  { is_heading : bool;
    is_list_item : bool;
    is_blockquote : bool;
    heading_level : nat }.

Record stats : Type := mk_stats
  { numbers : nat;
    time_words : nat;
    professional_terms : nat;
    conjunctions : nat;
    modifiers : nat;
    entities : nat;
    code_snippets : nat;
    links : nat }.

Record sentence_result : Type := mk_sentence_result
  { sentence : pystr;
    density : Q;
    quality : pystr;
    total_chars : nat;
    info_score : Q;
    sentence_context : option context;
    counts : stats }.

(** The figures of [calculate_markdown_stats] that the corpus statistics
    read. *)
Record markdown_stats : Type := mk_markdown_stats
  { headings_count : nat;
    code_blocks_count : nat;
    inline_codes_count : nat;
    links_count : nat;
    images_count : nat;
    list_items_count : nat;
    blockquotes_count : nat;
    tables_count : nat;
    content_lines : nat;
    structure_ratio : Q;
    code_density : Q }.

Section Analyzer.
Context `{Host}.

(** The regular-expression passes over the whole document are left
    uninterpreted: what follows holds whatever they return.
    [markdown_stats_of content] stands for
    [calculate_markdown_stats(extract_markdown_elements(content), content)]. *)
Variable get_sentence_context : pystr -> pystr -> context.
Variable clean_markdown_text : pystr -> pystr.
Variable markdown_stats_of : pystr -> markdown_stats.

Definition extract_stats (sentence : pystr) (words : list pystr) : stats :=
  {| numbers := count_numbers isdecimal_char sentence;
     time_words :=
       count (fun word => existsb (fun t => contains word t) time_keywords)
             words;
     professional_terms :=
       count (fun word => mem word professional_terms_vocab) words;
     conjunctions := count (fun word => mem word conjunction_keywords) words;
     modifiers := count (fun word => mem word modifier_keywords) words;
     entities :=
       length (filter (fun w => (1 <? length w)%nat && isalpha w) words);
     code_snippets := count_code_snippets sentence;
     links := count_links sentence |}.

(** The block that computes [context_bonus]; [None] is the default
    argument, and a context dict always has its four keys. *)
Definition context_bonus (ctx : option context) : result Q :=
  match ctx with
  | None => Ok 0
  | Some c =>
      b1 <- (if is_heading c then
               w <- getitem weights "heading" ;; Ok (0 + w)
             else Ok 0) ;;
      if is_list_item c then
        w <- getitem weights "list_item" ;; Ok (b1 + w)
      else Ok b1
  end.

(** The expression bound to [info_score]. *)
Definition score (st : stats) (bonus : Q) : result Q :=
  w_number <- getitem weights "number" ;;
  w_time <- getitem weights "time" ;;
  w_professional <- getitem weights "professional" ;;
  w_conjunction <- getitem weights "conjunction" ;;
  w_modifier <- getitem weights "modifier" ;;
  w_code <- getitem weights "code" ;;
  w_link <- getitem weights "link" ;;
  Ok (of_nat (numbers st) * w_number +
      of_nat (time_words st) * w_time +
      of_nat (professional_terms st) * w_professional +
      of_nat (conjunctions st) * w_conjunction +
      of_nat (modifiers st) * w_modifier +
      of_nat (code_snippets st) * w_code +
      of_nat (links st) * w_link +
      bonus).

Definition density_of (info_score : Q) (total_chars : nat) : result Q :=
  if (0 <? total_chars)%nat then truediv info_score (of_nat total_chars)
  else Ok 0.

Definition quality_of (density : Q) : pystr :=
  if gt density 0.12 then HIGH
  else if gt density 0.06 then MEDIUM
  else LOW.

Definition analyze_sentence (sentence : pystr) (ctx : option context)
  : result (option sentence_result) :=
  if negb (truthy (strip sentence)) then Ok None
  else
    let words := lcut sentence in
    let total_chars := length (remove_spaces sentence) in
    if (total_chars =? 0)%nat then Ok None
    else
      let st := extract_stats sentence words in
      bonus <- context_bonus ctx ;;
      info_score <- score st bonus ;;
      density <- density_of info_score total_chars ;;
      Ok (Some {| sentence := truncate 150 sentence;
                  density := density;
                  quality := quality_of density;
                  total_chars := total_chars;
                  info_score := info_score;
                  sentence_context := ctx;
                  counts := st |}).

Definition MSG_EMPTY_CONTENT : pystr := (* 内容为空 *)
  [20869; 23481; 20026; 31354]%N.
Definition MSG_NO_SENTENCES : pystr := (* 未找到有效句子 *)
  [26410; 25214; 21040; 26377; 25928; 21477; 23376]%N.
Definition MSG_ANALYSIS_FAILED : pystr := (* 句子分析失败 *)
  [21477; 23376; 20998; 26512; 22833; 36133]%N.

(** The record returned when no sentence could be scored; its
    [markdown_stats] is the empty dict ([None]) for an empty content. *)
Record error_record : Type := mk_error_record
  { e_filename : pystr;
    e_error : pystr;
    e_total_sentences : nat;
    e_average_density : Q;
    e_high_quality_ratio : Q;
    e_markdown_stats : option markdown_stats;
    e_sentences : list sentence_result }.

Record quality_distribution : Type := mk_quality_distribution
  { high_count : nat;
    medium_count : nat;
    low_count : nat }.

Record content_stats : Type := mk_content_stats
  { numbers_count : nat;
    time_words_count : nat;
    professional_terms_count : nat;
    code_snippets_count : nat;
    content_links_count : nat;
    avg_sentence_length : Q }.

Record document : Type := mk_document
  { filename : pystr;
    total_sentences : nat;
    doc_total_chars : nat;
    average_density : Q;
    high_quality_ratio : Q;
    distribution : quality_distribution;
    doc_markdown_stats : markdown_stats;
    doc_content_stats : content_stats;
    sentences : list sentence_result }.

Inductive doc_result : Type :=
| WithError (e : error_record)
| Analyzed (d : document).

Definition error_result (filename message : pystr)
           (md : option markdown_stats) : doc_result :=
  WithError {| e_filename := filename;
               e_error := message;
               e_total_sentences := 0;
               e_average_density := 0;
               e_high_quality_ratio := 0;
               e_markdown_stats := md;
               e_sentences := [] |}.

Definition result_total_sentences (r : doc_result) : nat :=
  match r with
  | WithError e => e_total_sentences e
  | Analyzed d => total_sentences d
  end.

Definition result_high_quality_ratio (r : doc_result) : Q :=
  match r with
  | WithError e => e_high_quality_ratio e
  | Analyzed d => high_quality_ratio d
  end.

Definition result_average_density (r : doc_result) : Q :=
  match r with
  | WithError e => e_average_density e
  | Analyzed d => average_density d
  end.

(** [[s.strip() for s in sentences if s.strip() and len(s.strip()) > 3]] *)
Definition keep_candidate (s : pystr) : bool :=
  truthy (strip s) && (3 <? length (strip s))%nat.

Definition candidates (clean_text : pystr) : list pystr :=
  map strip (filter keep_candidate (split_sentences clean_text)).

Fixpoint analyze_each (content : pystr) (sentences : list pystr)
  : result (list sentence_result) :=
  match sentences with
  | [] => Ok []
  | s :: rest =>
      let ctx := get_sentence_context s content in
      r <- analyze_sentence s (Some ctx) ;;
      rs <- analyze_each content rest ;;
      Ok (match r with
          | Some x => x :: rs
          | None => rs
          end)
  end.

Definition count_quality (label : pystr) (rs : list sentence_result) : nat :=
  length (filter (fun r => Py.eqb (quality r) label) rs).

(** [content] is [None] when [parse_markdown_file] could not read. *)
Definition analyze_markdown_content (content : option pystr)
           (filename : pystr) : result doc_result :=
  match content with
  | None => Ok (error_result filename MSG_EMPTY_CONTENT None)
  | Some content =>
      if negb (truthy content) then
        Ok (error_result filename MSG_EMPTY_CONTENT None)
      else
        let clean_text := clean_markdown_text content in
        let sentences := candidates clean_text in
        match sentences with
        | [] =>
            Ok (error_result filename MSG_NO_SENTENCES
                             (Some (markdown_stats_of content)))
        | _ :: _ =>
            sentence_results <- analyze_each content sentences ;;
            match sentence_results with
            | [] =>
                Ok (error_result filename MSG_ANALYSIS_FAILED
                                 (Some (markdown_stats_of content)))
            | _ :: _ =>
                let densities := map density sentence_results in
                average_density <-
                  truediv (sumQ densities) (of_nat (length densities)) ;;
                let high_quality_count :=
                  count_quality HIGH sentence_results in
                high_quality_ratio <-
                  truediv (of_nat high_quality_count)
                          (of_nat (length sentence_results)) ;;
                let chars := sum (map total_chars sentence_results) in
                avg_sentence_length <-
                  truediv (of_nat chars)
                          (of_nat (length sentence_results)) ;;
                Ok (Analyzed
                      {| filename := filename;
                         total_sentences := length sentence_results;
                         doc_total_chars := chars;
                         average_density := average_density;
                         high_quality_ratio := high_quality_ratio;
                         distribution :=
                           {| high_count :=
                                count_quality HIGH sentence_results;
                              medium_count :=
                                count_quality MEDIUM sentence_results;
                              low_count :=
                                count_quality LOW sentence_results |};
                         doc_markdown_stats := markdown_stats_of content;
                         doc_content_stats :=
                           {| numbers_count :=
                                sum (map (fun r => numbers (counts r))
                                         sentence_results);
                              time_words_count :=
                                sum (map (fun r => time_words (counts r))
                                         sentence_results);
                              professional_terms_count :=
                                sum (map (fun r =>
                                            professional_terms (counts r))
                                         sentence_results);
                              code_snippets_count :=
                                sum (map (fun r => code_snippets (counts r))
                                         sentence_results);
                              content_links_count :=
                                sum (map (fun r => links (counts r))
                                         sentence_results);
                              avg_sentence_length := avg_sentence_length |};
                         sentences := firstn 15 sentence_results |})
            end
        end
  end.

(** [s.split('---', 1)] when the separator occurs: the text before its
    first occurrence and the text after it. *)
Definition FENCE : pystr := [45; 45; 45]%N.

Fixpoint split_fence (s : pystr) : option (pystr * pystr) :=
  if startswith s FENCE then Some ([], skipn 3 s)
  else
    match s with
    | [] => None
    | c :: s' =>
        match split_fence s' with
        | Some (before, after) => Some (c :: before, after)
        | None => None
        end
    end.

(** Returns [(body_content, front_matter, error)]; the front matter is
    [None] for the empty dict. *)
Definition parse_markdown_file (file_path : pystr)
  : option pystr * option yaml * option pystr :=
  match read_text file_path with
  | inr message => (None, None, Some message)
  | inl content =>
      if startswith content FENCE then
        match split_fence (skipn 3 content) with
        | Some (header, rest) =>
            match yaml_safe_load header with
            | Some y =>
                (Some (strip rest),
                 if yaml_truthy y then Some y else None,
                 None)
            | None => (Some content, None, None)
            end
        | None => (Some content, None, None)
        end
      else (Some content, None, None)
  end.

Record failure : Type := mk_failure
  { f_filename : pystr;
    f_error : pystr }.

(** A result dict once [front_matter] and [file_path] are added. *)
Record file_result : Type := mk_file_result
  { analysis : doc_result;
    front_matter : option yaml;
    file_path : pystr }.

Definition folder_step (folder_path : pystr)
           (acc : list file_result * list failure) (path : pystr)
  : result (list file_result * list failure) :=
  let '(results, failed_files) := acc in
  let filename := path_relpath path folder_path in
  let '(content, fm, error) := parse_markdown_file path in
  if truthy_opt error then
    Ok (results,
        failed_files ++
          [{| f_filename := filename;
              f_error := match error with Some e => e | None => [] end |}])
  else
    r <- analyze_markdown_content content filename ;;
    Ok (results ++
          [{| analysis := r; front_matter := fm; file_path := path |}],
        failed_files).

Fixpoint folder_loop (folder_path : pystr)
         (acc : list file_result * list failure) (md_files : list pystr)
  : result (list file_result * list failure) :=
  match md_files with
  | [] => Ok acc
  | path :: rest =>
      acc' <- folder_step folder_path acc path ;;
      folder_loop folder_path acc' rest
  end.

Definition analyze_markdown_folder (folder_path : pystr)
           (md_files : list pystr)
  : result (list file_result * list failure) :=
  folder_loop folder_path ([], []) md_files.

Definition valid_results (results : list file_result) : list document :=
  flat_map (fun r => match analysis r with
                     | Analyzed d => [d]
                     | WithError _ => []
                     end) results.

(** The dict of [calculate_global_stats], its nested dicts flattened. *)
Record global_stats : Type := mk_global_stats
  { g_total_sentences : nat;
    g_total_characters : nat;
    g_average_density : Q;
    g_high_quality_ratio : Q;
    g_total_headings : nat;
    g_total_code_blocks : nat;
    g_total_links : nat;
    g_total_images : nat;
    g_avg_headings_per_doc : Q;
    g_avg_code_blocks_per_doc : Q;
    g_total_professional_terms : nat;
    g_total_numbers : nat;
    g_total_time_words : nat;
    g_avg_sentence_length : Q }.

(** [None] is the empty dict returned when no result is valid. *)
Definition calculate_global_stats (results : list file_result)
  : result (option global_stats) :=
  let valid := valid_results results in
  match valid with
  | [] => Ok None
  | _ :: _ =>
      let n := of_nat (length valid) in
      let total_sentences := sum (map total_sentences valid) in
      let total_chars := sum (map doc_total_chars valid) in
      let total_high_quality :=
        sum (map (fun r => high_count (distribution r)) valid) in
      let total_headings :=
        sum (map (fun r => headings_count (doc_markdown_stats r)) valid) in
      let total_code_blocks :=
        sum (map (fun r => code_blocks_count (doc_markdown_stats r)) valid) in
      let total_links :=
        sum (map (fun r => links_count (doc_markdown_stats r)) valid) in
      let total_images :=
        sum (map (fun r => images_count (doc_markdown_stats r)) valid) in
      average <- truediv (sumQ (map average_density valid)) n ;;
      ratio <-
        (if (0 <? total_sentences)%nat then
           truediv (of_nat total_high_quality) (of_nat total_sentences)
         else Ok 0) ;;
      avg_headings <- truediv (of_nat total_headings) n ;;
      avg_code_blocks <- truediv (of_nat total_code_blocks) n ;;
      avg_length <-
        truediv
          (sumQ (map (fun r => avg_sentence_length (doc_content_stats r))
                     valid)) n ;;
      Ok (Some
            {| g_total_sentences := total_sentences;
               g_total_characters := total_chars;
               g_average_density := average;
               g_high_quality_ratio := ratio;
               g_total_headings := total_headings;
               g_total_code_blocks := total_code_blocks;
               g_total_links := total_links;
               g_total_images := total_images;
               g_avg_headings_per_doc := avg_headings;
               g_avg_code_blocks_per_doc := avg_code_blocks;
               g_total_professional_terms :=
                 sum (map (fun r =>
                             professional_terms_count (doc_content_stats r))
                          valid);
               g_total_numbers :=
                 sum (map (fun r => numbers_count (doc_content_stats r))
                          valid);
               g_total_time_words :=
                 sum (map (fun r => time_words_count (doc_content_stats r))
                          valid);
               g_avg_sentence_length := avg_length |})
  end.

(** The ranking of [generate_summary_report]: [sorted_results] and the
    fifteen entries it lists. *)
Definition ranking (results : list file_result) : list document :=
  sorted_desc average_density (valid_results results).

Definition listed (results : list file_result) : list document :=
  firstn 15 (ranking results).

End Analyzer.
End Mdana.

(** ** Binary64 arithmetic

    Python's [float] is the IEEE 754 binary64 format. [SpecFloat] of the
    Standard Library gives its values and its correctly rounded
    operations as functions that compute; this module names the ones the
    analyzers use. *)

Module Binary64.

Definition float : Type := SpecFloat.spec_float.
Definition prec : Z := 53.
Definition emax : Z := 1024.

(** [float(n)] for an [int] [n]: what [n * w], [x + n] and [x / n] make
    of an [int] operand. *)
Definition of_int (n : Z) : float :=
  SpecFloat.binary_normalize prec emax n 0 false.

Definition of_count (n : nat) : float := of_int (Z.of_nat n).

Definition ZERO : float := of_int 0.

Definition add : float -> float -> float := SpecFloat.SFadd prec emax.
Definition mul : float -> float -> float := SpecFloat.SFmul prec emax.
Definition div : float -> float -> float := SpecFloat.SFdiv prec emax.

(** [a > b], [a <= b] and [a == b] *)
Definition gt (a b : float) : bool := SpecFloat.SFltb b a.
Definition le (a b : float) : bool := SpecFloat.SFleb a b.
Definition eqb (a b : float) : bool := SpecFloat.SFeqb a b.

(** [a / b], which raises on a zero divisor. *)
Definition truediv (a b : float) : Py.result float :=
  if eqb b ZERO then Py.Raise Py.ZeroDivisionError else Py.Ok (div a b).

(** A decimal literal of the source, read as the binary64 value nearest
    to it: the correctly rounded quotient of its numerator and its
    denominator, both of which are exact. *)
Definition literal (q : Q) : float :=
  div (of_int (Qnum q)) (of_int (Zpos (Qden q))).

End Binary64.

(** ** The markdown scores in binary64
    ([analyze_sentence] of [mdana.py], as the interpreter computes it)

    The weights 1.8 and 1.2 of the context bonus are not binary
    fractions, so the score and the density of a segment in a heading or
    a list item are rounded. What depends on that rounding is stated
    over this module. *)

Module Mdana64.

Definition weights : dict Binary64.float :=
  map (fun kv => (fst kv, Binary64.literal (snd kv))) Mdana.weights.

Record sentence_result : Type := mk_sentence_result
  { sentence : pystr;
    density : Binary64.float;
    quality : pystr;
    total_chars : nat;
    info_score : Binary64.float;
    sentence_context : option Mdana.context;
    counts : Mdana.stats }.

(** [context_bonus = 0], then [+=] the weights: the [int] 0 becomes
    [0.0] in the first sum it enters. *)
Definition context_bonus (ctx : option Mdana.context)
  : result Binary64.float :=
  match ctx with
  | None => Ok Binary64.ZERO
  | Some c =>
      b1 <- (if Mdana.is_heading c then
               w <- getitem weights "heading" ;;
               Ok (Binary64.add Binary64.ZERO w)
             else Ok Binary64.ZERO) ;;
      if Mdana.is_list_item c then
        w <- getitem weights "list_item" ;; Ok (Binary64.add b1 w)
      else Ok b1
  end.

(** The expression bound to [info_score], summed from the left. *)
Definition score (st : Mdana.stats) (bonus : Binary64.float)
  : result Binary64.float :=
  w_number <- getitem weights "number" ;;
  w_time <- getitem weights "time" ;;
  w_professional <- getitem weights "professional" ;;
  w_conjunction <- getitem weights "conjunction" ;;
  w_modifier <- getitem weights "modifier" ;;
  w_code <- getitem weights "code" ;;
  w_link <- getitem weights "link" ;;
  Ok (Binary64.add
        (Binary64.add
           (Binary64.add
              (Binary64.add
                 (Binary64.add
                    (Binary64.add
                       (Binary64.add
                          (Binary64.mul
                             (Binary64.of_count (Mdana.numbers st))
                             w_number)
                          (Binary64.mul
                             (Binary64.of_count (Mdana.time_words st))
                             w_time))
                       (Binary64.mul
                          (Binary64.of_count (Mdana.professional_terms st))
                          w_professional))
                    (Binary64.mul
                       (Binary64.of_count (Mdana.conjunctions st))
                       w_conjunction))
                 (Binary64.mul
                    (Binary64.of_count (Mdana.modifiers st)) w_modifier))
              (Binary64.mul
                 (Binary64.of_count (Mdana.code_snippets st)) w_code))
           (Binary64.mul (Binary64.of_count (Mdana.links st)) w_link))
        bonus).

Definition density_of (info_score : Binary64.float) (total_chars : nat)
  : result Binary64.float :=
  if (0 <? total_chars)%nat then
    Binary64.truediv info_score (Binary64.of_count total_chars)
  else Ok Binary64.ZERO.

Definition quality_of (density : Binary64.float) : pystr :=
  if Binary64.gt density (Binary64.literal 0.12) then Mdana.HIGH
  else if Binary64.gt density (Binary64.literal 0.06) then Mdana.MEDIUM
  else Mdana.LOW.

Section Analyzer.
Context `{Host}.

Definition analyze_sentence (sentence : pystr) (ctx : option Mdana.context)
  : result (option sentence_result) :=
  if negb (truthy (strip sentence)) then Ok None
  else
    let words := lcut sentence in
    let total_chars := length (remove_spaces sentence) in
    if (total_chars =? 0)%nat then Ok None
    else
      let st := Mdana.extract_stats sentence words in
      bonus <- context_bonus ctx ;;
      info_score <- score st bonus ;;
      density <- density_of info_score total_chars ;;
      Ok (Some {| sentence := truncate 150 sentence;
                  density := density;
                  quality := quality_of density;
                  total_chars := total_chars;
                  info_score := info_score;
                  sentence_context := ctx;
                  counts := st |}).

End Analyzer.

End Mdana64.

(** ** The documented formulas

    The coefficient table and the aggregates as the design document
    words them, to compare the code with. *)

Module Documented.

(** The weighted sum of the plain-text analyzer. *)
Definition plain_sum (numbers time_words professional_terms conjunctions
                      modifiers : nat) : Q :=
  of_nat numbers * 3.0 + of_nat time_words * 2.5
  + of_nat professional_terms * 2.0 + of_nat conjunctions * 1.0
  + of_nat modifiers * (-0.5).

(** The two further terms of the markdown analyzer. *)
Definition markdown_terms (code_snippets links : nat) : Q :=
  of_nat code_snippets * 2.5 + of_nat links * 1.5.

Definition HEADING_BONUS : Q := 1.8.
Definition LIST_ITEM_BONUS : Q := 1.2.

(** The bonus of a segment found in a heading, in a list item, or in
    both. *)
Definition bonus (heading list_item : bool) : Q :=
  (if heading then HEADING_BONUS else 0)
  + (if list_item then LIST_ITEM_BONUS else 0).

(** The bonus of the context handed to the scorer; [None] is no context. *)
Definition bonus_of (ctx : option Mdana.context) : Q :=
  match ctx with
  | None => 0
  | Some c => bonus (Mdana.is_heading c) (Mdana.is_list_item c)
  end.

(** The weighted sums of the counts of a segment. *)
Definition plain_score (st : Docana.stats) : Q :=
  plain_sum (Docana.numbers st) (Docana.time_words st)
            (Docana.professional_terms st) (Docana.conjunctions st)
            (Docana.modifiers st).

Definition markdown_score (st : Mdana.stats) : Q :=
  plain_sum (Mdana.numbers st) (Mdana.time_words st)
            (Mdana.professional_terms st) (Mdana.conjunctions st)
            (Mdana.modifiers st)
  + markdown_terms (Mdana.code_snippets st) (Mdana.links st).

(** The arithmetic mean of a list of numbers. *)
Definition mean (xs : list Q) : Q :=
  fold_right Qplus 0 xs / of_nat (length xs).

(** [xs] is in descending order of [key]. *)
Definition descending {A} (key : A -> Q) (xs : list A) : Prop :=
  StronglySorted (fun a b => key b <= key a) xs.

(** A document's extraction fails when the extractor reports an error:
    the test [if error:] of the two folder loops. *)
Definition pdf_fails `{Host} (folder_path filename : pystr) : bool :=
  truthy_opt
    (snd (Docana.extract_text_from_pdf (path_join folder_path filename))).

Definition markdown_fails `{Host} (path : pystr) : bool :=
  truthy_opt (snd (Mdana.parse_markdown_file path)).

(** The reason recorded with a failure. *)
Definition reason (error : option pystr) : pystr :=
  match error with
  | Some e => e
  | None => []
  end.

End Documented.

(** ** A small host for the examples

    Words are the runs of characters between spaces, letters are the
    ASCII letters and the CJK unified ideographs, and the file system
    holds three PDF files and three markdown files, the second of each
    unreadable. *)

Module Demo.

Fixpoint words_loop (cur : pystr) (s : pystr) : list pystr :=
  match s with
  | [] => match cur with [] => [] | _ :: _ => [rev cur] end
  | c :: s' =>
      if N.eqb c SPACE then
        match cur with
        | [] => words_loop [] s'
        | _ :: _ => rev cur :: words_loop [] s'
        end
      else words_loop (c :: cur) s'
  end.

Definition letter (c : char) : bool :=
  ((65 <=? c) && (c <=? 90) || (97 <=? c) && (c <=? 122)
   || (19968 <=? c) && (c <=? 40959))%N.

Definition digit (c : char) : bool := ((48 <=? c) && (c <=? 57))%N.

Definition SLASH : char := 47%N.

(** The file names [a], [b], [c] and the folder [d]. *)
Definition FILE_A : pystr := [97]%N.
Definition FILE_B : pystr := [98]%N.
Definition FILE_C : pystr := [99]%N.
Definition FOLDER : pystr := [100]%N.

(** "数据 分析 2024 目标" and "系统 很 稳定 运行" *)
Definition TEXT_A : pystr :=
  [25968; 25454; 32; 20998; 26512; 32; 50; 48; 50; 52; 32; 30446; 26631]%N.
Definition TEXT_C : pystr :=
  [31995; 32479; 32; 24456; 32; 31283; 23450; 32; 36816; 34892]%N.

(** "denied" *)
Definition DENIED : pystr := [100; 101; 110; 105; 101; 100]%N.

Definition content_of (path : pystr) : option pystr :=
  if Py.eqb path (FOLDER ++ SLASH :: FILE_A) then Some TEXT_A
  else if Py.eqb path (FOLDER ++ SLASH :: FILE_C) then Some TEXT_C
  else None.

#[export] Instance host : Host :=
  {| lcut := words_loop [];
     isalpha_char := letter;
     isdecimal_char := digit;
     isword_char := fun c => letter c || digit c || N.eqb c 95;
     path_join := fun folder name => folder ++ SLASH :: name;
     pdf_available := true;
     pdfplumber_pages := fun path =>
       match content_of path with
       | Some text => mk_pages [Some text] None
       | None => mk_pages [] (Some DENIED)
       end;
     pypdf2_pages := fun path =>
       match content_of path with
       | Some text => mk_pages [text] None
       | None => mk_pages [] (Some DENIED)
       end;
     read_text := fun path =>
       match content_of path with
       | Some text => inl text
       | None => inr DENIED
       end;
     path_relpath := fun path folder => skipn (S (length folder)) path;
     yaml := unit;
     yaml_safe_load := fun _ => Some tt;
     yaml_truthy := fun _ => false |}.

(** Stand-ins for the document-wide passes of the markdown analyzer. *)
Definition no_context (sentence content : pystr) : Mdana.context :=
  Mdana.mk_context false false false 0.

Definition heading_context (sentence content : pystr) : Mdana.context :=
  Mdana.mk_context true false true 1.

Definition no_markdown (content : pystr) : Mdana.markdown_stats :=
  Mdana.mk_markdown_stats 0 0 0 0 0 0 0 0 1 0 0.

(** Records of documents with a given mean density. *)
Definition plain_document (name : pystr) (mean_density : Q)
  : Docana.document :=
  Docana.mk_document name 1 10 mean_density 0
    (Docana.mk_quality_distribution 0 0 1)
    (Docana.mk_content_stats 0 0 10) [].

Definition markdown_document (name : pystr) (mean_density : Q)
  : Mdana.document :=
  Mdana.mk_document name 1 10 mean_density 0
    (Mdana.mk_quality_distribution 0 0 1)
    (no_markdown [])
    (Mdana.mk_content_stats 0 0 0 0 0 10) [].

(** A file with a front matter: a fence, the line [a], a fence and the
    line [b c]. *)
Definition FENCED : pystr :=
  [45; 45; 45; 10; 97; 10; 45; 45; 45; 10; 98; 32; 99]%N.

(** A second host: every file holds [FENCED], and the YAML loader
    returns the text of the header, stripped. *)
Definition fenced_host : Host :=
  {| lcut := words_loop [];
     isalpha_char := letter;
     isdecimal_char := digit;
     isword_char := fun c => letter c || digit c || N.eqb c 95;
     path_join := fun folder name => folder ++ SLASH :: name;
     pdf_available := true;
     pdfplumber_pages := fun _ => mk_pages [Some FENCED] None;
     pypdf2_pages := fun _ => mk_pages [FENCED] None;
     read_text := fun _ => inl FENCED;
     path_relpath := fun path folder => skipn (S (length folder)) path;
     yaml := pystr;
     yaml_safe_load := fun header => Some (strip header);
     yaml_truthy := truthy |}.

End Demo.

(** ** The reports *)

Module Reports.

(** The dict ['summary'] of [generate_json_report], with the same three
    counts in both analyzers. *)
Record json_summary : Type := mk_json_summary
  { json_total_files : nat;
    json_successful_files : nat;
    json_failed_files : nat }.

Definition json_report_summary {R F : Type} (results : list R)
           (failed_files : list F) : json_summary :=
  {| json_total_files := length results + length failed_files;
     json_successful_files := length results;
     json_failed_files := length failed_files |}.

(** The dict [quality_totals] of [generate_summary_report], which
    [generate_visualizations] builds as [quality_counts]: the three
    counters, raised by every valid result in turn. *)
Definition quality_totals (valid : list Docana.document)
  : Docana.quality_distribution :=
  fold_left
    (fun acc r =>
       Docana.mk_quality_distribution
         (Docana.high_count acc + Docana.high_count (Docana.distribution r))
         (Docana.medium_count acc
          + Docana.medium_count (Docana.distribution r))
         (Docana.low_count acc + Docana.low_count (Docana.distribution r)))
    valid (Docana.mk_quality_distribution 0 0 0).

(** [sum(quality_totals.values())] *)
Definition total_quality_sentences (valid : list Docana.document) : nat :=
  sum [Docana.high_count (quality_totals valid);
       Docana.medium_count (quality_totals valid);
       Docana.low_count (quality_totals valid)].

(** [count / total_quality_sentences if total_quality_sentences > 0 else 0]
    for the three labels, in the order of the dict. *)
Definition quality_shares (valid : list Docana.document)
  : result (list Q) :=
  let total := total_quality_sentences valid in
  let share (count : nat) :=
    if (0 <? total)%nat then truediv (of_nat count) (of_nat total)
    else Ok 0 in
  h <- share (Docana.high_count (quality_totals valid)) ;;
  m <- share (Docana.medium_count (quality_totals valid)) ;;
  l <- share (Docana.low_count (quality_totals valid)) ;;
  Ok [h; m; l].



(** The success rate in the header of the markdown summary report,
    [len(valid_results) / (len(results) + len(failed_files)) * 100]. *)
Definition success_rate `{Host} (results : list Mdana.file_result)
           (failed_files : list Mdana.failure) : result Q :=
  q <- truediv (of_nat (length (Mdana.valid_results results)))
               (of_nat (length results + length failed_files)) ;;
  Ok (q * 100).

End Reports.

(** ** The statistics of a markdown document
    ([calculate_markdown_stats] of [mdana.py]) *)

Module MdStats.

(** The dict of [extract_markdown_elements]: what [re.findall] returned
    for each kind of element. *)
Record elements : Type := mk_elements
  { headings : list pystr;
    code_blocks : list pystr;
    inline_codes : list pystr;
    links : list pystr;
    images : list pystr;
    list_items : list pystr;
    blockquotes : list pystr;
    tables : list pystr;
    emphasis : list pystr }.

Definition HASH : char := 35%N.
Definition PIPE : char := 124%N.

(** [content.split('\n')] *)
Fixpoint split_lines_loop (cur : pystr) (s : pystr) : list pystr :=
  match s with
  | [] => [rev cur]
  | c :: s' =>
      if N.eqb c NEWLINE then rev cur :: split_lines_loop [] s'
      else split_lines_loop (c :: cur) s'
  end.

Definition split_lines (content : pystr) : list pystr :=
  split_lines_loop [] content.

(** ['|' in line and line.strip().startswith('|')] *)
Definition is_table_line (line : pystr) : bool :=
  existsb (N.eqb PIPE) line && startswith (strip line) [PIPE].

(** [line.lstrip('#')] *)
Fixpoint lstrip_hashes (line : pystr) : pystr :=
  match line with
  | c :: rest => if N.eqb c HASH then lstrip_hashes rest else line
  | [] => []
  end.

(** The dict [heading_levels]: the key [f'h{level}'] is kept as the
    number [level], the items in insertion order. *)
Fixpoint bump (level : nat) (d : list (nat * nat)) : list (nat * nat) :=
  match d with
  | [] => [(level, 1%nat)]
  | (k, v) :: d' =>
      if (k =? level)%nat then (k, S v) :: d' else (k, v) :: bump level d'
  end.

(** The inner loop: the level read off the first line that contains the
    heading and starts with [#] once stripped. *)
Fixpoint find_level (heading : pystr) (lines : list pystr) : option nat :=
  match lines with
  | [] => None
  | line :: rest =>
      if contains line heading && startswith (strip line) [HASH] then
        Some (length line - length (lstrip_hashes line))%nat
      else find_level heading rest
  end.

Definition heading_levels_of (headings lines : list pystr)
  : list (nat * nat) :=
  fold_left (fun d heading =>
               match find_level heading lines with
               | Some level => bump level d
               | None => d
               end) headings [].

Record stats : Type := mk_stats
  { headings_count : nat;
    heading_levels : list (nat * nat);
    code_blocks_count : nat;
    inline_codes_count : nat;
    links_count : nat;
    images_count : nat;
    list_items_count : nat;
    blockquotes_count : nat;
    tables_count : nat;
    emphasis_count : nat;
    total_lines : nat;
    empty_lines : nat;
    content_lines : nat;
    structure_ratio : Q;
    code_density : Q }.

Definition calculate_markdown_stats (md_elements : elements)
           (content : pystr) : result stats :=
  let lines := split_lines content in
  let headings_count := length (headings md_elements) in
  let code_blocks_count := length (code_blocks md_elements) in
  let inline_codes_count := length (inline_codes md_elements) in
  let list_items_count := length (list_items md_elements) in
  let blockquotes_count := length (blockquotes md_elements) in
  let tables_count := length (filter is_table_line lines) in
  let content_lines :=
    length (filter (fun line => truthy (strip line)) lines) in
  let levels := heading_levels_of (headings md_elements) lines in
  let structured_elements :=
    (headings_count + list_items_count + tables_count
     + blockquotes_count)%nat in
  structure_ratio <-
    (if (0 <? content_lines)%nat then
       truediv (of_nat structured_elements) (of_nat content_lines)
     else Ok 0) ;;
  let code_elements := (code_blocks_count + inline_codes_count)%nat in
  code_density <-
    (if (0 <? content_lines)%nat then
       truediv (of_nat code_elements) (of_nat content_lines)
     else Ok 0) ;;
  Ok {| headings_count := headings_count;
        heading_levels := levels;
        code_blocks_count := code_blocks_count;
        inline_codes_count := inline_codes_count;
        links_count := length (links md_elements);
        images_count := length (images md_elements);
        list_items_count := list_items_count;
        blockquotes_count := blockquotes_count;
        tables_count := tables_count;
        emphasis_count := length (emphasis md_elements);
        total_lines := length lines;
        empty_lines :=
          length (filter (fun line => negb (truthy (strip line))) lines);
        content_lines := content_lines;
        structure_ratio := structure_ratio;
        code_density := code_density |}.

End MdStats.

(** * Properties *)

Unset Implicit Arguments.

(** ** Arithmetic of the Python layer *)

Lemma of_nat_pos (n : nat) : (0 < n)%nat -> 0 < of_nat n.
Proof.
  intros Hn. unfold of_nat, Qlt. simpl. lia.
Qed.


Lemma truediv_pos (a : Q) (n : nat) :
  (0 < n)%nat -> truediv a (of_nat n) = Ok (a / of_nat n).
Proof.
  intros Hn. destruct n as [|n]; [lia|]. reflexivity.
Qed.

Lemma gt_spec (a b : Q) : gt a b = true <-> b < a.
Proof.
  unfold gt. rewrite negb_true_iff. split; intros Hab.
  - apply Qnot_le_lt. intros Hle. apply Qle_bool_iff in Hle. congruence.
  - destruct (Qle_bool a b) eqn:E; [|reflexivity].
    apply Qle_bool_iff in E. exfalso. apply (Qlt_not_le _ _ Hab E).
Qed.

Lemma gt_false (a b : Q) : gt a b = false <-> a <= b.
Proof.
  unfold gt. rewrite negb_false_iff. apply Qle_bool_iff.
Qed.

(** ** Strings *)

Lemma eqb_eq (s t : pystr) : Py.eqb s t = true <-> s = t.
Proof.
  revert t. induction s as [|c s IH]; intros [|d t]; simpl;
    try (split; [discriminate | discriminate]); [tauto|].
  rewrite andb_true_iff, N.eqb_eq, IH. split.
  - intros [-> ->]. reflexivity.
  - intros E. injection E as -> ->. auto.
Qed.

Lemma truthy_true (s : pystr) : truthy s = true <-> s <> [].
Proof.
  destruct s; simpl; split; congruence.
Qed.

(** A stripped string starts with a character that is not white space. *)
Lemma lstrip_head (s : pystr) :
  match lstrip s with
  | [] => True
  | c :: _ => isspace c = false
  end.
Proof.
  induction s as [|c s IH]; simpl; [exact I|].
  destruct (isspace c) eqn:E; [exact IH | exact E].
Qed.

Lemma lstrip_idem (s : pystr) : lstrip (lstrip s) = lstrip s.
Proof.
  pose proof (lstrip_head s) as Hh. destruct (lstrip s) as [|c t]; [reflexivity|].
  simpl. rewrite Hh. reflexivity.
Qed.

(** [rstrip] leaves the first character in place unless nothing is left. *)
Lemma lstrip_rev_keeps (c : char) (t : pystr) :
  isspace c = false -> exists u, lstrip (rev t ++ [c]) = u ++ [c].
Proof.
  intros Hc. induction (rev t) as [|d r IH]; simpl.
  - rewrite Hc. exists []. reflexivity.
  - destruct (isspace d).
    + exact IH.
    + exists (d :: r). reflexivity.
Qed.

Lemma strip_head (s : pystr) :
  match strip s with
  | [] => True
  | c :: _ => isspace c = false
  end.
Proof.
  unfold strip, rstrip. pose proof (lstrip_head s) as Hh.
  destruct (lstrip s) as [|c t]; [exact I|].
  simpl rev. destruct (lstrip_rev_keeps c t Hh) as [u Hu].
  rewrite Hu, rev_app_distr. simpl. exact Hh.
Qed.

Lemma space_isspace : isspace SPACE = true.
Proof. reflexivity. Qed.

(** A non-empty stripped string has a character that survives
    [replace(' ', '')]. *)
Lemma strip_remove_spaces (s : pystr) :
  strip s <> [] -> (0 < length (remove_spaces (strip s)))%nat.
Proof.
  intros Hne. pose proof (strip_head s) as Hh.
  destruct (strip s) as [|c t]; [congruence|].
  unfold remove_spaces. simpl.
  destruct (N.eqb c SPACE) eqn:E.
  - apply N.eqb_eq in E. subst c. rewrite space_isspace in Hh. discriminate.
  - simpl. lia.
Qed.

Lemma rstrip_idem (s : pystr) : rstrip (rstrip s) = rstrip s.
Proof.
  unfold rstrip. rewrite rev_involutive, lstrip_idem. reflexivity.
Qed.

Lemma lstrip_fixed (s : pystr) :
  match s with [] => True | c :: _ => isspace c = false end ->
  lstrip s = s.
Proof.
  destruct s as [|c t]; simpl; [reflexivity|]. intros ->. reflexivity.
Qed.

(** Stripping is idempotent: the candidates of the analyzers are already
    stripped when [analyze_sentence] strips them again. *)
Lemma strip_idem (s : pystr) : strip (strip s) = strip s.
Proof.
  pose proof (strip_head s) as Hh.
  unfold strip at 1. rewrite (lstrip_fixed _ Hh).
  unfold strip. apply rstrip_idem.
Qed.

(** ** Scoring one sentence *)

Section Sentences.
Context `{Host}.

Lemma docana_score_eq (st : Docana.stats) :
  Docana.score st = Ok (Documented.plain_score st).
Proof. reflexivity. Qed.

Lemma docana_density_eq (score : Q) (n : nat) :
  (0 < n)%nat -> Docana.density_of score n = Ok (score / of_nat n).
Proof.
  intros Hn. unfold Docana.density_of.
  destruct (Nat.ltb_spec 0 n) as [_|Hle]; [|lia].
  apply truediv_pos. exact Hn.
Qed.

(** [analyze_sentence] never raises; it scores every sentence that has a
    character other than a space once stripped. *)
Lemma docana_analyze_sentence_eq (s : pystr) :
  Docana.analyze_sentence s =
  if negb (truthy (strip s)) || (length (remove_spaces s) =? 0)%nat
  then Ok None
  else
    let st := Docana.extract_stats s (lcut s) in
    let n := length (remove_spaces s) in
    Ok (Some (Docana.mk_sentence_result
                (truncate 100 s)
                (Documented.plain_score st / of_nat n)
                (Docana.quality_of (Documented.plain_score st / of_nat n))
                n (Documented.plain_score st) st)).
Proof.
  unfold Docana.analyze_sentence.
  destruct (truthy (strip s)); cbn [negb orb]; [|reflexivity].
  destruct (Nat.eqb_spec (length (remove_spaces s)) 0) as [E|E];
    [reflexivity|].
  rewrite docana_score_eq. cbn [bind].
  rewrite docana_density_eq by lia. reflexivity.
Qed.

Lemma docana_scored (s : pystr) (r : Docana.sentence_result) :
  Docana.analyze_sentence s = Ok (Some r) ->
  (0 < Docana.total_chars r)%nat
  /\ Docana.total_chars r = length (remove_spaces s)
  /\ Docana.counts r = Docana.extract_stats s (lcut s)
  /\ Docana.info_score r = Documented.plain_score (Docana.counts r)
  /\ Docana.density r = Docana.info_score r / of_nat (Docana.total_chars r)
  /\ Docana.quality r = Docana.quality_of (Docana.density r).
Proof.
  rewrite docana_analyze_sentence_eq.
  destruct (negb (truthy (strip s))); simpl; [discriminate|].
  destruct (Nat.eqb_spec (length (remove_spaces s)) 0) as [E|E];
    [discriminate|].
  intros Hr. injection Hr as <-. simpl. repeat split. lia.
Qed.

Lemma mdana_bonus_eq (ctx : option Mdana.context) :
  exists b, Mdana.context_bonus ctx = Ok b /\ b == Documented.bonus_of ctx.
Proof.
  destruct ctx as [[h l q lvl]|]; [|exists 0; split; reflexivity].
  destruct h, l; cbv [Mdana.context_bonus Mdana.is_heading
                      Mdana.is_list_item];
    eexists; (split; [reflexivity|]);
    unfold Documented.bonus_of, Documented.bonus, Documented.HEADING_BONUS,
      Documented.LIST_ITEM_BONUS; simpl; lra.
Qed.

Lemma mdana_score_ok (st : Mdana.stats) (b : Q) :
  exists v, Mdana.score st b = Ok v
            /\ v == Documented.markdown_score st + b.
Proof.
  eexists. split; [reflexivity|].
  unfold Documented.markdown_score, Documented.plain_sum,
    Documented.markdown_terms. lra.
Qed.

Lemma mdana_density_eq (score : Q) (n : nat) :
  (0 < n)%nat -> Mdana.density_of score n = Ok (score / of_nat n).
Proof.
  intros Hn. unfold Mdana.density_of.
  destruct (Nat.ltb_spec 0 n) as [_|Hle]; [|lia].
  apply truediv_pos. exact Hn.
Qed.

(** The markdown [analyze_sentence] never raises either, and scores the
    same sentences. *)
Lemma mdana_analyze_sentence_total (s : pystr) (ctx : option Mdana.context) :
  if negb (truthy (strip s)) || (length (remove_spaces s) =? 0)%nat
  then Mdana.analyze_sentence s ctx = Ok None
  else exists r, Mdana.analyze_sentence s ctx = Ok (Some r).
Proof.
  unfold Mdana.analyze_sentence.
  destruct (truthy (strip s)); cbn [negb orb]; [|reflexivity].
  destruct (Nat.eqb_spec (length (remove_spaces s)) 0) as [E|E];
    [reflexivity|].
  destruct (mdana_bonus_eq ctx) as [b [Hb _]]. rewrite Hb. cbn [bind].
  destruct (mdana_score_ok (Mdana.extract_stats s (lcut s)) b)
    as [v [Hv _]].
  rewrite Hv. cbn [bind]. rewrite mdana_density_eq by lia. cbn [bind].
  eexists. reflexivity.
Qed.

Lemma mdana_scored (s : pystr) (ctx : option Mdana.context)
      (r : Mdana.sentence_result) :
  Mdana.analyze_sentence s ctx = Ok (Some r) ->
  (0 < Mdana.total_chars r)%nat
  /\ Mdana.total_chars r = length (remove_spaces s)
  /\ Mdana.counts r = Mdana.extract_stats s (lcut s)
  /\ Mdana.sentence_context r = ctx
  /\ Mdana.info_score r
     == Documented.markdown_score (Mdana.counts r) + Documented.bonus_of ctx
  /\ Mdana.density r = Mdana.info_score r / of_nat (Mdana.total_chars r)
  /\ Mdana.quality r = Mdana.quality_of (Mdana.density r).
Proof.
  unfold Mdana.analyze_sentence.
  destruct (truthy (strip s)); cbn [negb]; [|discriminate].
  destruct (Nat.eqb_spec (length (remove_spaces s)) 0) as [E|E];
    [discriminate|].
  destruct (mdana_bonus_eq ctx) as [b [Hb Eb]]. rewrite Hb. cbn [bind].
  destruct (mdana_score_ok (Mdana.extract_stats s (lcut s)) b)
    as [v [Hv Ev]].
  rewrite Hv. cbn [bind]. rewrite mdana_density_eq by lia. cbn [bind].
  intros Hr. injection Hr as <-. cbn.
  repeat split; try lia. rewrite Ev, Eb. reflexivity.
Qed.

(** C1. The score of a segment is the weighted sum of its counts with
    the coefficients 3.0, 2.5, 2.0, 2.5, 1.5, 1.0 and -0.5 for numbers,
    time words, professional terms, code snippets, links, conjunctions
    and modifiers, plus the heading bonus when the context says heading
    and the list-item bonus when it says list item; the heading bonus is
    the larger one and a blockquote brings nothing. The plain-text
    analyzer has the same sum without code, links and bonus. *)
Theorem info_score_is_weighted_sum :
  (forall s ctx r,
      Mdana.analyze_sentence s ctx = Ok (Some r) ->
      Mdana.info_score r
      == of_nat (Mdana.numbers (Mdana.counts r)) * 3.0
         + of_nat (Mdana.time_words (Mdana.counts r)) * 2.5
         + of_nat (Mdana.professional_terms (Mdana.counts r)) * 2.0
         + of_nat (Mdana.code_snippets (Mdana.counts r)) * 2.5
         + of_nat (Mdana.links (Mdana.counts r)) * 1.5
         + of_nat (Mdana.conjunctions (Mdana.counts r)) * 1.0
         + of_nat (Mdana.modifiers (Mdana.counts r)) * (-0.5)
         + Documented.bonus_of ctx)
  /\ Documented.LIST_ITEM_BONUS < Documented.HEADING_BONUS
  /\ (forall heading list_item level,
         Mdana.context_bonus
           (Some (Mdana.mk_context heading list_item true level))
         = Mdana.context_bonus
             (Some (Mdana.mk_context heading list_item false level)))
  /\ (forall s r,
         Docana.analyze_sentence s = Ok (Some r) ->
         Docana.info_score r
         == of_nat (Docana.numbers (Docana.counts r)) * 3.0
            + of_nat (Docana.time_words (Docana.counts r)) * 2.5
            + of_nat (Docana.professional_terms (Docana.counts r)) * 2.0
            + of_nat (Docana.conjunctions (Docana.counts r)) * 1.0
            + of_nat (Docana.modifiers (Docana.counts r)) * (-0.5)).
Proof.
  split; [|split; [|split]].
  - intros s ctx r Hr.
    destruct (mdana_scored s ctx r Hr) as (_ & _ & _ & _ & Hscore & _).
    rewrite Hscore.
    unfold Documented.markdown_score, Documented.plain_sum,
      Documented.markdown_terms. lra.
  - reflexivity.
  - intros heading list_item level. reflexivity.
  - intros s r Hr.
    destruct (docana_scored s r Hr) as (_ & _ & _ & Hscore & _).
    rewrite Hscore. reflexivity.
Qed.

End Sentences.

Lemma info_score_is_weighted_sum_witness :
  exists r r',
    Mdana.analyze_sentence (H := Demo.host) Demo.TEXT_A
      (Some (Demo.heading_context [] [])) = Ok (Some r)
    /\ Mdana.info_score r == 1 * 3.0 + 2 * 2.5 + 1.8
    /\ Docana.analyze_sentence (H := Demo.host) Demo.TEXT_A = Ok (Some r')
    /\ Docana.info_score r' == 1 * 3.0 + 1 * 2.5 + 2 * 2.0.
Proof.
  destruct (@info_score_is_weighted_sum Demo.host) as (Hmd & _ & _ & Hdoc).
  eexists. eexists.
  split; [vm_compute; reflexivity|].
  split.
  - rewrite (Hmd Demo.TEXT_A (Some (Demo.heading_context [] [])) _ eq_refl).
    vm_compute. reflexivity.
  - split; [vm_compute; reflexivity|].
    rewrite (Hdoc Demo.TEXT_A _ eq_refl). vm_compute. reflexivity.
Defined.

(** ** Quality tiers *)

Lemma docana_quality_of_spec (d : Q) :
  (Docana.quality_of d = Docana.HIGH <-> 0.15 < d)
  /\ (Docana.quality_of d = Docana.MEDIUM <-> 0.08 < d /\ d <= 0.15)
  /\ (Docana.quality_of d = Docana.LOW <-> d <= 0.08).
Proof.
  unfold Docana.quality_of.
  destruct (gt d 0.15) eqn:Eh.
  - apply gt_spec in Eh.
    repeat split; intros; try discriminate; try tauto; exfalso; lra.
  - apply gt_false in Eh. destruct (gt d 0.08) eqn:Em.
    + apply gt_spec in Em.
      repeat split; intros; try discriminate; try tauto; exfalso; lra.
    + apply gt_false in Em.
      repeat split; intros; try discriminate; try tauto; exfalso; lra.
Qed.

Lemma mdana_quality_of_spec (d : Q) :
  (Mdana.quality_of d = Mdana.HIGH <-> 0.12 < d)
  /\ (Mdana.quality_of d = Mdana.MEDIUM <-> 0.06 < d /\ d <= 0.12)
  /\ (Mdana.quality_of d = Mdana.LOW <-> d <= 0.06).
Proof.
  unfold Mdana.quality_of.
  destruct (gt d 0.12) eqn:Eh.
  - apply gt_spec in Eh.
    repeat split; intros; try discriminate; try tauto; exfalso; lra.
  - apply gt_false in Eh. destruct (gt d 0.06) eqn:Em.
    + apply gt_spec in Em.
      repeat split; intros; try discriminate; try tauto; exfalso; lra.
    + apply gt_false in Em.
      repeat split; intros; try discriminate; try tauto; exfalso; lra.
Qed.

Lemma zero_over (x y : Q) : x == 0 -> x / y == 0.
Proof.
  intros Hx. unfold Qdiv. rewrite Hx. ring.
Qed.

(** ** Binary64: the sign of [float(n)] *)

Section Rounding.
Local Open Scope Z_scope.

Lemma shr_1_m (mrs : SpecFloat.shr_record) :
  0 <= SpecFloat.shr_m mrs ->
  SpecFloat.shr_m (SpecFloat.shr_1 mrs) = Z.div2 (SpecFloat.shr_m mrs).
Proof.
  destruct mrs as [m r s]. cbn [SpecFloat.shr_m].
  destruct m as [|[p|p|]|p]; intros Hm; try reflexivity; lia.
Qed.

Lemma iter_pos_nat (A : Type) (f : A -> A) (p : positive) (x : A) :
  SpecFloat.iter_pos f p x = Nat.iter (Pos.to_nat p) f x.
Proof.
  revert x. induction p as [p IH|p IH|]; intros x; cbn [SpecFloat.iter_pos].
  - rewrite !IH, Pos2Nat.inj_xI.
    replace (S (2 * Pos.to_nat p))%nat
      with (Pos.to_nat p + (Pos.to_nat p + 1))%nat by lia.
    rewrite !Nat.iter_add. reflexivity.
  - rewrite !IH, Pos2Nat.inj_xO.
    replace (2 * Pos.to_nat p)%nat with (Pos.to_nat p + Pos.to_nat p)%nat
      by lia.
    rewrite Nat.iter_add. reflexivity.
  - reflexivity.
Qed.

Lemma shr_iter_positive (n : nat) (mrs : SpecFloat.shr_record) :
  2 ^ Z.of_nat n <= SpecFloat.shr_m mrs ->
  0 < SpecFloat.shr_m (Nat.iter n SpecFloat.shr_1 mrs).
Proof.
  revert mrs. induction n as [|n IH]; intros mrs Hm.
  - cbn in *. lia.
  - rewrite Nat.iter_succ_r. apply IH.
    rewrite Nat2Z.inj_succ, Z.pow_succ_r in Hm by lia.
    rewrite shr_1_m by lia. rewrite Z.div2_div.
    apply Z.div_le_lower_bound; lia.
Qed.

Lemma digits2_pos_bound (m : positive) :
  2 ^ (Zpos (SpecFloat.digits2_pos m) - 1) <= Zpos m.
Proof.
  induction m as [m IH|m IH|]; cbn [SpecFloat.digits2_pos].
  - rewrite Pos2Z.inj_succ.
    replace (Z.succ (Zpos (SpecFloat.digits2_pos m)) - 1)
      with (Z.succ (Zpos (SpecFloat.digits2_pos m) - 1)) by lia.
    rewrite Z.pow_succ_r by lia. lia.
  - rewrite Pos2Z.inj_succ.
    replace (Z.succ (Zpos (SpecFloat.digits2_pos m)) - 1)
      with (Z.succ (Zpos (SpecFloat.digits2_pos m) - 1)) by lia.
    rewrite Z.pow_succ_r by lia. lia.
  - cbn. lia.
Qed.

(** Where the exponent leaves room, shifting a positive mantissa into
    the format keeps it positive. *)
Lemma shr_fexp_positive (m : positive) (e : Z) (l : SpecFloat.location) :
  -1074 < Zpos (SpecFloat.digits2_pos m) + e ->
  0 < SpecFloat.shr_m
        (fst (SpecFloat.shr_fexp Binary64.prec Binary64.emax (Zpos m) e l))
  /\ -1074 <= snd (SpecFloat.shr_fexp Binary64.prec Binary64.emax
                                      (Zpos m) e l).
Proof.
  intros He. unfold SpecFloat.shr_fexp, SpecFloat.shr.
  cbn [SpecFloat.Zdigits2].
  assert (Hf : SpecFloat.fexp Binary64.prec Binary64.emax
                 (Zpos (SpecFloat.digits2_pos m) + e)
               = Z.max (Zpos (SpecFloat.digits2_pos m) + e - 53) (-1074))
    by reflexivity.
  rewrite Hf.
  assert (Hm : SpecFloat.shr_m (SpecFloat.shr_record_of_loc (Zpos m) l)
               = Zpos m) by (destruct l as [|[]]; reflexivity).
  destruct (Z.max (Zpos (SpecFloat.digits2_pos m) + e - 53) (-1074) - e)
    as [|k|k] eqn:Ek; cbn [fst snd].
  - rewrite Hm. lia.
  - rewrite iter_pos_nat. split; [|lia].
    apply shr_iter_positive. rewrite Hm, positive_nat_Z.
    pose proof (digits2_pos_bound m) as Hd.
    apply Z.le_trans with (2 ^ (Zpos (SpecFloat.digits2_pos m) - 1));
      [|exact Hd].
    apply Z.pow_le_mono_r; lia.
  - rewrite Hm. lia.
Qed.

Lemma round_nearest_even_positive (m : Z) (l : SpecFloat.location) :
  0 < m -> 0 < SpecFloat.round_nearest_even m l.
Proof.
  intros Hm. unfold SpecFloat.round_nearest_even.
  destruct l as [|[]]; try destruct (Z.even m); lia.
Qed.

Lemma binary_round_aux_class (sx : bool) (m : positive) (e : Z)
      (l : SpecFloat.location) :
  -1074 < Zpos (SpecFloat.digits2_pos m) + e ->
  match SpecFloat.binary_round_aux Binary64.prec Binary64.emax
                                   sx (Zpos m) e l with
  | SpecFloat.S754_finite s _ _ => s = sx
  | SpecFloat.S754_infinity s => s = sx
  | _ => False
  end.
Proof.
  intros He. unfold SpecFloat.binary_round_aux.
  destruct (shr_fexp_positive m e l He) as [H1 H2].
  destruct (SpecFloat.shr_fexp Binary64.prec Binary64.emax (Zpos m) e l)
    as [mrs' e'].
  cbn [fst snd] in H1, H2.
  pose proof (round_nearest_even_positive
                _ (SpecFloat.loc_of_shr_record mrs') H1) as H3.
  destruct (SpecFloat.round_nearest_even
              (SpecFloat.shr_m mrs') (SpecFloat.loc_of_shr_record mrs'))
    as [|m1|m1]; try lia.
  destruct (shr_fexp_positive m1 e' SpecFloat.loc_Exact) as [H4 _]; [lia|].
  destruct (SpecFloat.shr_fexp Binary64.prec Binary64.emax (Zpos m1) e'
                               SpecFloat.loc_Exact) as [mrs'' e''].
  cbn [fst] in H4.
  destruct (SpecFloat.shr_m mrs'') as [|m2|m2]; try lia.
  destruct (e'' <=? Binary64.emax - Binary64.prec); reflexivity.
Qed.

(** [float(n)] of a positive [int] is a positive number or [inf]. *)
Lemma of_count_class (n : nat) :
  (0 < n)%nat ->
  match Binary64.of_count n with
  | SpecFloat.S754_finite s _ _ => s = false
  | SpecFloat.S754_infinity s => s = false
  | _ => False
  end.
Proof.
  intros Hn. unfold Binary64.of_count, Binary64.of_int,
    SpecFloat.binary_normalize.
  destruct (Z.of_nat n) as [|p|p] eqn:Ep; try lia.
  unfold SpecFloat.binary_round, SpecFloat.shl_align.
  destruct (SpecFloat.fexp Binary64.prec Binary64.emax
              (Zpos (SpecFloat.digits2_pos p) + 0) - 0) as [|k|k] eqn:Ek.
  - apply binary_round_aux_class. lia.
  - apply binary_round_aux_class. lia.
  - apply binary_round_aux_class.
    assert (Hf : -1074 <= SpecFloat.fexp Binary64.prec Binary64.emax
                            (Zpos (SpecFloat.digits2_pos p) + 0)).
    { unfold SpecFloat.fexp, SpecFloat.emin, Binary64.prec, Binary64.emax.
      lia. }
    lia.
Qed.

End Rounding.

Lemma count_is_not_zero (n : nat) :
  (0 < n)%nat -> Binary64.eqb (Binary64.of_count n) Binary64.ZERO = false.
Proof.
  intros Hn. pose proof (of_count_class n Hn) as Hc.
  destruct (Binary64.of_count n) as [s|s| |s m e]; try contradiction;
    subst s; reflexivity.
Qed.

Lemma zero_over_count (n : nat) :
  (0 < n)%nat ->
  Binary64.div Binary64.ZERO (Binary64.of_count n) = Binary64.ZERO.
Proof.
  intros Hn. pose proof (of_count_class n Hn) as Hc.
  unfold Binary64.div.
  change Binary64.ZERO with (SpecFloat.S754_zero false).
  destruct (Binary64.of_count n) as [s|s| |s m e]; try contradiction;
    subst s; reflexivity.
Qed.

(** ** The markdown analysis in binary64 *)

Lemma mdana64_bonus_total (ctx : option Mdana.context) :
  exists b, Mdana64.context_bonus ctx = Ok b.
Proof.
  destruct ctx as [[h l q lvl]|]; [|eexists; reflexivity].
  destruct h, l; eexists; reflexivity.
Qed.

Lemma mdana64_score_total (st : Mdana.stats) (b : Binary64.float) :
  exists v, Mdana64.score st b = Ok v.
Proof. eexists. reflexivity. Qed.

Lemma mdana64_density_eq (score : Binary64.float) (n : nat) :
  (0 < n)%nat ->
  Mdana64.density_of score n
  = Ok (Binary64.div score (Binary64.of_count n)).
Proof.
  intros Hn. unfold Mdana64.density_of, Binary64.truediv.
  destruct (Nat.ltb_spec 0 n) as [_|Hle]; [|lia].
  rewrite (count_is_not_zero n Hn). reflexivity.
Qed.

(** Comparing the other way round gives the opposite answer. *)
Lemma SFcompare_antisym (x y : SpecFloat.spec_float) :
  SpecFloat.SFcompare y x
  = match SpecFloat.SFcompare x y with
    | Some c => Some (CompOpp c)
    | None => None
    end.
Proof.
  destruct x as [sx|sx| |sx mx ex], y as [sy|sy| |sy my ey];
    cbn [SpecFloat.SFcompare];
    try destruct sx; try destruct sy; try reflexivity.
  - rewrite (Z.compare_antisym ex ey).
    destruct (ex ?= ey)%Z; try reflexivity.
    change (Some (CompOpp (Pos.compare_cont (CompOpp Eq) my mx))
            = Some (CompOpp (CompOpp (Pos.compare_cont Eq mx my)))).
    rewrite (Pos.compare_cont_antisym mx my Eq). reflexivity.
  - rewrite (Z.compare_antisym ex ey).
    destruct (ex ?= ey)%Z; try reflexivity.
    change (Some (Pos.compare_cont (CompOpp Eq) my mx)
            = Some (CompOpp (Pos.compare_cont Eq mx my))).
    rewrite (Pos.compare_cont_antisym mx my Eq). reflexivity.
Qed.

(** For numbers that compare, [not (d > t)] is [d <= t]. *)
Lemma not_gt_is_le (d t low : Binary64.float) :
  Binary64.gt d low = true ->
  t <> SpecFloat.S754_nan ->
  (Binary64.gt d t = false <-> Binary64.le d t = true).
Proof.
  unfold Binary64.gt, Binary64.le, SpecFloat.SFltb, SpecFloat.SFleb.
  intros Hlow Ht.
  assert (Hd : d <> SpecFloat.S754_nan).
  { intros ->. destruct low; discriminate Hlow. }
  rewrite (SFcompare_antisym t d).
  destruct (SpecFloat.SFcompare t d) as [[| |]|] eqn:E; cbn [CompOpp];
    try (split; [reflexivity | reflexivity]);
    try (split; intros; discriminate).
  exfalso. destruct t, d; try congruence; discriminate E.
Qed.

Lemma mdana64_quality_of_spec (d : Binary64.float) :
  (Mdana64.quality_of d = Mdana.HIGH
   <-> Binary64.gt d (Binary64.literal 0.12) = true)
  /\ (Mdana64.quality_of d = Mdana.MEDIUM
      <-> Binary64.gt d (Binary64.literal 0.06) = true
          /\ Binary64.le d (Binary64.literal 0.12) = true)
  /\ (Mdana64.quality_of d = Mdana.LOW
      <-> Binary64.gt d (Binary64.literal 0.06) = false
          /\ Binary64.gt d (Binary64.literal 0.12) = false).
Proof.
  assert (Hle : Binary64.gt d (Binary64.literal 0.06) = true ->
                (Binary64.gt d (Binary64.literal 0.12) = false
                 <-> Binary64.le d (Binary64.literal 0.12) = true)).
  { intros Hlow. apply (not_gt_is_le d _ _ Hlow). discriminate. }
  unfold Mdana64.quality_of.
  destruct (Binary64.gt d (Binary64.literal 0.12)) eqn:Eh;
    destruct (Binary64.gt d (Binary64.literal 0.06)) eqn:Em;
    (split; [|split]); split;
    try (intros _; reflexivity); try (intros E; discriminate E);
    try (intros [E1 E2]; try discriminate E1; try discriminate E2).
  - apply (Hle eq_refl) in E2. discriminate E2.
  - intros _. split; [reflexivity|]. apply (Hle eq_refl). reflexivity.
  - intros _. split; reflexivity.
Qed.

Section Scored64.
Context `{Host}.

Lemma mdana64_scored (s : pystr) (ctx : option Mdana.context)
      (r : Mdana64.sentence_result) :
  Mdana64.analyze_sentence s ctx = Ok (Some r) ->
  (0 < Mdana64.total_chars r)%nat
  /\ Mdana64.total_chars r = length (remove_spaces s)
  /\ Mdana64.counts r = Mdana.extract_stats s (lcut s)
  /\ Mdana64.sentence_context r = ctx
  /\ (exists b,
         Mdana64.context_bonus ctx = Ok b
         /\ Mdana64.score (Mdana64.counts r) b = Ok (Mdana64.info_score r))
  /\ Mdana64.density r
     = Binary64.div (Mdana64.info_score r)
                    (Binary64.of_count (Mdana64.total_chars r))
  /\ Mdana64.quality r = Mdana64.quality_of (Mdana64.density r).
Proof.
  unfold Mdana64.analyze_sentence.
  destruct (truthy (strip s)); cbn [negb]; [|discriminate].
  destruct (Nat.eqb_spec (length (remove_spaces s)) 0) as [E|E];
    [discriminate|].
  destruct (mdana64_bonus_total ctx) as [b Hb]. rewrite Hb. cbn [bind].
  destruct (mdana64_score_total (Mdana.extract_stats s (lcut s)) b)
    as [v Hv].
  rewrite Hv. cbn [bind]. rewrite mdana64_density_eq by lia. cbn [bind].
  intros Hr. injection Hr as <-.
  cbn [Mdana64.total_chars Mdana64.counts Mdana64.sentence_context
       Mdana64.info_score Mdana64.density Mdana64.quality].
  split; [lia|]. split; [reflexivity|]. split; [reflexivity|].
  split; [reflexivity|].
  split; [exists b; split; [reflexivity | exact Hv]|].
  split; reflexivity.
Qed.

(** The two embeddings score the same sentences, with the same counts. *)
Lemma mdana64_same_segments (s : pystr) (ctx : option Mdana.context)
      (r : Mdana.sentence_result) :
  Mdana.analyze_sentence s ctx = Ok (Some r) ->
  exists r64,
    Mdana64.analyze_sentence s ctx = Ok (Some r64)
    /\ Mdana64.counts r64 = Mdana.counts r
    /\ Mdana64.total_chars r64 = Mdana.total_chars r
    /\ Mdana64.sentence r64 = Mdana.sentence r.
Proof.
  intros Hr.
  destruct (mdana_scored s ctx r Hr) as (Hpos & Hn & Hc & _).
  assert (Hs : Mdana.sentence r = truncate 150 s).
  { revert Hr. unfold Mdana.analyze_sentence.
    destruct (truthy (strip s)); cbn [negb]; [|discriminate].
    destruct (Nat.eqb_spec (length (remove_spaces s)) 0) as [E|E];
      [discriminate|].
    destruct (mdana_bonus_eq ctx) as [b [Hb _]]. rewrite Hb. cbn [bind].
    destruct (mdana_score_ok (Mdana.extract_stats s (lcut s)) b)
      as [v [Hv _]].
    rewrite Hv. cbn [bind]. rewrite mdana_density_eq by lia. cbn [bind].
    intros Hr. injection Hr as <-. reflexivity. }
  unfold Mdana64.analyze_sentence.
  revert Hr. unfold Mdana.analyze_sentence.
  destruct (truthy (strip s)); cbn [negb]; [|discriminate].
  destruct (Nat.eqb_spec (length (remove_spaces s)) 0) as [E|E];
    [discriminate|].
  intros _.
  destruct (mdana64_bonus_total ctx) as [b Hb]. rewrite Hb. cbn [bind].
  destruct (mdana64_score_total (Mdana.extract_stats s (lcut s)) b)
    as [v Hv].
  rewrite Hv. cbn [bind]. rewrite mdana64_density_eq by lia. cbn [bind].
  eexists. split; [reflexivity|].
  cbn [Mdana64.total_chars Mdana64.counts Mdana64.sentence].
  rewrite Hc, Hn, Hs. repeat split.
Qed.

End Scored64.

Section Tiers.
Context `{Host}.

(** C3. A scored segment is high exactly when its density exceeds 0.15,
    medium exactly when it lies in (0.08, 0.15], and low otherwise; the
    markdown analyzer has 0.12 and 0.06 in these roles. A segment whose
    counts are all zero, with no bonus, has score 0, density 0 and is
    low. The markdown half is stated over the binary64 values the
    interpreter computes, its bonus weights not being binary fractions:
    the tier is read off the stored density with the comparisons of the
    code, and the segments scored are those of the rational embedding,
    with the same counts. *)
Theorem quality_tier_thresholds :
  (forall s r,
      Docana.analyze_sentence s = Ok (Some r) ->
      (Docana.quality r = Docana.HIGH <-> 0.15 < Docana.density r)
      /\ (Docana.quality r = Docana.MEDIUM
          <-> 0.08 < Docana.density r /\ Docana.density r <= 0.15)
      /\ (Docana.quality r = Docana.LOW <-> Docana.density r <= 0.08))
  /\ (forall s ctx r,
         Mdana64.analyze_sentence s ctx = Ok (Some r) ->
         (Mdana64.quality r = Mdana.HIGH
          <-> Binary64.gt (Mdana64.density r) (Binary64.literal 0.12)
              = true)
         /\ (Mdana64.quality r = Mdana.MEDIUM
             <-> Binary64.gt (Mdana64.density r) (Binary64.literal 0.06)
                 = true
                 /\ Binary64.le (Mdana64.density r) (Binary64.literal 0.12)
                    = true)
         /\ (Mdana64.quality r = Mdana.LOW
             <-> Binary64.gt (Mdana64.density r) (Binary64.literal 0.06)
                 = false
                 /\ Binary64.gt (Mdana64.density r) (Binary64.literal 0.12)
                    = false)
         /\ Mdana64.density r
            = Binary64.div (Mdana64.info_score r)
                           (Binary64.of_count (Mdana64.total_chars r)))
  /\ (forall s ctx r,
         Mdana.analyze_sentence s ctx = Ok (Some r) ->
         exists r64,
           Mdana64.analyze_sentence s ctx = Ok (Some r64)
           /\ Mdana64.counts r64 = Mdana.counts r
           /\ Mdana64.total_chars r64 = Mdana.total_chars r
           /\ Mdana64.sentence r64 = Mdana.sentence r)
  /\ (forall s r,
         Docana.analyze_sentence s = Ok (Some r) ->
         Docana.numbers (Docana.counts r) = 0%nat ->
         Docana.time_words (Docana.counts r) = 0%nat ->
         Docana.professional_terms (Docana.counts r) = 0%nat ->
         Docana.conjunctions (Docana.counts r) = 0%nat ->
         Docana.modifiers (Docana.counts r) = 0%nat ->
         Docana.info_score r == 0 /\ Docana.density r == 0
         /\ Docana.quality r = Docana.LOW)
  /\ (forall s ctx r,
         Mdana64.analyze_sentence s ctx = Ok (Some r) ->
         Mdana.numbers (Mdana64.counts r) = 0%nat ->
         Mdana.time_words (Mdana64.counts r) = 0%nat ->
         Mdana.professional_terms (Mdana64.counts r) = 0%nat ->
         Mdana.conjunctions (Mdana64.counts r) = 0%nat ->
         Mdana.modifiers (Mdana64.counts r) = 0%nat ->
         Mdana.code_snippets (Mdana64.counts r) = 0%nat ->
         Mdana.links (Mdana64.counts r) = 0%nat ->
         Mdana64.context_bonus ctx = Ok Binary64.ZERO ->
         Mdana64.info_score r = Binary64.ZERO
         /\ Mdana64.density r = Binary64.ZERO
         /\ Mdana64.quality r = Mdana.LOW).
Proof.
  split; [|split; [|split; [|split]]].
  - intros s r Hr.
    destruct (docana_scored s r Hr) as (_ & _ & _ & _ & _ & Hq).
    rewrite Hq. apply docana_quality_of_spec.
  - intros s ctx r Hr.
    destruct (mdana64_scored s ctx r Hr) as (_ & _ & _ & _ & _ & Hd & Hq).
    rewrite Hq.
    destruct (mdana64_quality_of_spec (Mdana64.density r)) as (Hh & Hm & Hl).
    split; [exact Hh|]. split; [exact Hm|]. split; [exact Hl | exact Hd].
  - intros s ctx r Hr. exact (mdana64_same_segments s ctx r Hr).
  - intros s r Hr Hn Ht Hp Hc Hm.
    destruct (docana_scored s r Hr) as (_ & _ & _ & Hscore & Hd & Hq).
    assert (Hz : Docana.info_score r == 0).
    { rewrite Hscore. unfold Documented.plain_score, Documented.plain_sum.
      rewrite Hn, Ht, Hp, Hc, Hm. reflexivity. }
    assert (Hdz : Docana.density r == 0).
    { rewrite Hd. apply zero_over. exact Hz. }
    repeat split; try assumption.
    rewrite Hq. apply docana_quality_of_spec. rewrite Hdz. lra.
  - intros s ctx r Hr Hn Ht Hp Hc Hm Hcode Hl Hb.
    destruct (mdana64_scored s ctx r Hr)
      as (Hpos & _ & _ & _ & [b [Hb' Hscore]] & Hd & Hq).
    rewrite Hb in Hb'. injection Hb' as <-.
    assert (Hz : Mdana64.info_score r = Binary64.ZERO).
    { revert Hscore. unfold Mdana64.score.
      rewrite Hn, Ht, Hp, Hc, Hm, Hcode, Hl.
      intros Hscore. cbv [getitem get Mdana64.weights Mdana.weights map
                            fst snd String.eqb Ascii.eqb Bool.eqb bind]
        in Hscore.
      injection Hscore as Hscore. rewrite <- Hscore. reflexivity. }
    assert (Hdz : Mdana64.density r = Binary64.ZERO).
    { rewrite Hd, Hz. apply zero_over_count. exact Hpos. }
    split; [exact Hz|]. split; [exact Hdz|].
    rewrite Hq, Hdz. reflexivity.
Qed.

End Tiers.

(** "abcdef" has no feature that scores. A heading of fifteen characters
    without a feature has the density 1.8 / 15, which binary64 rounds to
    the number after 0.12: the segment is high. *)
Lemma quality_tier_thresholds_witness :
  exists r r' h,
    Docana.analyze_sentence (H := Demo.host) [97; 98; 99; 100; 101; 102]%N
    = Ok (Some r)
    /\ Docana.density r == 0 /\ Docana.quality r = Docana.LOW
    /\ (Docana.quality r = Docana.HIGH <-> 0.15 < Docana.density r)
    /\ Mdana64.analyze_sentence (H := Demo.host)
         [97; 98; 99; 100; 101; 102]%N (Some (Demo.no_context [] []))
       = Ok (Some r')
    /\ Mdana64.density r' = Binary64.ZERO /\ Mdana64.quality r' = Mdana.LOW
    /\ Mdana64.analyze_sentence (H := Demo.host)
         [97; 98; 99; 100; 101; 102; 103; 104; 105; 106; 107; 108; 109;
          110; 111]%N (Some (Demo.heading_context [] []))
       = Ok (Some h)
    /\ Mdana64.info_score h = Binary64.literal 1.8
    /\ Mdana64.density h
       = SpecFloat.S754_finite false 8646911284551353 (-56)
    /\ Binary64.literal 0.12
       = SpecFloat.S754_finite false 8646911284551352 (-56)
    /\ Binary64.gt (Mdana64.density h) (Binary64.literal 0.12) = true
    /\ Mdana64.quality h = Mdana.HIGH.
Proof.
  destruct (@quality_tier_thresholds Demo.host)
    as (Hd & Hm & _ & Hzd & Hzm).
  destruct (Docana.analyze_sentence (H := Demo.host)
              [97; 98; 99; 100; 101; 102]%N) as [[r|]|] eqn:Hr;
    try (vm_compute in Hr; discriminate).
  destruct (Mdana64.analyze_sentence (H := Demo.host)
              [97; 98; 99; 100; 101; 102]%N (Some (Demo.no_context [] [])))
    as [[r'|]|] eqn:Hr'; try (vm_compute in Hr'; discriminate).
  destruct (Mdana64.analyze_sentence (H := Demo.host)
              [97; 98; 99; 100; 101; 102; 103; 104; 105; 106; 107; 108;
               109; 110; 111]%N (Some (Demo.heading_context [] [])))
    as [[h|]|] eqn:Hh; try (vm_compute in Hh; discriminate).
  exists r, r', h.
  assert (Hc : Docana.counts r = Docana.mk_stats 0 0 0 0 0 1).
  { vm_compute in Hr. injection Hr as <-. reflexivity. }
  assert (Hc' : Mdana64.counts r' = Mdana.mk_stats 0 0 0 0 0 1 0 0).
  { vm_compute in Hr'. injection Hr' as <-. reflexivity. }
  assert (Hs : Mdana64.info_score h = Binary64.literal 1.8
               /\ Mdana64.density h
                  = SpecFloat.S754_finite false 8646911284551353 (-56)).
  { vm_compute in Hh. injection Hh as <-. split; reflexivity. }
  destruct Hs as [Hs Hdh].
  destruct (Hzd _ _ Hr) as (_ & Hd0 & Hq0); try (rewrite Hc; reflexivity).
  destruct (Hzm _ _ _ Hr') as (_ & Hd1 & Hq1);
    try (rewrite Hc'; reflexivity); [reflexivity|].
  destruct (Hm _ _ _ Hh) as (Hhigh & _).
  assert (Hgt : Binary64.gt (Mdana64.density h) (Binary64.literal 0.12)
                = true) by (rewrite Hdh; reflexivity).
  split; [reflexivity|]. split; [exact Hd0|]. split; [exact Hq0|].
  split; [apply (Hd _ _ Hr)|].
  split; [reflexivity|]. split; [exact Hd1|]. split; [exact Hq1|].
  split; [reflexivity|]. split; [exact Hs|]. split; [exact Hdh|].
  split; [reflexivity|]. split; [exact Hgt|].
  apply Hhigh. exact Hgt.
Defined.

(** ** What moves the score and what does not *)


Lemma div_eq_compat (x y d : Q) : x == y -> x / d == y / d.
Proof.
  intros Hxy. rewrite Hxy. reflexivity.
Qed.

Section Monotone.
Context `{Host}.


(** C10. The weight tables hold an entity weight 2.0 and a verb weight
    1.5; the entity count of a segment is the number of its tokens
    longer than one character and made of letters, and it is kept in
    the record; yet two scored segments that differ in their entity
    counts only have the same score and the same density. *)
Theorem entities_do_not_score :
  (get Docana.weights "entity" = Some 2.0
   /\ get Docana.weights "verb" = Some 1.5
   /\ get Mdana.weights "entity" = Some 2.0
   /\ get Mdana.weights "verb" = Some 1.5)
  /\ (forall s r,
         Docana.analyze_sentence s = Ok (Some r) ->
         Docana.entities (Docana.counts r)
         = length (filter (fun w => (1 <? length w)%nat && isalpha w)
                          (lcut s)))
  /\ (forall s ctx r,
         Mdana.analyze_sentence s ctx = Ok (Some r) ->
         Mdana.entities (Mdana.counts r)
         = length (filter (fun w => (1 <? length w)%nat && isalpha w)
                          (lcut s)))
  /\ (forall s s' r r',
         Docana.analyze_sentence s = Ok (Some r) ->
         Docana.analyze_sentence s' = Ok (Some r') ->
         Docana.total_chars r' = Docana.total_chars r ->
         Docana.numbers (Docana.counts r') = Docana.numbers (Docana.counts r) ->
         Docana.time_words (Docana.counts r')
         = Docana.time_words (Docana.counts r) ->
         Docana.professional_terms (Docana.counts r')
         = Docana.professional_terms (Docana.counts r) ->
         Docana.conjunctions (Docana.counts r')
         = Docana.conjunctions (Docana.counts r) ->
         Docana.modifiers (Docana.counts r')
         = Docana.modifiers (Docana.counts r) ->
         Docana.info_score r' == Docana.info_score r
         /\ Docana.density r' == Docana.density r)
  /\ (forall s s' ctx ctx' r r',
         Mdana.analyze_sentence s ctx = Ok (Some r) ->
         Mdana.analyze_sentence s' ctx' = Ok (Some r') ->
         Mdana.total_chars r' = Mdana.total_chars r ->
         Documented.bonus_of ctx' == Documented.bonus_of ctx ->
         Mdana.numbers (Mdana.counts r') = Mdana.numbers (Mdana.counts r) ->
         Mdana.time_words (Mdana.counts r')
         = Mdana.time_words (Mdana.counts r) ->
         Mdana.professional_terms (Mdana.counts r')
         = Mdana.professional_terms (Mdana.counts r) ->
         Mdana.conjunctions (Mdana.counts r')
         = Mdana.conjunctions (Mdana.counts r) ->
         Mdana.modifiers (Mdana.counts r')
         = Mdana.modifiers (Mdana.counts r) ->
         Mdana.code_snippets (Mdana.counts r')
         = Mdana.code_snippets (Mdana.counts r) ->
         Mdana.links (Mdana.counts r') = Mdana.links (Mdana.counts r) ->
         Mdana.info_score r' == Mdana.info_score r
         /\ Mdana.density r' == Mdana.density r).
Proof.
  split; [repeat split|].
  split; [|split; [|split]].
  - intros s r Hr.
    destruct (docana_scored s r Hr) as (_ & _ & Hc & _).
    rewrite Hc. reflexivity.
  - intros s ctx r Hr.
    destruct (mdana_scored s ctx r Hr) as (_ & _ & Hc & _).
    rewrite Hc. reflexivity.
  - intros s s' r r' Hr Hr' Hchars Hn Ht Hp Hc Hm.
    destruct (docana_scored s r Hr) as (_ & _ & _ & Hscore & Hd & _).
    destruct (docana_scored s' r' Hr') as (_ & _ & _ & Hscore' & Hd' & _).
    assert (Hsame : Docana.info_score r' == Docana.info_score r).
    { rewrite Hscore, Hscore'.
      unfold Documented.plain_score. rewrite Hn, Ht, Hp, Hc, Hm.
      reflexivity. }
    split; [exact Hsame|].
    rewrite Hd, Hd', Hchars. apply div_eq_compat. exact Hsame.
  - intros s s' ctx ctx' r r' Hr Hr' Hchars Hb Hn Ht Hp Hc Hm Hcode Hl.
    destruct (mdana_scored s ctx r Hr) as (_ & _ & _ & _ & Hscore & Hd & _).
    destruct (mdana_scored s' ctx' r' Hr')
      as (_ & _ & _ & _ & Hscore' & Hd' & _).
    assert (Hsame : Mdana.info_score r' == Mdana.info_score r).
    { rewrite Hscore, Hscore', Hb.
      unfold Documented.markdown_score.
      rewrite Hn, Ht, Hp, Hc, Hm, Hcode, Hl. reflexivity. }
    split; [exact Hsame|].
    rewrite Hd, Hd', Hchars. apply div_eq_compat. exact Hsame.
Qed.

End Monotone.

(** Evaluate the scored record [r] of [Hr : analyze_sentence _ = Ok (Some r)],
    keeping [Hr]. *)
Ltac evaluate_record Hr :=
  let E := fresh "E" in
  pose proof Hr as E; vm_compute in E; injection E as <-.



(** "ab cd" has two entities and "ab c-" has one. *)
Lemma entities_do_not_score_witness :
  exists r r' m m',
    Docana.analyze_sentence (H := Demo.host) [97; 98; 32; 99; 100]%N
    = Ok (Some r)
    /\ Docana.analyze_sentence (H := Demo.host) [97; 98; 32; 99; 45]%N
       = Ok (Some r')
    /\ Docana.entities (Docana.counts r) = 2%nat
    /\ Docana.entities (Docana.counts r') = 1%nat
    /\ Docana.info_score r' == Docana.info_score r
    /\ Docana.density r' == Docana.density r
    /\ Mdana.analyze_sentence (H := Demo.host) [97; 98; 32; 99; 100]%N None
       = Ok (Some m)
    /\ Mdana.analyze_sentence (H := Demo.host) [97; 98; 32; 99; 45]%N None
       = Ok (Some m')
    /\ Mdana.entities (Mdana.counts m) = 2%nat
    /\ Mdana.entities (Mdana.counts m') = 1%nat
    /\ Mdana.info_score m' == Mdana.info_score m
    /\ Mdana.density m' == Mdana.density m.
Proof.
  destruct (@entities_do_not_score Demo.host)
    as (_ & Hed & Hem & Hdoc & Hmd).
  destruct (Docana.analyze_sentence (H := Demo.host)
              [97; 98; 32; 99; 100]%N) as [[r|]|] eqn:Hr;
    try (vm_compute in Hr; discriminate).
  destruct (Docana.analyze_sentence (H := Demo.host)
              [97; 98; 32; 99; 45]%N) as [[r'|]|] eqn:Hr';
    try (vm_compute in Hr'; discriminate).
  destruct (Mdana.analyze_sentence (H := Demo.host)
              [97; 98; 32; 99; 100]%N None) as [[m|]|] eqn:Hm;
    try (vm_compute in Hm; discriminate).
  destruct (Mdana.analyze_sentence (H := Demo.host)
              [97; 98; 32; 99; 45]%N None) as [[m'|]|] eqn:Hm';
    try (vm_compute in Hm'; discriminate).
  exists r, r', m, m'.
  pose proof (Hed _ _ Hr) as E1. pose proof (Hed _ _ Hr') as E2.
  pose proof (Hem _ _ _ Hm) as E3. pose proof (Hem _ _ _ Hm') as E4.
  evaluate_record Hr. evaluate_record Hr'.
  evaluate_record Hm. evaluate_record Hm'.
  destruct (Hdoc _ _ _ _ Hr Hr') as [H1 H2]; try reflexivity.
  destruct (Hmd _ _ _ _ _ _ Hm Hm') as [H3 H4]; try reflexivity.
  repeat split; try assumption; reflexivity.
Defined.

(** ** The paragraph splitter *)

Lemma quote_key_spec (c : char) :
  Segmenter.is_quote_key c = true <-> c = 34%N \/ c = 39%N.
Proof.
  cbv [Segmenter.is_quote_key Segmenter.quote_pairs existsb fst].
  rewrite !orb_true_iff, !N.eqb_eq. intuition congruence.
Qed.

Lemma break_mark_spec (c : char) :
  Segmenter.is_break_mark c = true
  <-> c = 12290%N \/ c = 65311%N \/ c = 65281%N.
Proof.
  cbv [Segmenter.is_break_mark existsb].
  rewrite !orb_true_iff, !N.eqb_eq. intuition congruence.
Qed.

(** The closing character of a quote is a quote of the table. *)
Lemma quote_get_spec (k : option char) (close : char) :
  Segmenter.quote_get k = Some close -> close = 34%N \/ close = 39%N.
Proof.
  destruct k as [q|]; [|discriminate].
  cbv [Segmenter.quote_get Segmenter.quote_pairs fold_left fst snd].
  destruct (N.eqb 34 q), (N.eqb 39 q); intros E; try discriminate E;
    injection E as <-; auto.
Qed.

Lemma break_mark_not_quote (c : char) :
  Segmenter.is_break_mark c = true -> Segmenter.is_quote_key c = false.
Proof.
  intros Hc. apply break_mark_spec in Hc.
  destruct (Segmenter.is_quote_key c) eqn:E; [|reflexivity].
  apply quote_key_spec in E. destruct Hc as [-> | [-> | ->]];
    destruct E; discriminate.
Qed.

Lemma break_mark_not_closing (c : char) (k : option char) :
  Segmenter.is_break_mark c = true ->
  match Segmenter.quote_get k with
  | Some close => N.eqb c close
  | None => false
  end = false.
Proof.
  intros Hc. destruct (Segmenter.quote_get k) as [close|] eqn:E;
    [|reflexivity].
  apply quote_get_spec in E. apply break_mark_spec in Hc.
  apply N.eqb_neq. destruct Hc as [-> | [-> | ->]];
    destruct E as [-> | ->]; discriminate.
Qed.

(** Every character is retained, and a break follows it exactly when it
    is one of 。？！ read outside quotes. *)
Lemma step_output (st : Segmenter.state) (c : char) :
  snd (Segmenter.step st c)
  = [c] :: (if Segmenter.is_break_mark c && negb (Segmenter.in_quotes st)
            then [Segmenter.BREAK] else []).
Proof.
  unfold Segmenter.step.
  destruct (Segmenter.in_quotes st) eqn:Hq; cbn [negb andb].
  - destruct (match Segmenter.quote_get (Segmenter.current_quote_start st)
              with Some close => N.eqb c close | None => false end) eqn:Hc.
    + cbn [snd]. rewrite andb_false_r. reflexivity.
    + destruct (Segmenter.is_break_mark c); reflexivity.
  - destruct (Segmenter.is_quote_key c) eqn:Hk.
    + cbn [snd]. destruct (Segmenter.is_break_mark c) eqn:Hb; [|reflexivity].
      apply break_mark_not_quote in Hb. congruence.
    + destruct (Segmenter.is_break_mark c); reflexivity.
Qed.

(** A mark neither opens nor closes a quote. *)
Lemma step_state_mark (st : Segmenter.state) (c : char) :
  Segmenter.is_break_mark c = true -> fst (Segmenter.step st c) = st.
Proof.
  intros Hc. unfold Segmenter.step.
  rewrite (break_mark_not_quote c Hc), andb_false_r.
  rewrite (break_mark_not_closing c _ Hc), andb_false_r, Hc.
  reflexivity.
Qed.

Lemma scan_app (st : Segmenter.state) (a b : pystr) :
  Segmenter.scan st (a ++ b)
  = Segmenter.scan st a ++ Segmenter.scan (Segmenter.state_after st a) b.
Proof.
  revert st. induction a as [|c a IH]; intros st; [reflexivity|].
  cbn [app Segmenter.scan]. rewrite IH, <- app_assoc. reflexivity.
Qed.

Lemma single_not_break (c : char) : [c] <> Segmenter.BREAK.
Proof. discriminate. Qed.

(** C2, as the code has it. A break follows every 。, ？ or ！ read outside
    a quoted span, at once, and none is emitted inside one; a span is
    opened by an ASCII double or single quote and closed by the same
    character. Every character
    is retained. No other character brings a break, the ASCII marks
    included: the text of the design document comes out unchanged, and
    ended by 。 instead of the dots its only break follows that 。. *)
Theorem break_after_unquoted_mark :
  (forall pre c post,
      Segmenter.is_break_mark c = true ->
      Segmenter.scan Segmenter.initial (pre ++ c :: post)
      = Segmenter.scan Segmenter.initial pre
        ++ [c] :: (if Segmenter.in_quotes
                        (Segmenter.state_after Segmenter.initial pre)
                   then [] else [Segmenter.BREAK])
        ++ Segmenter.scan (Segmenter.state_after Segmenter.initial pre) post)
  /\ (forall st c,
         snd (Segmenter.step st c)
         = [c] :: (if Segmenter.is_break_mark c
                      && negb (Segmenter.in_quotes st)
                   then [Segmenter.BREAK] else []))
  /\ (forall st c,
         In Segmenter.BREAK (snd (Segmenter.step st c))
         <-> (c = 12290%N \/ c = 65311%N \/ c = 65281%N)
             /\ Segmenter.in_quotes st = false)
  /\ (forall st c,
         Segmenter.in_quotes (fst (Segmenter.step st c))
         = if Segmenter.in_quotes st
           then negb (match Segmenter.quote_get
                              (Segmenter.current_quote_start st) with
                      | Some close => N.eqb c close
                      | None => false
                      end)
           else (N.eqb c 34 || N.eqb c 39))
  /\ Segmenter.process_content Segmenter.EXAMPLE = Segmenter.EXAMPLE
  /\ Segmenter.process_content Segmenter.EXAMPLE_FULL_STOP
     = Segmenter.EXAMPLE_FULL_STOP ++ Segmenter.BREAK.
Proof.
  split; [|split; [exact step_output|split; [|split; [|split]]]].
  - intros pre c post Hc. rewrite scan_app. f_equal.
    cbn [Segmenter.scan]. rewrite step_output, (step_state_mark _ c Hc), Hc.
    destruct (Segmenter.in_quotes
                (Segmenter.state_after Segmenter.initial pre));
      reflexivity.
  - intros st c. rewrite step_output, <- break_mark_spec.
    pose proof (single_not_break c) as Hne.
    destruct (Segmenter.is_break_mark c), (Segmenter.in_quotes st);
      cbn [andb negb In]; intuition congruence.
  - intros st c. unfold Segmenter.step.
    destruct (Segmenter.in_quotes st) eqn:Hq; cbn [negb andb].
    + destruct (match Segmenter.quote_get (Segmenter.current_quote_start st)
                with Some close => N.eqb c close | None => false end);
        cbn [fst negb]; [reflexivity|].
      destruct (Segmenter.is_break_mark c); cbn [fst]; exact Hq.
    + destruct (Segmenter.is_quote_key c) eqn:Hk.
      * apply quote_key_spec in Hk. destruct Hk as [-> | ->]; reflexivity.
      * assert (E34 : N.eqb c 34 = false).
        { apply N.eqb_neq. intros ->. discriminate Hk. }
        assert (E39 : N.eqb c 39 = false).
        { apply N.eqb_neq. intros ->. discriminate Hk. }
        rewrite E34, E39.
        destruct (Segmenter.is_break_mark c); cbn [fst orb]; exact Hq.
  - vm_compute. reflexivity.
  - vm_compute. reflexivity.
Qed.

(** The quoted ？ of the example: no break, the closing quote follows. *)
Lemma break_after_unquoted_mark_witness :
  Segmenter.is_break_mark 65311%N = true
  /\ Segmenter.scan Segmenter.initial
       (removelast (removelast Segmenter.EXAMPLE_QUOTED) ++ 65311%N :: [34%N])
     = Segmenter.scan Segmenter.initial
         (removelast (removelast Segmenter.EXAMPLE_QUOTED))
       ++ [[65311%N]; [34%N]].
Proof.
  split; [reflexivity|].
  destruct break_after_unquoted_mark as [Hmark _].
  apply (eq_trans (Hmark (removelast (removelast Segmenter.EXAMPLE_QUOTED))
                         65311%N [34%N] eq_refl)).
  reflexivity.
Defined.

(** The claim of the design document fails on its own example: the
    text ends outside quotes, after ASCII dots, and no break is emitted
    at all. The analyzers split it with [re.split], inside the quotes
    too, and drop the marks. *)
Lemma ascii_marks_do_not_break :
  Segmenter.in_quotes
    (Segmenter.state_after Segmenter.initial Segmenter.EXAMPLE) = false
  /\ ~ In Segmenter.BREAK (Segmenter.scan Segmenter.initial Segmenter.EXAMPLE)
  /\ Segmenter.process_content Segmenter.EXAMPLE = Segmenter.EXAMPLE
  /\ split_sentences Segmenter.EXAMPLE
     = [removelast (removelast Segmenter.EXAMPLE_QUOTED);
        [34; 32; 25509; 19979; 26469]%N; []].
Proof.
  split; [reflexivity|]. split; [|split; reflexivity].
  intros Hin.
  assert (Hex : existsb (Py.eqb Segmenter.BREAK)
                        (Segmenter.scan Segmenter.initial Segmenter.EXAMPLE)
                = true).
  { apply existsb_exists. exists Segmenter.BREAK. split; [exact Hin|].
    apply eqb_eq. reflexivity. }
  vm_compute in Hex. discriminate Hex.
Qed.

(** ** Analyzing one document *)

Section Documents.
Context `{Host}.

(** A candidate sentence is stripped and not empty. *)
Lemma docana_candidate_ready (text c : pystr) :
  In c (Docana.candidates text) ->
  strip c = c /\ c <> [] /\ (5 < length c)%nat.
Proof.
  unfold Docana.candidates. rewrite in_map_iff. intros [s [<- Hs]].
  apply filter_In in Hs. destruct Hs as [_ Hk].
  unfold Docana.keep_candidate in Hk.
  apply andb_true_iff in Hk. destruct Hk as [Ht Hl].
  apply truthy_true in Ht. apply Nat.ltb_lt in Hl.
  split; [apply strip_idem|]. split; assumption.
Qed.

Lemma mdana_candidate_ready (text c : pystr) :
  In c (Mdana.candidates text) ->
  strip c = c /\ c <> [] /\ (3 < length c)%nat.
Proof.
  unfold Mdana.candidates. rewrite in_map_iff. intros [s [<- Hs]].
  apply filter_In in Hs. destruct Hs as [_ Hk].
  unfold Mdana.keep_candidate in Hk.
  apply andb_true_iff in Hk. destruct Hk as [Ht Hl].
  apply truthy_true in Ht. apply Nat.ltb_lt in Hl.
  split; [apply strip_idem|]. split; assumption.
Qed.

Lemma stripped_is_scorable (c : pystr) :
  strip c = c -> c <> [] ->
  negb (truthy (strip c)) || (length (remove_spaces c) =? 0)%nat = false.
Proof.
  intros Hs Hne.
  assert (Ht : truthy (strip c) = true).
  { rewrite Hs. apply truthy_true. exact Hne. }
  assert (Hl : (0 < length (remove_spaces c))%nat).
  { rewrite <- Hs. apply strip_remove_spaces. rewrite Hs. exact Hne. }
  rewrite Ht. cbn [negb orb]. apply Nat.eqb_neq. lia.
Qed.

(** Every stripped, non-empty sentence is scored. *)
Lemma docana_stripped_scored (c : pystr) :
  strip c = c -> c <> [] ->
  exists r, Docana.analyze_sentence c = Ok (Some r).
Proof.
  intros Hs Hne. rewrite docana_analyze_sentence_eq.
  rewrite (stripped_is_scorable c Hs Hne). eexists. reflexivity.
Qed.

Lemma mdana_stripped_scored (c : pystr) (ctx : option Mdana.context) :
  strip c = c -> c <> [] ->
  exists r, Mdana.analyze_sentence c ctx = Ok (Some r).
Proof.
  intros Hs Hne. pose proof (mdana_analyze_sentence_total c ctx) as Ht.
  rewrite (stripped_is_scorable c Hs Hne) in Ht. exact Ht.
Qed.

(** The loop over the candidates scores each of them, in order. *)
Lemma docana_analyze_each_ok (l : list pystr) :
  Forall (fun c => strip c = c /\ c <> []) l ->
  exists rs,
    Docana.analyze_each l = Ok rs
    /\ Forall2 (fun c r => Docana.analyze_sentence c = Ok (Some r)) l rs.
Proof.
  induction 1 as [|c l [Hs Hne] _ [rs [E F]]]; cbn [Docana.analyze_each].
  - exists []. split; [reflexivity | constructor].
  - destruct (docana_stripped_scored c Hs Hne) as [r Hr].
    rewrite Hr, E. cbn [bind]. exists (r :: rs).
    split; [reflexivity | constructor; assumption].
Qed.

Lemma docana_candidates_ready (text : pystr) :
  Forall (fun c => strip c = c /\ c <> []) (Docana.candidates text).
Proof.
  apply Forall_forall. intros c Hc.
  destruct (docana_candidate_ready text c Hc) as (Hs & Hne & _). auto.
Qed.

Lemma mdana_candidates_ready (text : pystr) :
  Forall (fun c => strip c = c /\ c <> []) (Mdana.candidates text).
Proof.
  apply Forall_forall. intros c Hc.
  destruct (mdana_candidate_ready text c Hc) as (Hs & Hne & _). auto.
Qed.

(** The three labels are all there is. *)
Lemma docana_counts_sum (rs : list Docana.sentence_result) :
  Forall (fun r => Docana.quality r = Docana.quality_of (Docana.density r))
         rs ->
  (Docana.count_quality Docana.HIGH rs
   + Docana.count_quality Docana.MEDIUM rs
   + Docana.count_quality Docana.LOW rs = length rs)%nat.
Proof.
  unfold Docana.count_quality.
  induction 1 as [|r rs Hq _ IH]; [reflexivity|].
  cbn [filter length]. rewrite Hq. unfold Docana.quality_of.
  destruct (gt (Docana.density r) 0.15);
    [|destruct (gt (Docana.density r) 0.08)];
    cbn [Py.eqb Docana.HIGH Docana.MEDIUM Docana.LOW N.eqb Pos.eqb andb
         length]; lia.
Qed.

Lemma mdana_counts_sum (rs : list Mdana.sentence_result) :
  Forall (fun r => Mdana.quality r = Mdana.quality_of (Mdana.density r))
         rs ->
  (Mdana.count_quality Mdana.HIGH rs
   + Mdana.count_quality Mdana.MEDIUM rs
   + Mdana.count_quality Mdana.LOW rs = length rs)%nat.
Proof.
  unfold Mdana.count_quality.
  induction 1 as [|r rs Hq _ IH]; [reflexivity|].
  cbn [filter length]. rewrite Hq. unfold Mdana.quality_of.
  destruct (gt (Mdana.density r) 0.12);
    [|destruct (gt (Mdana.density r) 0.06)];
    cbn [Py.eqb Mdana.HIGH Mdana.MEDIUM Mdana.LOW N.eqb Pos.eqb andb
         length]; lia.
Qed.

(** [analyze_text] never raises, and this is the record it returns: the
    branch for an analysis that scored nothing is never taken. *)
Lemma docana_analyze_text_ok (text filename : pystr) :
  exists rs,
    Forall2 (fun c r => Docana.analyze_sentence c = Ok (Some r))
            (Docana.candidates text) rs
    /\ Docana.analyze_text text filename
       = Ok (match text, rs with
             | [], _ => Docana.error_result filename Docana.MSG_EMPTY_TEXT
             | _ :: _, [] =>
                 Docana.error_result filename Docana.MSG_NO_SENTENCES
             | _ :: _, _ :: _ =>
                 Docana.Analyzed
                   (Docana.mk_document
                      filename (length rs)
                      (sum (map Docana.total_chars rs))
                      (sumQ (map Docana.density rs) / of_nat (length rs))
                      (of_nat (Docana.count_quality Docana.HIGH rs)
                       / of_nat (length rs))
                      (Docana.mk_quality_distribution
                         (Docana.count_quality Docana.HIGH rs)
                         (Docana.count_quality Docana.MEDIUM rs)
                         (Docana.count_quality Docana.LOW rs))
                      (Docana.mk_content_stats
                         (sum (map (fun r => Docana.numbers (Docana.counts r))
                                   rs))
                         (sum (map (fun r =>
                                      Docana.time_words (Docana.counts r))
                                   rs))
                         (of_nat (sum (map Docana.total_chars rs))
                          / of_nat (length rs)))
                      (firstn 10 rs))
             end).
Proof.
  destruct (docana_analyze_each_ok _ (docana_candidates_ready text))
    as [rs [E F]].
  exists rs. split; [exact F|].
  unfold Docana.analyze_text. destruct text as [|c0 t]; [reflexivity|].
  cbn [truthy negb].
  destruct (Docana.candidates (c0 :: t)) as [|c l].
  - inversion F. reflexivity.
  - rewrite E. cbn [bind]. inversion F as [|? r ? rs' _ _]. subst.
    rewrite length_map.
    rewrite !truediv_pos by (cbn [length]; lia).
    reflexivity.
Qed.

End Documents.

Section MarkdownDocuments.
Context `{Host}.
Variable get_sentence_context : pystr -> pystr -> Mdana.context.
Variable clean_markdown_text : pystr -> pystr.
Variable markdown_stats_of : pystr -> Mdana.markdown_stats.

Lemma mdana_analyze_each_ok (content : pystr) (l : list pystr) :
  Forall (fun c => strip c = c /\ c <> []) l ->
  exists rs,
    Mdana.analyze_each get_sentence_context content l = Ok rs
    /\ Forall2 (fun c r =>
                  Mdana.analyze_sentence
                    c (Some (get_sentence_context c content))
                  = Ok (Some r)) l rs.
Proof.
  induction 1 as [|c l [Hs Hne] _ [rs [E F]]]; cbn [Mdana.analyze_each].
  - exists []. split; [reflexivity | constructor].
  - destruct (mdana_stripped_scored
                c (Some (get_sentence_context c content)) Hs Hne) as [r Hr].
    rewrite Hr, E. cbn [bind]. exists (r :: rs).
    split; [reflexivity | constructor; assumption].
Qed.

(** [analyze_markdown_content] never raises either. *)
Lemma mdana_analyze_content_ok (text filename : pystr) :
  exists rs,
    Forall2 (fun c r =>
               Mdana.analyze_sentence c (Some (get_sentence_context c text))
               = Ok (Some r))
            (Mdana.candidates (clean_markdown_text text)) rs
    /\ exists res,
        Mdana.analyze_markdown_content
          get_sentence_context clean_markdown_text markdown_stats_of
          (Some text) filename = Ok res
        /\ match text, rs with
           | [], _ =>
               res = Mdana.error_result filename Mdana.MSG_EMPTY_CONTENT None
           | _ :: _, [] =>
               res = Mdana.error_result filename Mdana.MSG_NO_SENTENCES
                                        (Some (markdown_stats_of text))
           | _ :: _, _ :: _ =>
               exists d,
               res = Mdana.Analyzed d
               /\ Mdana.total_sentences d = length rs
               /\ Mdana.doc_total_chars d = sum (map Mdana.total_chars rs)
               /\ Mdana.average_density d
                  = sumQ (map Mdana.density rs) / of_nat (length rs)
               /\ Mdana.high_quality_ratio d
                  = of_nat (Mdana.count_quality Mdana.HIGH rs)
                    / of_nat (length rs)
               /\ Mdana.distribution d
                  = Mdana.mk_quality_distribution
                      (Mdana.count_quality Mdana.HIGH rs)
                      (Mdana.count_quality Mdana.MEDIUM rs)
                      (Mdana.count_quality Mdana.LOW rs)
               /\ Mdana.sentences d = firstn 15 rs
           end.
Proof.
  destruct (mdana_analyze_each_ok
              text _ (mdana_candidates_ready (clean_markdown_text text)))
    as [rs [E F]].
  exists rs. split; [exact F|].
  unfold Mdana.analyze_markdown_content.
  destruct text as [|c0 t]; [eexists; split; reflexivity|].
  cbn [truthy negb].
  destruct (Mdana.candidates (clean_markdown_text (c0 :: t))) as [|c l].
  - inversion F. eexists. split; reflexivity.
  - rewrite E. cbn [bind]. inversion F as [|? r ? rs' _ _]. subst.
    rewrite length_map.
    rewrite !truediv_pos by (cbn [length]; lia).
    cbn [bind]. eexists. split; [reflexivity|].
    eexists. split; [reflexivity|]. repeat split.
Qed.

Lemma mdana_analyze_content_total (content : option pystr)
      (filename : pystr) :
  exists res,
    Mdana.analyze_markdown_content
      get_sentence_context clean_markdown_text markdown_stats_of
      content filename = Ok res.
Proof.
  destruct content as [text|]; [|eexists; reflexivity].
  destruct (mdana_analyze_content_ok text filename)
    as [rs [_ [res [E _]]]].
  exists res. exact E.
Qed.

End MarkdownDocuments.

(** ** The document record *)

Section Records.
Context `{Host}.
Variable get_sentence_context : pystr -> pystr -> Mdana.context.
Variable clean_markdown_text : pystr -> pystr.
Variable markdown_stats_of : pystr -> Mdana.markdown_stats.

Lemma docana_scored_labels
      (l : list pystr) (rs : list Docana.sentence_result) :
  Forall2 (fun c r => Docana.analyze_sentence c = Ok (Some r)) l rs ->
  Forall (fun r => Docana.quality r = Docana.quality_of (Docana.density r))
         rs.
Proof.
  induction 1 as [|c r l rs Hr _ IH]; constructor; [|exact IH].
  destruct (docana_scored c r Hr) as (_ & _ & _ & _ & _ & Hq). exact Hq.
Qed.

Lemma mdana_scored_labels (content : pystr)
      (l : list pystr) (rs : list Mdana.sentence_result) :
  Forall2 (fun c r =>
             Mdana.analyze_sentence c (Some (get_sentence_context c content))
             = Ok (Some r)) l rs ->
  Forall (fun r => Mdana.quality r = Mdana.quality_of (Mdana.density r)) rs.
Proof.
  induction 1 as [|c r l rs Hr _ IH]; constructor; [|exact IH].
  destruct (mdana_scored c _ r Hr) as (_ & _ & _ & _ & _ & _ & Hq). exact Hq.
Qed.

(** C6. In the record of a document with at least one scored segment the
    counts of high, medium and low segments add up to the number of
    scored segments, which is [total_sentences]. *)
Theorem histogram_sums_to_total :
  (forall text filename d,
      Docana.analyze_text text filename = Ok (Docana.Analyzed d) ->
      exists rs,
        Forall2 (fun c r => Docana.analyze_sentence c = Ok (Some r))
                (Docana.candidates text) rs
        /\ rs <> []
        /\ Docana.total_sentences d = length rs
        /\ (Docana.high_count (Docana.distribution d)
            + Docana.medium_count (Docana.distribution d)
            + Docana.low_count (Docana.distribution d)
            = Docana.total_sentences d)%nat)
  /\ (forall text filename d,
         Mdana.analyze_markdown_content
           get_sentence_context clean_markdown_text markdown_stats_of
           (Some text) filename = Ok (Mdana.Analyzed d) ->
         exists rs,
           Forall2 (fun c r =>
                      Mdana.analyze_sentence
                        c (Some (get_sentence_context c text))
                      = Ok (Some r))
                   (Mdana.candidates (clean_markdown_text text)) rs
           /\ rs <> []
           /\ Mdana.total_sentences d = length rs
           /\ (Mdana.high_count (Mdana.distribution d)
               + Mdana.medium_count (Mdana.distribution d)
               + Mdana.low_count (Mdana.distribution d)
               = Mdana.total_sentences d)%nat).
Proof.
  split.
  - intros text filename d Hd.
    destruct (docana_analyze_text_ok text filename) as [rs [F E]].
    rewrite E in Hd. exists rs. split; [exact F|].
    destruct text as [|c0 t]; [discriminate Hd|].
    destruct rs as [|r rs]; [discriminate Hd|].
    injection Hd as <-. cbn [Docana.total_sentences Docana.distribution
      Docana.high_count Docana.medium_count Docana.low_count].
    split; [discriminate|]. split; [reflexivity|].
    apply docana_counts_sum. exact (docana_scored_labels _ _ F).
  - intros text filename d Hd.
    destruct (mdana_analyze_content_ok
                get_sentence_context clean_markdown_text markdown_stats_of
                text filename) as [rs [F [res [E Hres]]]].
    rewrite E in Hd. injection Hd as ->. exists rs. split; [exact F|].
    destruct text as [|c0 t]; [discriminate Hres|].
    destruct rs as [|r rs]; [discriminate Hres|].
    destruct Hres as [d' (Ed & Ht & _ & _ & _ & Hdist & _)].
    injection Ed as <-. rewrite Hdist, Ht.
    cbn [Mdana.high_count Mdana.medium_count Mdana.low_count].
    split; [discriminate|]. split; [reflexivity|].
    apply mdana_counts_sum. exact (mdana_scored_labels _ _ _ F).
Qed.

(** C7. A document analysis always returns, without a division by
    zero. When the record counts at least one segment it has the
    statistics, and its ratio is the count of high segments over the
    total; when it counts none, the ratio is the 0 the code writes. *)
Theorem high_quality_ratio_is_defined :
  (forall text filename,
      exists res,
        Docana.analyze_text text filename = Ok res
        /\ ((0 < Docana.result_total_sentences res)%nat ->
            exists d,
              res = Docana.Analyzed d
              /\ Docana.result_high_quality_ratio res
                 == of_nat (Docana.high_count (Docana.distribution d))
                    / of_nat (Docana.result_total_sentences res))
        /\ (Docana.result_total_sentences res = 0%nat ->
            Docana.result_high_quality_ratio res = 0))
  /\ (forall content filename,
         exists res,
           Mdana.analyze_markdown_content
             get_sentence_context clean_markdown_text markdown_stats_of
             content filename = Ok res
           /\ ((0 < Mdana.result_total_sentences res)%nat ->
               exists d,
                 res = Mdana.Analyzed d
                 /\ Mdana.result_high_quality_ratio res
                    == of_nat (Mdana.high_count (Mdana.distribution d))
                       / of_nat (Mdana.result_total_sentences res))
           /\ (Mdana.result_total_sentences res = 0%nat ->
               Mdana.result_high_quality_ratio res = 0)).
Proof.
  split.
  - intros text filename.
    destruct (docana_analyze_text_ok text filename) as [rs [F E]].
    rewrite E. eexists. split; [reflexivity|].
    destruct text as [|c0 t];
      [split; [cbn; lia | reflexivity]|].
    destruct rs as [|r rs];
      [split; [cbn; lia | reflexivity]|].
    split.
    + intros _. eexists. split; [reflexivity|]. reflexivity.
    + cbn [Docana.result_total_sentences Docana.total_sentences length].
      discriminate.
  - intros [text|] filename;
      [|eexists; split; [reflexivity|]; split; [cbn; lia | reflexivity]].
    destruct (mdana_analyze_content_ok
                get_sentence_context clean_markdown_text markdown_stats_of
                text filename) as [rs [F [res [E Hres]]]].
    exists res. split; [exact E|].
    destruct text as [|c0 t];
      [subst res; split; [cbn; lia | reflexivity]|].
    destruct rs as [|r rs];
      [subst res; split; [cbn; lia | reflexivity]|].
    destruct Hres as [d (-> & Ht & _ & _ & Hr & Hdist & _)].
    cbn [Mdana.result_total_sentences Mdana.result_high_quality_ratio].
    split.
    + intros _. exists d. split; [reflexivity|].
      rewrite Hr, Hdist, Ht. reflexivity.
    + rewrite Ht. discriminate.
Qed.

(** C8, as the code has it. A candidate is kept when, stripped, it is
    longer than 5 characters in a plain-text document and longer than 3
    in a markdown document: lengths 6 and 4 are the shortest kept.
    Every candidate kept is scored. *)
Theorem candidate_kept_iff_longer :
  (forall s,
      Docana.keep_candidate s = true
      <-> strip s <> [] /\ (5 < length (strip s))%nat)
  /\ (forall s,
         Mdana.keep_candidate s = true
         <-> strip s <> [] /\ (3 < length (strip s))%nat)
  /\ (forall s, (6 <= length (strip s))%nat -> Docana.keep_candidate s = true)
  /\ (forall s, (4 <= length (strip s))%nat -> Mdana.keep_candidate s = true)
  /\ (forall text c,
         In c (Docana.candidates text) ->
         exists r, Docana.analyze_sentence c = Ok (Some r))
  /\ (forall text content c,
         In c (Mdana.candidates text) ->
         exists r,
           Mdana.analyze_sentence c (Some (get_sentence_context c content))
           = Ok (Some r)).
Proof.
  assert (Hd : forall s, Docana.keep_candidate s = true
                         <-> strip s <> [] /\ (5 < length (strip s))%nat).
  { intros s. unfold Docana.keep_candidate.
    rewrite andb_true_iff, truthy_true, Nat.ltb_lt. reflexivity. }
  assert (Hm : forall s, Mdana.keep_candidate s = true
                         <-> strip s <> [] /\ (3 < length (strip s))%nat).
  { intros s. unfold Mdana.keep_candidate.
    rewrite andb_true_iff, truthy_true, Nat.ltb_lt. reflexivity. }
  split; [exact Hd|]. split; [exact Hm|].
  split; [|split; [|split]].
  - intros s Hl. apply Hd. destruct (strip s); cbn [length] in *; [lia|].
    split; [discriminate | lia].
  - intros s Hl. apply Hm. destruct (strip s); cbn [length] in *; [lia|].
    split; [discriminate | lia].
  - intros text c Hc.
    destruct (docana_candidate_ready text c Hc) as (Hs & Hne & _).
    exact (docana_stripped_scored c Hs Hne).
  - intros text content c Hc.
    destruct (mdana_candidate_ready text c Hc) as (Hs & Hne & _).
    exact (mdana_stripped_scored c _ Hs Hne).
Qed.

End Records.

(** Two sentences of the demo host, then a fragment too short to keep. *)
Lemma histogram_sums_to_total_witness :
  exists d m,
    Docana.analyze_text (H := Demo.host)
      (Demo.TEXT_A ++ 12290%N :: Demo.TEXT_C ++ [65281; 97; 98]%N)
      Demo.FILE_A = Ok (Docana.Analyzed d)
    /\ Docana.total_sentences d = 2%nat
    /\ (Docana.high_count (Docana.distribution d)
        + Docana.medium_count (Docana.distribution d)
        + Docana.low_count (Docana.distribution d) = 2)%nat
    /\ Mdana.analyze_markdown_content (H := Demo.host)
         Demo.no_context (fun s => s) Demo.no_markdown
         (Some (Demo.TEXT_A ++ 12290%N :: Demo.TEXT_C ++ [65281; 97; 98]%N))
         Demo.FILE_A = Ok (Mdana.Analyzed m)
    /\ Mdana.total_sentences m = 2%nat
    /\ (Mdana.high_count (Mdana.distribution m)
        + Mdana.medium_count (Mdana.distribution m)
        + Mdana.low_count (Mdana.distribution m) = 2)%nat.
Proof.
  destruct (@histogram_sums_to_total
              Demo.host Demo.no_context (fun s => s) Demo.no_markdown)
    as [Hdoc Hmd].
  destruct (Docana.analyze_text (H := Demo.host)
              (Demo.TEXT_A ++ 12290%N :: Demo.TEXT_C ++ [65281; 97; 98]%N)
              Demo.FILE_A) as [[e|d]|] eqn:Hd;
    try (vm_compute in Hd; discriminate).
  destruct (Mdana.analyze_markdown_content (H := Demo.host)
              Demo.no_context (fun s => s) Demo.no_markdown
              (Some (Demo.TEXT_A ++ 12290%N :: Demo.TEXT_C
                       ++ [65281; 97; 98]%N))
              Demo.FILE_A) as [[e|m]|] eqn:Hm;
    try (vm_compute in Hm; discriminate).
  exists d, m.
  destruct (Hdoc _ _ _ Hd) as [rs (_ & _ & _ & Hsum)].
  destruct (Hmd _ _ _ Hm) as [rs' (_ & _ & _ & Hsum')].
  assert (Ht : Docana.total_sentences d = 2%nat).
  { vm_compute in Hd. injection Hd as <-. reflexivity. }
  assert (Ht' : Mdana.total_sentences m = 2%nat).
  { vm_compute in Hm. injection Hm as <-. reflexivity. }
  split; [reflexivity|]. split; [exact Ht|].
  split; [rewrite Hsum; exact Ht|].
  split; [reflexivity|]. split; [exact Ht'|].
  rewrite Hsum'. exact Ht'.
Defined.

(** The claim of the design document fails at its own bound: five
    characters are dropped by the plain-text analyzer, three by the
    markdown analyzer. *)
Lemma five_characters_are_dropped :
  length (strip [97; 98; 99; 100; 101]%N) = 5%nat
  /\ Docana.keep_candidate [97; 98; 99; 100; 101]%N = false
  /\ Docana.analyze_text (H := Demo.host)
       [97; 98; 99; 100; 101; 12290]%N Demo.FILE_A
     = Ok (Docana.error_result Demo.FILE_A Docana.MSG_NO_SENTENCES)
  /\ length (strip [97; 98; 99]%N) = 3%nat
  /\ Mdana.keep_candidate [97; 98; 99]%N = false.
Proof.
  repeat split.
Qed.

(** "abcdef" and "abcd" are kept; "abcdef" is scored. *)
Lemma candidate_kept_iff_longer_witness :
  Docana.keep_candidate [97; 98; 99; 100; 101; 102]%N = true
  /\ Mdana.keep_candidate [97; 98; 99; 100]%N = true
  /\ (exists r,
         Docana.analyze_sentence (H := Demo.host)
           [97; 98; 99; 100; 101; 102]%N = Ok (Some r))
  /\ (exists r,
         Mdana.analyze_sentence (H := Demo.host)
           [97; 98; 99; 100; 101; 102]%N
           (Some (Demo.no_context [97; 98; 99; 100; 101; 102]%N []))
         = Ok (Some r)).
Proof.
  destruct (@candidate_kept_iff_longer Demo.host Demo.no_context)
    as (_ & _ & Hd6 & Hm4 & Hds & Hms).
  split; [apply Hd6; cbn; lia|].
  split; [apply Hm4; cbn; lia|].
  split.
  - apply (Hds [97; 98; 99; 100; 101; 102; 12290]%N). left. reflexivity.
  - apply (Hms [97; 98; 99; 100; 101; 102; 12290]%N []). left. reflexivity.
Defined.

(** ** The corpus *)

Lemma sumQ_from (xs : list Q) (a : Q) :
  fold_left Qplus xs a == a + fold_right Qplus 0 xs.
Proof.
  revert a. induction xs as [|x xs IH]; intros a; cbn [fold_left fold_right].
  - ring.
  - rewrite IH. ring.
Qed.

(** [sum] adds from the left, the mean of the design document from the
    right. *)
Lemma sumQ_mean (xs : list Q) :
  sumQ xs / of_nat (length xs) == Documented.mean xs.
Proof.
  unfold sumQ, Documented.mean. rewrite sumQ_from.
  apply div_eq_compat. ring.
Qed.

Section Sorting.
Variable A : Type.
Variable key : A -> Q.

Lemma insert_desc_perm (x : A) (l : list A) :
  Permutation (x :: l) (insert_desc key x l).
Proof.
  induction l as [|y l IH]; cbn [insert_desc]; [reflexivity|].
  destruct (Qle_bool (key x) (key y)); [|reflexivity].
  rewrite perm_swap. apply perm_skip. exact IH.
Qed.

Lemma insert_desc_forall (P : A -> Prop) (x : A) (l : list A) :
  P x -> Forall P l -> Forall P (insert_desc key x l).
Proof.
  intros Hx Hl. induction Hl as [|y l Hy Hl IH]; cbn [insert_desc].
  - constructor; [exact Hx | constructor].
  - destruct (Qle_bool (key x) (key y)).
    + constructor; assumption.
    + constructor; [exact Hx|]. constructor; assumption.
Qed.

Lemma insert_desc_sorted (x : A) (l : list A) :
  Documented.descending key l ->
  Documented.descending key (insert_desc key x l).
Proof.
  unfold Documented.descending.
  induction 1 as [|y l Hl IH Hy]; cbn [insert_desc].
  - constructor; constructor.
  - destruct (Qle_bool (key x) (key y)) eqn:E.
    + apply Qle_bool_iff in E. constructor; [exact IH|].
      apply insert_desc_forall; assumption.
    + assert (Hlt : key y < key x).
      { apply Qnot_le_lt. intros Hle. apply Qle_bool_iff in Hle.
        congruence. }
      constructor; [constructor; assumption|].
      constructor; [apply Qlt_le_weak; exact Hlt|].
      apply Forall_impl with (P := fun b => key b <= key y); [|exact Hy].
      intros b Hb. apply Qle_trans with (key y); [exact Hb|].
      apply Qlt_le_weak. exact Hlt.
Qed.

Lemma sorted_from (l acc : list A) :
  Documented.descending key acc ->
  Permutation (acc ++ l) (fold_left (fun a x => insert_desc key x a) l acc)
  /\ Documented.descending
       key (fold_left (fun a x => insert_desc key x a) l acc).
Proof.
  revert acc. induction l as [|x l IH]; intros acc Hacc; cbn [fold_left].
  - rewrite app_nil_r. split; [reflexivity | exact Hacc].
  - destruct (IH (insert_desc key x acc) (insert_desc_sorted x acc Hacc))
      as [Hp Hs].
    split; [|exact Hs].
    rewrite <- Hp, <- insert_desc_perm.
    rewrite <- Permutation_middle. reflexivity.
Qed.

(** [sorted(..., reverse=True)] rearranges its input into descending
    order of the key. *)
Lemma sorted_desc_spec (l : list A) :
  Permutation l (sorted_desc key l)
  /\ Documented.descending key (sorted_desc key l).
Proof.
  apply (sorted_from l []). constructor.
Qed.

Lemma sorted_desc_three (a b c : A) :
  key b <= key a -> key c <= key a -> key b < key c ->
  sorted_desc key [a; b; c] = [a; c; b].
Proof.
  intros Hba Hca Hbc. unfold sorted_desc. cbn [fold_left insert_desc].
  apply Qle_bool_iff in Hba. rewrite Hba. cbn [insert_desc].
  apply Qle_bool_iff in Hca. rewrite Hca.
  destruct (Qle_bool (key c) (key b)) eqn:E; [|reflexivity].
  apply Qle_bool_iff in E. exfalso. apply (Qlt_not_le _ _ Hbc E).
Qed.

End Sorting.

Lemma length_map_eq (A : Type) (f : A -> Q) (l : list A) :
  of_nat (length l) = of_nat (length (map f l)).
Proof. rewrite length_map. reflexivity. Qed.

Section Corpus.
Context `{Host}.

Lemma docana_overall_ok (valid : list Docana.document) :
  valid <> [] ->
  exists o,
    Docana.overall_stats valid = Ok o
    /\ Docana.avg_density o
       = sumQ (map Docana.average_density valid) / of_nat (length valid)
    /\ Docana.all_sentences o = sum (map Docana.total_sentences valid)
    /\ Docana.all_chars o = sum (map Docana.doc_total_chars valid)
    /\ Docana.sorted_results o = sorted_desc Docana.average_density valid
    /\ Docana.listed o
       = firstn 10 (sorted_desc Docana.average_density valid).
Proof.
  intros Hne. unfold Docana.overall_stats.
  rewrite truediv_pos by (destruct valid; [congruence | cbn; lia]).
  cbn [bind].
  destruct (Nat.ltb_spec 0 (sum (map Docana.total_sentences valid)))
    as [Hpos|_].
  - rewrite truediv_pos by exact Hpos. cbn [bind].
    eexists. split; [reflexivity|]. repeat split.
  - cbn [bind]. eexists. split; [reflexivity|]. repeat split.
Qed.

(** C4. Over the documents analyzed without error, the corpus mean
    density is the plain mean of the document means, and the ranking is
    these documents in descending order of their mean density; the
    report lists its first ten (fifteen for markdown). Documents with
    means 0.20, 0.05 and 0.12 are ranked 0.20, 0.12, 0.05. *)
Theorem corpus_mean_and_ranking :
  (forall results failed_files,
      Docana.valid_results results <> [] ->
      exists s o,
        Docana.generate_summary_report results failed_files = Ok s
        /\ Docana.stats_section s = Some o
        /\ Docana.avg_density o
           == Documented.mean
                (map Docana.average_density (Docana.valid_results results))
        /\ Permutation (Docana.valid_results results)
                       (Docana.sorted_results o)
        /\ Documented.descending Docana.average_density
                                 (Docana.sorted_results o)
        /\ Docana.listed o = firstn 10 (Docana.sorted_results o))
  /\ (forall results,
         Mdana.valid_results results <> [] ->
         exists g,
           Mdana.calculate_global_stats results = Ok (Some g)
           /\ Mdana.g_average_density g
              == Documented.mean
                   (map Mdana.average_density (Mdana.valid_results results))
           /\ Permutation (Mdana.valid_results results)
                          (Mdana.ranking results)
           /\ Documented.descending Mdana.average_density
                                    (Mdana.ranking results)
           /\ Mdana.listed results = firstn 15 (Mdana.ranking results))
  /\ (forall d1 d2 d3 : Docana.document,
         Docana.average_density d1 == 0.20 ->
         Docana.average_density d2 == 0.05 ->
         Docana.average_density d3 == 0.12 ->
         sorted_desc Docana.average_density [d1; d2; d3] = [d1; d3; d2])
  /\ (forall d1 d2 d3 : Mdana.document,
         Mdana.average_density d1 == 0.20 ->
         Mdana.average_density d2 == 0.05 ->
         Mdana.average_density d3 == 0.12 ->
         sorted_desc Mdana.average_density [d1; d2; d3] = [d1; d3; d2]).
Proof.
  split; [|split; [|split]].
  - intros results failed_files Hne.
    destruct (docana_overall_ok _ Hne) as [o (Eo & Havg & _ & _ & Hs & Hl)].
    unfold Docana.generate_summary_report.
    destruct (Docana.valid_results results) as [|d valid] eqn:Ev;
      [congruence|].
    rewrite Eo. cbn [bind]. eexists. exists o.
    split; [reflexivity|]. split; [reflexivity|].
    split; [rewrite Havg,
      (length_map_eq _ Docana.average_density (d :: valid));
      apply sumQ_mean|].
    rewrite Hs.
    split; [apply sorted_desc_spec|]. split; [apply sorted_desc_spec|].
    rewrite Hl. reflexivity.
  - intros results Hne. unfold Mdana.calculate_global_stats.
    destruct (Mdana.valid_results results) as [|d valid] eqn:Ev;
      [congruence|].
    cbv zeta. rewrite !truediv_pos by (cbn [length]; lia). cbn [bind].
    destruct (Nat.ltb_spec 0 (sum (map Mdana.total_sentences (d :: valid))))
      as [Hpos|_].
    + rewrite truediv_pos by exact Hpos. cbn [bind].
      eexists. split; [reflexivity|].
      cbn [Mdana.g_average_density].
      split; [rewrite (length_map_eq _ Mdana.average_density (d :: valid));
              apply sumQ_mean|].
      unfold Mdana.listed, Mdana.ranking. rewrite Ev.
      split; [apply sorted_desc_spec|]. split; [apply sorted_desc_spec|].
      reflexivity.
    + cbn [bind]. eexists. split; [reflexivity|].
      cbn [Mdana.g_average_density].
      split; [rewrite (length_map_eq _ Mdana.average_density (d :: valid));
              apply sumQ_mean|].
      unfold Mdana.listed, Mdana.ranking. rewrite Ev.
      split; [apply sorted_desc_spec|]. split; [apply sorted_desc_spec|].
      reflexivity.
  - intros d1 d2 d3 H1 H2 H3. apply sorted_desc_three;
      rewrite ?H1, ?H2, ?H3; lra.
  - intros d1 d2 d3 H1 H2 H3. apply sorted_desc_three;
      rewrite ?H1, ?H2, ?H3; lra.
Qed.

End Corpus.

(** Three documents with means 0.20, 0.05 and 0.12. *)
Lemma corpus_mean_and_ranking_witness :
  exists s o g,
    Docana.generate_summary_report
      [Docana.Analyzed (Demo.plain_document Demo.FILE_A 0.20);
       Docana.Analyzed (Demo.plain_document Demo.FILE_B 0.05);
       Docana.Analyzed (Demo.plain_document Demo.FILE_C 0.12)] []
    = Ok s
    /\ Docana.stats_section s = Some o
    /\ Docana.avg_density o == (0.20 + 0.05 + 0.12) / 3
    /\ map Docana.average_density (Docana.sorted_results o)
       = [0.20; 0.12; 0.05]
    /\ Mdana.calculate_global_stats (H := Demo.host)
         [Mdana.mk_file_result
            (Mdana.Analyzed (Demo.markdown_document Demo.FILE_A 0.20))
            None Demo.FILE_A;
          Mdana.mk_file_result
            (Mdana.Analyzed (Demo.markdown_document Demo.FILE_B 0.05))
            None Demo.FILE_B;
          Mdana.mk_file_result
            (Mdana.Analyzed (Demo.markdown_document Demo.FILE_C 0.12))
            None Demo.FILE_C]
       = Ok (Some g)
    /\ Mdana.g_average_density g == (0.20 + 0.05 + 0.12) / 3
    /\ sorted_desc Mdana.average_density
         [Demo.markdown_document Demo.FILE_A 0.20;
          Demo.markdown_document Demo.FILE_B 0.05;
          Demo.markdown_document Demo.FILE_C 0.12]
       = [Demo.markdown_document Demo.FILE_A 0.20;
          Demo.markdown_document Demo.FILE_C 0.12;
          Demo.markdown_document Demo.FILE_B 0.05].
Proof.
  destruct (@corpus_mean_and_ranking Demo.host) as (Hdoc & Hmd & Hex & Hex').
  destruct (Hdoc
              [Docana.Analyzed (Demo.plain_document Demo.FILE_A 0.20);
               Docana.Analyzed (Demo.plain_document Demo.FILE_B 0.05);
               Docana.Analyzed (Demo.plain_document Demo.FILE_C 0.12)] [])
    as [s [o (Es & Eo & Havg & _ & _ & _)]]; [discriminate|].
  destruct (Hmd
              [Mdana.mk_file_result
                 (Mdana.Analyzed (Demo.markdown_document Demo.FILE_A 0.20))
                 None Demo.FILE_A;
               Mdana.mk_file_result
                 (Mdana.Analyzed (Demo.markdown_document Demo.FILE_B 0.05))
                 None Demo.FILE_B;
               Mdana.mk_file_result
                 (Mdana.Analyzed (Demo.markdown_document Demo.FILE_C 0.12))
                 None Demo.FILE_C])
    as [g (Eg & Hgavg & _)]; [discriminate|].
  exists s, o, g.
  split; [exact Es|]. split; [exact Eo|].
  split; [rewrite Havg; vm_compute; reflexivity|].
  split.
  - pose proof Es as Es'. vm_compute in Es'. injection Es' as <-.
    cbn in Eo. injection Eo as <-. reflexivity.
  - split; [exact Eg|].
    split; [rewrite Hgavg; vm_compute; reflexivity|].
    apply Hex'; reflexivity.
Defined.

(** ** Batches *)

Section Batches.
Context `{Host}.
Variable get_sentence_context : pystr -> pystr -> Mdana.context.
Variable clean_markdown_text : pystr -> pystr.
Variable markdown_stats_of : pystr -> Mdana.markdown_stats.

(** The PDF extractor reports an error when the libraries are missing or
    when both readers raise, and its message is never empty. *)
Lemma pdf_fails_spec (folder_path filename : pystr) :
  Documented.pdf_fails folder_path filename
  = negb pdf_available
    || match pages_raised
               (pdfplumber_pages (path_join folder_path filename)),
             pages_raised (pypdf2_pages (path_join folder_path filename))
       with
       | Some _, Some _ => true
       | _, _ => false
       end.
Proof.
  unfold Documented.pdf_fails, Docana.extract_text_from_pdf.
  destruct pdf_available; cbn [negb orb]; [|reflexivity].
  destruct (pages_raised (pdfplumber_pages (path_join folder_path filename)));
    [|reflexivity].
  destruct (pages_raised (pypdf2_pages (path_join folder_path filename)));
    reflexivity.
Qed.

(** The markdown reader reports the message of the exception; the test
    [if error:] takes an empty message for no error. *)
Lemma markdown_fails_spec (path : pystr) :
  Documented.markdown_fails path
  = match read_text path with
    | inl _ => false
    | inr message => truthy message
    end.
Proof.
  unfold Documented.markdown_fails, Mdana.parse_markdown_file.
  destruct (read_text path) as [content|message]; [|reflexivity].
  destruct (startswith content Mdana.FENCE); [|reflexivity].
  destruct (Mdana.split_fence (skipn 3 content)) as [[header rest]|];
    [|reflexivity].
  destruct (yaml_safe_load header); reflexivity.
Qed.

Lemma docana_folder_loop_spec (folder_path : pystr) (files : list pystr)
      (acc : list Docana.doc_result * list Docana.failure) :
  exists rs,
    Docana.folder_loop folder_path acc files
    = Ok (fst acc ++ rs,
          snd acc
          ++ map (fun f =>
                    Docana.mk_failure
                      f (Documented.reason
                           (snd (Docana.extract_text_from_pdf
                                   (path_join folder_path f)))))
                 (filter (Documented.pdf_fails folder_path) files))
    /\ Forall2
         (fun f r =>
            Docana.analyze_text
              (Docana.clean_text
                 (fst (Docana.extract_text_from_pdf
                         (path_join folder_path f)))) f = Ok r)
         (filter (fun f => negb (Documented.pdf_fails folder_path f)) files)
         rs.
Proof.
  revert acc. induction files as [|f files IH]; intros [results failed].
  - exists []. cbn. rewrite !app_nil_r. split; [reflexivity | constructor].
  - cbn [Docana.folder_loop filter]. unfold Docana.folder_step.
    assert (Hf : Documented.pdf_fails folder_path f
                 = truthy_opt (snd (Docana.extract_text_from_pdf
                                      (path_join folder_path f))))
      by reflexivity.
    destruct (Docana.extract_text_from_pdf (path_join folder_path f))
      as [text error] eqn:Ex.
    cbn [snd] in Hf. rewrite !Hf.
    cbn [snd fst]. destruct (truthy_opt error) eqn:Et; cbn [bind negb].
    + destruct (IH (results,
                    failed ++ [Docana.mk_failure f (Documented.reason error)]))
        as [rs [E F]].
      exists rs. split; [|exact F].
      unfold Documented.reason in *. rewrite E. cbn [fst snd map].
      rewrite Ex. cbn [snd]. rewrite <- app_assoc. reflexivity.
    + destruct (docana_analyze_text_ok (Docana.clean_text text) f)
        as [srs [_ Ea]].
      rewrite Ea. cbn [bind].
      match goal with
      | |- context [Docana.folder_loop _ (results ++ [?r], failed) _] =>
          destruct (IH (results ++ [r], failed)) as [rs [E F]];
          exists (r :: rs)
      end.
      split.
      * rewrite E. cbn [fst snd]. rewrite <- app_assoc. reflexivity.
      * constructor; [|exact F]. rewrite Ex. cbn [fst]. exact Ea.
Qed.

Lemma mdana_folder_loop_spec (folder_path : pystr) (files : list pystr)
      (acc : list Mdana.file_result * list Mdana.failure) :
  exists rs,
    Mdana.folder_loop get_sentence_context clean_markdown_text
                      markdown_stats_of folder_path acc files
    = Ok (fst acc ++ rs,
          snd acc
          ++ map (fun p =>
                    Mdana.mk_failure
                      (path_relpath p folder_path)
                      (Documented.reason
                         (snd (Mdana.parse_markdown_file p))))
                 (filter Documented.markdown_fails files))
    /\ Forall2
         (fun p r =>
            Mdana.analyze_markdown_content
              get_sentence_context clean_markdown_text markdown_stats_of
              (fst (fst (Mdana.parse_markdown_file p)))
              (path_relpath p folder_path)
            = Ok (Mdana.analysis r)
            /\ Mdana.front_matter r
               = snd (fst (Mdana.parse_markdown_file p))
            /\ Mdana.file_path r = p)
         (filter (fun p => negb (Documented.markdown_fails p)) files) rs.
Proof.
  revert acc. induction files as [|p files IH]; intros [results failed].
  - exists []. cbn. rewrite !app_nil_r. split; [reflexivity | constructor].
  - cbn [Mdana.folder_loop filter]. unfold Mdana.folder_step.
    assert (Hf : Documented.markdown_fails p
                 = truthy_opt (snd (Mdana.parse_markdown_file p)))
      by reflexivity.
    destruct (Mdana.parse_markdown_file p) as [[content fm] error] eqn:Ex.
    cbn [snd] in Hf. rewrite !Hf.
    cbn [snd fst]. destruct (truthy_opt error) eqn:Et; cbn [bind negb].
    + destruct (IH (results,
                    failed ++ [Mdana.mk_failure
                                 (path_relpath p folder_path)
                                 (Documented.reason error)]))
        as [rs [E F]].
      exists rs. split; [|exact F].
      unfold Documented.reason in *. rewrite E. cbn [fst snd map].
      rewrite Ex. cbn [snd]. rewrite <- app_assoc. reflexivity.
    + destruct (mdana_analyze_content_total
                  get_sentence_context clean_markdown_text markdown_stats_of
                  content (path_relpath p folder_path))
        as [res Ea].
      rewrite Ea. cbn [bind].
      destruct (IH (results ++ [Mdana.mk_file_result res fm p], failed))
        as [rs [E F]].
      exists (Mdana.mk_file_result res fm p :: rs).
      split.
      * rewrite E. cbn [fst snd]. rewrite <- app_assoc. reflexivity.
      * constructor; [|exact F]. rewrite Ex. cbn [fst snd].
        repeat split. exact Ea.
Qed.

End Batches.

Lemma reason_of_failure (error : option pystr) :
  truthy_opt error = true -> Documented.reason error <> [].
Proof.
  destruct error as [[|c e]|]; cbn; congruence.
Qed.

Lemma docana_summary_ok (results : list Docana.doc_result)
      (failed_files : list Docana.failure) :
  exists s,
    Docana.generate_summary_report results failed_files = Ok s
    /\ Docana.total_files s = (length results + length failed_files)%nat
    /\ Docana.successful s = length (Docana.valid_results results)
    /\ Docana.failed s = length failed_files
    /\ Docana.failed_section s = failed_files.
Proof.
  unfold Docana.generate_summary_report.
  destruct (Docana.valid_results results) as [|d valid] eqn:Ev.
  - cbn [bind]. eexists. split; [reflexivity|]. repeat split.
  - destruct (docana_overall_ok (d :: valid)) as [o [Eo _]]; [discriminate|].
    rewrite Eo. cbn [bind]. eexists. split; [reflexivity|]. repeat split.
Qed.

Lemma mdana_global_stats_ok `{Host} (results : list Mdana.file_result) :
  exists g, Mdana.calculate_global_stats results = Ok g.
Proof.
  unfold Mdana.calculate_global_stats.
  destruct (Mdana.valid_results results) as [|d valid];
    [eexists; reflexivity|].
  cbv zeta. rewrite !truediv_pos by (cbn [length]; lia). cbn [bind].
  destruct (Nat.ltb_spec 0 (sum (map Mdana.total_sentences (d :: valid))))
    as [Hpos|_].
  - rewrite truediv_pos by exact Hpos. eexists. reflexivity.
  - eexists. reflexivity.
Qed.

Section FailureIsolation.
Context `{Host}.
Variable get_sentence_context : pystr -> pystr -> Mdana.context.
Variable clean_markdown_text : pystr -> pystr.
Variable markdown_stats_of : pystr -> Mdana.markdown_stats.

(** C5. A batch never stops at a document that cannot be read: the
    files whose extraction reports an error are recorded, in order, with
    their name and the reason, and every other file is analyzed, in
    order. Of three files of which the second fails, two records and one
    failure come out, and the summary is computed from the two records.
    For a PDF file the extraction fails when the libraries are missing or
    both readers raise; for a markdown file when reading it raises, the
    message of the exception being what [if error:] tests. *)
Theorem failure_isolation :
  (forall folder_path files,
      exists rs,
        Docana.analyze_pdf_folder folder_path files
        = Ok (rs,
              map (fun f =>
                     Docana.mk_failure
                       f (Documented.reason
                            (snd (Docana.extract_text_from_pdf
                                    (path_join folder_path f)))))
                  (filter (Documented.pdf_fails folder_path) files))
        /\ Forall2
             (fun f r =>
                Docana.analyze_text
                  (Docana.clean_text
                     (fst (Docana.extract_text_from_pdf
                             (path_join folder_path f)))) f = Ok r)
             (filter (fun f => negb (Documented.pdf_fails folder_path f))
                     files) rs)
  /\ (forall folder_path f1 f2 f3,
         Documented.pdf_fails folder_path f1 = false ->
         Documented.pdf_fails folder_path f2 = true ->
         Documented.pdf_fails folder_path f3 = false ->
         exists r1 r3 e s,
           Docana.analyze_pdf_folder folder_path [f1; f2; f3]
           = Ok ([r1; r3], [Docana.mk_failure f2 e])
           /\ e <> []
           /\ Docana.generate_summary_report
                [r1; r3] [Docana.mk_failure f2 e] = Ok s
           /\ Docana.total_files s = 3%nat
           /\ Docana.failed s = 1%nat
           /\ Docana.successful s = length (Docana.valid_results [r1; r3]))
  /\ (forall folder_path files,
         exists rs,
           Mdana.analyze_markdown_folder
             get_sentence_context clean_markdown_text markdown_stats_of
             folder_path files
           = Ok (rs,
                 map (fun p =>
                        Mdana.mk_failure
                          (path_relpath p folder_path)
                          (Documented.reason
                             (snd (Mdana.parse_markdown_file p))))
                     (filter Documented.markdown_fails files))
           /\ Forall2
                (fun p r =>
                   Mdana.analyze_markdown_content
                     get_sentence_context clean_markdown_text
                     markdown_stats_of
                     (fst (fst (Mdana.parse_markdown_file p)))
                     (path_relpath p folder_path)
                   = Ok (Mdana.analysis r)
                   /\ Mdana.front_matter r
                      = snd (fst (Mdana.parse_markdown_file p))
                   /\ Mdana.file_path r = p)
                (filter (fun p => negb (Documented.markdown_fails p)) files)
                rs)
  /\ (forall folder_path p1 p2 p3,
         Documented.markdown_fails p1 = false ->
         Documented.markdown_fails p2 = true ->
         Documented.markdown_fails p3 = false ->
         exists r1 r3 e,
           Mdana.analyze_markdown_folder
             get_sentence_context clean_markdown_text markdown_stats_of
             folder_path [p1; p2; p3]
           = Ok ([r1; r3],
                 [Mdana.mk_failure (path_relpath p2 folder_path) e])
           /\ e <> []
           /\ Mdana.file_path r1 = p1 /\ Mdana.file_path r3 = p3
           /\ exists g, Mdana.calculate_global_stats [r1; r3] = Ok g)
  /\ (forall folder_path filename,
         Documented.pdf_fails folder_path filename
         = negb pdf_available
           || match pages_raised
                      (pdfplumber_pages (path_join folder_path filename)),
                    pages_raised
                      (pypdf2_pages (path_join folder_path filename))
              with
              | Some _, Some _ => true
              | _, _ => false
              end)
  /\ (forall path,
         Documented.markdown_fails path
         = match read_text path with
           | inl _ => false
           | inr message => truthy message
           end).
Proof.
  split; [|split; [|split; [|split; [|split]]]];
    [| | | |exact pdf_fails_spec|exact markdown_fails_spec].
  - intros folder_path files.
    destruct (docana_folder_loop_spec folder_path files ([], []))
      as [rs [E F]].
    exists rs. split; [exact E | exact F].
  - intros folder_path f1 f2 f3 H1 H2 H3.
    destruct (docana_folder_loop_spec folder_path [f1; f2; f3] ([], []))
      as [rs [E F]].
    cbn [filter fst snd app] in E, F. rewrite H1, H2, H3 in E, F.
    cbn [negb map] in E, F.
    inversion F as [|? r1 ? rs1 _ F1]; subst.
    inversion F1 as [|? r3 ? rs3 _ F3]; subst. inversion F3; subst.
    destruct (docana_summary_ok
                [r1; r3]
                [Docana.mk_failure
                   f2 (Documented.reason
                         (snd (Docana.extract_text_from_pdf
                                 (path_join folder_path f2))))])
      as [s (Es & Ht & Hs & Hf & _)].
    exists r1, r3. eexists. exists s.
    split; [exact E|]. split; [apply reason_of_failure; exact H2|].
    split; [exact Es|]. repeat split; assumption.
  - intros folder_path files.
    destruct (mdana_folder_loop_spec
                get_sentence_context clean_markdown_text markdown_stats_of
                folder_path files ([], [])) as [rs [E F]].
    exists rs. split; [exact E | exact F].
  - intros folder_path p1 p2 p3 H1 H2 H3.
    destruct (mdana_folder_loop_spec
                get_sentence_context clean_markdown_text markdown_stats_of
                folder_path [p1; p2; p3] ([], [])) as [rs [E F]].
    cbn [filter fst snd app] in E, F. rewrite H1, H2, H3 in E, F.
    cbn [negb map] in E, F.
    inversion F as [|? r1 ? rs1 (_ & _ & P1) F1]; subst.
    inversion F1 as [|? r3 ? rs3 (_ & _ & P3) F3]; subst. inversion F3; subst.
    exists r1, r3. eexists.
    split; [exact E|]. split; [apply reason_of_failure; exact H2|].
    split; [reflexivity|]. split; [reflexivity|].
    apply mdana_global_stats_ok.
Qed.

End FailureIsolation.

(** The folder of the demo host: [a] and [c] can be read, [b] cannot. *)
Lemma failure_isolation_witness :
  exists r1 r3 e s m1 m3 e',
    Docana.analyze_pdf_folder (H := Demo.host) Demo.FOLDER
      [Demo.FILE_A; Demo.FILE_B; Demo.FILE_C]
    = Ok ([r1; r3], [Docana.mk_failure Demo.FILE_B e])
    /\ e <> []
    /\ Docana.generate_summary_report [r1; r3]
         [Docana.mk_failure Demo.FILE_B e] = Ok s
    /\ Docana.total_files s = 3%nat
    /\ Docana.failed s = 1%nat
    /\ Docana.successful s = 2%nat
    /\ Mdana.analyze_markdown_folder (H := Demo.host)
         Demo.no_context (fun t => t) Demo.no_markdown Demo.FOLDER
         [Demo.FOLDER ++ Demo.SLASH :: Demo.FILE_A;
          Demo.FOLDER ++ Demo.SLASH :: Demo.FILE_B;
          Demo.FOLDER ++ Demo.SLASH :: Demo.FILE_C]
       = Ok ([m1; m3], [Mdana.mk_failure Demo.FILE_B e'])
    /\ e' <> [].
Proof.
  destruct (@failure_isolation
              Demo.host Demo.no_context (fun t => t) Demo.no_markdown)
    as (_ & Hdoc & _ & Hmd & _).
  destruct (Hdoc Demo.FOLDER Demo.FILE_A Demo.FILE_B Demo.FILE_C
                 eq_refl eq_refl eq_refl)
    as [r1 [r3 [e [s (E & He & Es & Ht & Hf & Hs)]]]].
  destruct (Hmd Demo.FOLDER
                (Demo.FOLDER ++ Demo.SLASH :: Demo.FILE_A)
                (Demo.FOLDER ++ Demo.SLASH :: Demo.FILE_B)
                (Demo.FOLDER ++ Demo.SLASH :: Demo.FILE_C)
                eq_refl eq_refl eq_refl)
    as [m1 [m3 [e' (E' & He' & _)]]].
  exists r1, r3, e, s, m1, m3, e'.
  split; [exact E|]. split; [exact He|]. split; [exact Es|].
  split; [exact Ht|]. split; [exact Hf|].
  split; [|split; [exact E' | exact He']].
  rewrite Hs. vm_compute in E. injection E as <- <- _. reflexivity.
Defined.

(** * Further properties of the code *)

(** ** Splitting into sentences *)

Lemma lstrip_incl (s : pystr) (c : char) : In c (lstrip s) -> In c s.
Proof.
  induction s as [|d s IH]; cbn [lstrip]; [tauto|].
  destruct (isspace d); [|tauto]. intros Hc. right. exact (IH Hc).
Qed.

Lemma strip_incl (s : pystr) (c : char) : In c (strip s) -> In c s.
Proof.
  unfold strip, rstrip. intros Hc.
  apply lstrip_incl. apply (proj2 (in_rev _ _)).
  apply lstrip_incl. apply (proj2 (in_rev _ _)). exact Hc.
Qed.

Lemma split_loop_spec (s cur : pystr) (in_run : bool) :
  (in_run = true -> cur = []) ->
  (forall c, In c cur -> is_terminator c = false) ->
  concat (split_loop cur in_run s)
  = rev cur ++ filter (fun c => negb (is_terminator c)) s
  /\ Forall (fun piece => forall c, In c piece -> is_terminator c = false)
            (split_loop cur in_run s).
Proof.
  revert cur in_run.
  induction s as [|c s IH]; intros cur in_run Hrun Hcur;
    cbn [split_loop filter].
  - cbn [concat]. rewrite !app_nil_r. split; [reflexivity|].
    constructor; [|constructor]. intros c Hc. apply Hcur.
    apply in_rev. exact Hc.
  - destruct (is_terminator c) eqn:Ec; cbn [negb].
    + destruct (IH [] true (fun _ => eq_refl) (fun c' (H : In c' []) =>
                                                 match H with end))
        as [Hcat Hall].
      destruct in_run.
      * rewrite (Hrun eq_refl). split; [exact Hcat | exact Hall].
      * cbn [concat]. rewrite Hcat. split; [reflexivity|].
        constructor; [|exact Hall]. intros c' Hc'. apply Hcur.
        apply in_rev. exact Hc'.
    + destruct (IH (c :: cur) false) as [Hcat Hall].
      * discriminate.
      * intros c' [<- | Hc']; [exact Ec | exact (Hcur c' Hc')].
      * rewrite Hcat. cbn [rev]. rewrite <- app_assoc.
        split; [reflexivity | exact Hall].
Qed.

(** X1. The pieces of [re.split] put together are the text without its
    terminators, so no piece and no candidate sentence of either
    analyzer holds a terminator: the marks are dropped, not kept. *)
Theorem split_drops_the_marks :
  (forall text,
      concat (split_sentences text)
      = filter (fun c => negb (is_terminator c)) text)
  /\ (forall text piece c,
         In piece (split_sentences text) -> In c piece ->
         is_terminator c = false)
  /\ (forall text sentence c,
         In sentence (Docana.candidates text) -> In c sentence ->
         is_terminator c = false)
  /\ (forall text sentence c,
         In sentence (Mdana.candidates text) -> In c sentence ->
         is_terminator c = false).
Proof.
  assert (Hspec : forall text,
             concat (split_sentences text)
             = filter (fun c => negb (is_terminator c)) text
             /\ Forall (fun piece =>
                          forall c, In c piece -> is_terminator c = false)
                       (split_sentences text)).
  { intros text. apply (split_loop_spec text [] false); [discriminate|].
    intros c []. }
  assert (Hpiece : forall text piece c,
             In piece (split_sentences text) -> In c piece ->
             is_terminator c = false).
  { intros text piece c Hp Hc. destruct (Hspec text) as [_ Hall].
    rewrite Forall_forall in Hall. exact (Hall piece Hp c Hc). }
  split; [intros text; apply Hspec|]. split; [exact Hpiece|].
  split.
  - intros text sentence c Hs Hc. unfold Docana.candidates in Hs.
    apply in_map_iff in Hs. destruct Hs as [piece [<- Hp]].
    apply filter_In in Hp. destruct Hp as [Hp _].
    exact (Hpiece text piece c Hp (strip_incl _ _ Hc)).
  - intros text sentence c Hs Hc. unfold Mdana.candidates in Hs.
    apply in_map_iff in Hs. destruct Hs as [piece [<- Hp]].
    apply filter_In in Hp. destruct Hp as [Hp _].
    exact (Hpiece text piece c Hp (strip_incl _ _ Hc)).
Qed.

(** "abcdef。ghijkl" *)
Lemma split_drops_the_marks_witness :
  In [97; 98; 99; 100; 101; 102]%N
     (Docana.candidates
        [97; 98; 99; 100; 101; 102; 12290; 103; 104; 105; 106; 107; 108]%N)
  /\ In 97%N [97; 98; 99; 100; 101; 102]%N
  /\ is_terminator 97%N = false.
Proof.
  destruct split_drops_the_marks as (_ & _ & Hdoc & _).
  assert (Hs : In [97; 98; 99; 100; 101; 102]%N
                  (Docana.candidates
                     [97; 98; 99; 100; 101; 102; 12290;
                      103; 104; 105; 106; 107; 108]%N))
    by (left; reflexivity).
  assert (Hc : In 97%N [97; 98; 99; 100; 101; 102]%N) by (left; reflexivity).
  split; [exact Hs|]. split; [exact Hc|].
  exact (Hdoc _ _ _ Hs Hc).
Defined.

(** ** Counting numbers *)

Lemma numbers_loop_none (isdecimal : char -> bool) (s : pystr)
      (st : num_state) :
  existsb isdecimal s = false -> numbers_loop isdecimal st s = 0%nat.
Proof.
  revert st. induction s as [|c s IH]; intros st; [reflexivity|].
  cbn [existsb numbers_loop]. intros Hs.
  apply orb_false_iff in Hs. destruct Hs as [Hc Hs]. rewrite Hc.
  destruct st; try apply IH; try exact Hs.
  destruct (N.eqb c 46); apply IH; exact Hs.
Qed.

Lemma numbers_loop_bound (isdecimal : char -> bool) (s : pystr)
      (st : num_state) :
  (numbers_loop isdecimal st s <= length (filter isdecimal s))%nat.
Proof.
  revert st. induction s as [|c s IH]; intros st; [reflexivity|].
  cbn [numbers_loop filter].
  destruct st; destruct (isdecimal c); cbn [length];
    try destruct (N.eqb c 46);
    match goal with
    | |- context [numbers_loop isdecimal ?st' s] =>
        pose proof (IH st'); lia
    end.
Qed.

(** X2. [numbers] is 0 exactly when the sentence has no decimal digit,
    and it never exceeds the number of digits. *)
Theorem numbers_zero_iff_no_digit (isdecimal : char -> bool) (s : pystr) :
  (count_numbers isdecimal s = 0%nat <-> existsb isdecimal s = false)
  /\ (count_numbers isdecimal s <= length (filter isdecimal s))%nat.
Proof.
  split; [|apply numbers_loop_bound].
  split; [|apply numbers_loop_none].
  unfold count_numbers. induction s as [|c s IH]; [reflexivity|].
  cbn [numbers_loop existsb]. destruct (isdecimal c); [discriminate|].
  exact IH.
Qed.

(** ** Cleaning the text of a PDF *)

Lemma sub_runs_in (in_class : char -> bool) (s : pystr) (in_run : bool)
      (c : char) :
  In c (sub_runs in_class in_run s) ->
  c = SPACE \/ (In c s /\ in_class c = false).
Proof.
  revert in_run. induction s as [|d s IH]; intros in_run; cbn [sub_runs];
    [intros []|].
  destruct (in_class d) eqn:Ed.
  - destruct in_run.
    + intros Hc. destruct (IH _ Hc) as [-> | [Hs Hk]]; [auto|].
      right. split; [right; exact Hs | exact Hk].
    + intros [<- | Hc]; [auto|].
      destruct (IH _ Hc) as [-> | [Hs Hk]]; [auto|].
      right. split; [right; exact Hs | exact Hk].
  - intros [<- | Hc]; [right; split; [left; reflexivity | exact Ed]|].
    destruct (IH _ Hc) as [-> | [Hs Hk]]; [auto|].
    right. split; [right; exact Hs | exact Hk].
Qed.

Section Cleaning.
Context `{Host}.

Lemma space_is_kept : Docana.kept_char SPACE = true.
Proof.
  unfold Docana.kept_char. rewrite space_isspace.
  rewrite orb_true_r. reflexivity.
Qed.

(** In a cleaned text a character is the space or no white space. *)
Lemma clean_text_shape_only_space (text : option pystr) (c : char) :
  In c (Docana.clean_text text) -> c = SPACE \/ isspace c = false.
Proof.
  destruct text as [text|]; [|intros []].
  unfold Docana.clean_text.
  destruct (truthy text); cbn [negb]; [|intros []].
  intros Hc. apply strip_incl in Hc.
  destruct (sub_runs_in _ _ _ _ Hc) as [-> | [Hc1 _]]; [auto|].
  destruct (sub_runs_in _ _ _ _ Hc1) as [-> | [_ Hns]]; auto.
Qed.

(** X3. The cleaned text of a PDF holds only characters of the kept
    class, its only white space is the ASCII space, and it neither
    starts nor ends with white space. *)
Theorem clean_text_shape (text : option pystr) :
  (forall c, In c (Docana.clean_text text) -> Docana.kept_char c = true)
  /\ (forall c, In c (Docana.clean_text text) ->
                isspace c = true -> c = SPACE)
  /\ strip (Docana.clean_text text) = Docana.clean_text text.
Proof.
  destruct text as [text|]; [|repeat split; intros c []].
  unfold Docana.clean_text.
  destruct (truthy text); cbn [negb]; [|repeat split; intros c []].
  split; [|split; [|apply strip_idem]].
  - intros c Hc. apply strip_incl in Hc.
    destruct (sub_runs_in _ _ _ _ Hc) as [-> | [_ Hk]];
      [apply space_is_kept|].
    apply negb_false_iff. exact Hk.
  - intros c Hc Hsp. apply strip_incl in Hc.
    destruct (sub_runs_in _ _ _ _ Hc) as [-> | [Hc1 _]]; [reflexivity|].
    destruct (sub_runs_in _ _ _ _ Hc1) as [-> | [_ Hns]]; [reflexivity|].
    congruence.
Qed.

Lemma split_piece_incl (text piece : pystr) (c : char) :
  In piece (split_sentences text) -> In c piece -> In c text.
Proof.
  intros Hp Hc.
  assert (Hcat : In c (concat (split_sentences text))).
  { apply in_concat. exists piece. split; assumption. }
  destruct (split_loop_spec text [] false) as [E _];
    [discriminate | intros c' [] |].
  unfold split_sentences in Hcat. rewrite E in Hcat. cbn [rev app] in Hcat.
  apply filter_In in Hcat. tauto.
Qed.

(** X4. In the PDF pipeline the character count of a scored sentence is
    the number of its characters that are not white space: the cleaning
    leaves no white space but the space that [replace] removes. *)
Theorem pdf_total_chars_counts_non_space (text : option pystr)
        (sentence : pystr) (r : Docana.sentence_result) :
  In sentence (Docana.candidates (Docana.clean_text text)) ->
  Docana.analyze_sentence sentence = Ok (Some r) ->
  Docana.total_chars r
  = length (filter (fun c => negb (isspace c)) sentence).
Proof.
  intros Hs Hr.
  destruct (docana_scored sentence r Hr) as (_ & Ht & _). rewrite Ht.
  unfold remove_spaces. f_equal. apply filter_ext_in. intros c Hc.
  f_equal. unfold Docana.candidates in Hs.
  apply in_map_iff in Hs. destruct Hs as [piece [<- Hp]].
  apply filter_In in Hp. destruct Hp as [Hp _].
  apply strip_incl in Hc.
  pose proof (split_piece_incl _ _ _ Hp Hc) as Hin.
  destruct (clean_text_shape_only_space text c Hin) as [-> | Hns].
  - rewrite space_isspace. apply N.eqb_refl.
  - rewrite Hns. apply N.eqb_neq. intros ->.
    rewrite space_isspace in Hns. discriminate.
Qed.

End Cleaning.

(** "ab", two tabs, "cdef": the cleaning leaves "ab cdef". *)
Lemma pdf_total_chars_counts_non_space_witness :
  exists r,
    In [97; 98; 32; 99; 100; 101; 102]%N
       (Docana.candidates
          (Docana.clean_text (H := Demo.host)
             (Some [97; 98; 9; 9; 99; 100; 101; 102]%N)))
    /\ Docana.analyze_sentence (H := Demo.host)
         [97; 98; 32; 99; 100; 101; 102]%N = Ok (Some r)
    /\ Docana.total_chars r = 6%nat.
Proof.
  destruct (Docana.analyze_sentence (H := Demo.host)
              [97; 98; 32; 99; 100; 101; 102]%N) as [[r|]|] eqn:Hr;
    try (vm_compute in Hr; discriminate).
  exists r.
  assert (Hs : In [97; 98; 32; 99; 100; 101; 102]%N
                  (Docana.candidates
                     (Docana.clean_text (H := Demo.host)
                        (Some [97; 98; 9; 9; 99; 100; 101; 102]%N))))
    by (left; reflexivity).
  split; [exact Hs|]. split; [reflexivity|].
  rewrite (@pdf_total_chars_counts_non_space Demo.host _ _ _ Hs Hr).
  reflexivity.
Defined.

(** ** What a document analysis returns *)

Lemma forall2_length (A B : Type) (R : A -> B -> Prop)
      (l : list A) (l' : list B) :
  Forall2 R l l' -> length l = length l'.
Proof.
  induction 1; cbn [length]; congruence.
Qed.

Lemma Forall2_in_right (A B : Type) (R : A -> B -> Prop)
      (l : list A) (l' : list B) (b : B) :
  Forall2 R l l' -> In b l' -> exists a, In a l /\ R a b.
Proof.
  induction 1 as [|a b' l l' Hab _ IH]; [intros []|].
  intros [<- | Hb].
  - exists a. split; [left; reflexivity | exact Hab].
  - destruct (IH Hb) as [a' [Ha' Hr]]. exists a'.
    split; [right; exact Ha' | exact Hr].
Qed.

Lemma in_firstn (A : Type) (n : nat) (l : list A) (x : A) :
  In x (firstn n l) -> In x l.
Proof.
  intros Hx. rewrite <- (firstn_skipn n l). apply in_or_app. left. exact Hx.
Qed.

Lemma truncate_length (n : nat) (s : pystr) :
  (length (truncate n s) <= n + 3)%nat.
Proof.
  unfold truncate. destruct (Nat.ltb_spec n (length s)) as [Hlt|Hle].
  - rewrite length_app, length_firstn. cbn [length ELLIPSIS]. lia.
  - lia.
Qed.

Section Outcomes.
Context `{Host}.
Variable get_sentence_context : pystr -> pystr -> Mdana.context.
Variable clean_markdown_text : pystr -> pystr.
Variable markdown_stats_of : pystr -> Mdana.markdown_stats.

Lemma docana_sentence_field (s : pystr) (r : Docana.sentence_result) :
  Docana.analyze_sentence s = Ok (Some r) ->
  Docana.sentence r = truncate 100 s.
Proof.
  rewrite docana_analyze_sentence_eq.
  destruct (negb (truthy (strip s)) || (length (remove_spaces s) =? 0)%nat);
    [discriminate|].
  intros Hr. injection Hr as <-. reflexivity.
Qed.

Lemma mdana_sentence_field (s : pystr) (ctx : option Mdana.context)
      (r : Mdana.sentence_result) :
  Mdana.analyze_sentence s ctx = Ok (Some r) ->
  Mdana.sentence r = truncate 150 s.
Proof.
  unfold Mdana.analyze_sentence.
  destruct (truthy (strip s)); cbn [negb]; [|discriminate].
  destruct (Nat.eqb_spec (length (remove_spaces s)) 0) as [E|E];
    [discriminate|].
  destruct (mdana_bonus_eq ctx) as [b [Hb _]]. rewrite Hb. cbn [bind].
  destruct (mdana_score_ok (Mdana.extract_stats s (lcut s)) b)
    as [v [Hv _]].
  rewrite Hv. cbn [bind]. rewrite mdana_density_eq by lia. cbn [bind].
  intros Hr. injection Hr as <-. reflexivity.
Qed.

(** X5. A text is analyzed exactly when the filter leaves a candidate
    sentence, and then every candidate is scored: [total_sentences] is
    the number of candidates. An empty text and a text without candidate
    give their two error records; the third error record, for an
    analysis that scored nothing, is never returned. *)
Theorem analysis_outcomes :
  (forall text filename : pystr,
      (text = [] ->
       Docana.analyze_text text filename
       = Ok (Docana.error_result filename Docana.MSG_EMPTY_TEXT))
      /\ (text <> [] -> Docana.candidates text = [] ->
          Docana.analyze_text text filename
          = Ok (Docana.error_result filename Docana.MSG_NO_SENTENCES))
      /\ (Docana.candidates text <> [] ->
          exists d,
            Docana.analyze_text text filename = Ok (Docana.Analyzed d)
            /\ Docana.total_sentences d = length (Docana.candidates text))
      /\ (forall e,
             Docana.analyze_text text filename = Ok (Docana.WithError e) ->
             Docana.e_error e <> Docana.MSG_ANALYSIS_FAILED))
  /\ (forall text filename : pystr,
         (text = [] ->
          Mdana.analyze_markdown_content
            get_sentence_context clean_markdown_text markdown_stats_of
            (Some text) filename
          = Ok (Mdana.error_result filename Mdana.MSG_EMPTY_CONTENT None))
         /\ (text <> [] ->
             Mdana.candidates (clean_markdown_text text) = [] ->
             Mdana.analyze_markdown_content
               get_sentence_context clean_markdown_text markdown_stats_of
               (Some text) filename
             = Ok (Mdana.error_result filename Mdana.MSG_NO_SENTENCES
                                      (Some (markdown_stats_of text))))
         /\ (text <> [] ->
             Mdana.candidates (clean_markdown_text text) <> [] ->
             exists d,
               Mdana.analyze_markdown_content
                 get_sentence_context clean_markdown_text markdown_stats_of
                 (Some text) filename = Ok (Mdana.Analyzed d)
               /\ Mdana.total_sentences d
                  = length (Mdana.candidates (clean_markdown_text text)))
         /\ (forall e,
                Mdana.analyze_markdown_content
                  get_sentence_context clean_markdown_text markdown_stats_of
                  (Some text) filename = Ok (Mdana.WithError e) ->
                Mdana.e_error e <> Mdana.MSG_ANALYSIS_FAILED)).
Proof.
  split.
  - intros text filename.
    destruct (docana_analyze_text_ok text filename) as [rs [F E]].
    pose proof (forall2_length _ _ _ _ _ F) as Hlen. rewrite E.
    split; [intros ->; reflexivity|].
    split; [|split].
    + intros Hne Hc. rewrite Hc in Hlen.
      destruct text; [congruence|]. destruct rs; [reflexivity|].
      discriminate Hlen.
    + intros Hc. destruct text as [|c0 t]; [exfalso; apply Hc; reflexivity|].
      destruct rs as [|r rs].
      * destruct (Docana.candidates (c0 :: t)); [congruence|discriminate].
      * eexists. split; [reflexivity|].
        cbn [Docana.total_sentences]. congruence.
    + intros e He. destruct text; [|destruct rs];
        cbv [Docana.error_result] in He; try discriminate He;
        injection He as <-; discriminate.
  - intros text filename.
    destruct (mdana_analyze_content_ok
                get_sentence_context clean_markdown_text markdown_stats_of
                text filename) as [rs [F [res [E Hres]]]].
    pose proof (forall2_length _ _ _ _ _ F) as Hlen. rewrite E.
    split; [intros ->; subst res; reflexivity|].
    split; [|split].
    + intros Hne Hc. rewrite Hc in Hlen.
      destruct text; [congruence|]. destruct rs; [subst res; reflexivity|].
      discriminate Hlen.
    + intros Hne Hc. destruct text as [|c0 t]; [congruence|].
      destruct rs as [|r rs].
      * destruct (Mdana.candidates (clean_markdown_text (c0 :: t)));
          [congruence|discriminate].
      * destruct Hres as [d (-> & Ht & _)]. exists d.
        split; [reflexivity|]. congruence.
    + intros e He. injection He as ->.
      destruct text; [|destruct rs].
      * cbv [Mdana.error_result] in Hres. injection Hres as ->.
        discriminate.
      * cbv [Mdana.error_result] in Hres. injection Hres as ->.
        discriminate.
      * destruct Hres as [d (Hd & _)]. discriminate Hd.
Qed.

(** X6. The record keeps the first ten scored sentences (fifteen for
    markdown), and the text kept for each is cut to 100 characters (150)
    and three dots. *)
Theorem sample_is_bounded :
  (forall (text filename : pystr) d,
      Docana.analyze_text text filename = Ok (Docana.Analyzed d) ->
      length (Docana.sentences d) = Nat.min 10 (Docana.total_sentences d)
      /\ (forall r, In r (Docana.sentences d) ->
                    (length (Docana.sentence r) <= 103)%nat))
  /\ (forall (text filename : pystr) d,
         Mdana.analyze_markdown_content
           get_sentence_context clean_markdown_text markdown_stats_of
           (Some text) filename = Ok (Mdana.Analyzed d) ->
         length (Mdana.sentences d) = Nat.min 15 (Mdana.total_sentences d)
         /\ (forall r, In r (Mdana.sentences d) ->
                       (length (Mdana.sentence r) <= 153)%nat)).
Proof.
  split.
  - intros text filename d Hd.
    destruct (docana_analyze_text_ok text filename) as [rs [F E]].
    rewrite E in Hd. destruct text; [discriminate|].
    destruct rs as [|r0 rs0]; [discriminate|].
    remember (r0 :: rs0) as l eqn:El.
    assert (Hs : Docana.sentences d = firstn 10 l
                 /\ Docana.total_sentences d = length l).
    { injection Hd as <-. split; reflexivity. }
    destruct Hs as [-> ->].
    split; [apply length_firstn|].
    intros r Hr. apply in_firstn in Hr.
    destruct (Forall2_in_right _ _ _ _ _ _ F Hr) as [c' [_ Hc]].
    rewrite (docana_sentence_field c' r Hc). apply (truncate_length 100).
  - intros text filename d Hd.
    destruct (mdana_analyze_content_ok
                get_sentence_context clean_markdown_text markdown_stats_of
                text filename) as [rs [F [res [E Hres]]]].
    rewrite E in Hd. injection Hd as ->. destruct text; [discriminate|].
    destruct rs as [|r0 rs0]; [discriminate|].
    destruct Hres as [d' (Hd & Ht & _ & _ & _ & _ & Hs)].
    injection Hd as <-. rewrite Hs, Ht.
    split; [apply length_firstn|].
    intros r Hr. apply in_firstn in Hr.
    destruct (Forall2_in_right _ _ _ _ _ _ F Hr) as [c' [_ Hc]].
    rewrite (mdana_sentence_field c' _ r Hc). apply (truncate_length 150).
Qed.

End Outcomes.

(** Eleven sentences "abcdefg。": ten are kept in the sample. *)
Lemma sample_is_bounded_witness :
  exists d,
    Docana.analyze_text (H := Demo.host)
      (concat (repeat [97; 98; 99; 100; 101; 102; 103; 12290]%N 11))
      Demo.FILE_A = Ok (Docana.Analyzed d)
    /\ Docana.total_sentences d = 11%nat
    /\ length (Docana.sentences d) = 10%nat.
Proof.
  destruct (@sample_is_bounded
              Demo.host Demo.no_context (fun s => s) Demo.no_markdown)
    as [Hdoc _].
  destruct (Docana.analyze_text (H := Demo.host)
              (concat (repeat [97; 98; 99; 100; 101; 102; 103; 12290]%N 11))
              Demo.FILE_A) as [[e|d]|] eqn:Hd;
    try (vm_compute in Hd; discriminate).
  exists d. destruct (Hdoc _ _ _ Hd) as [Hlen _].
  assert (Ht : Docana.total_sentences d = 11%nat).
  { vm_compute in Hd. injection Hd as <-. reflexivity. }
  split; [reflexivity|]. split; [exact Ht|].
  rewrite Hlen, Ht. reflexivity.
Defined.

(** ** Bounds on scores, ratios and means *)

Lemma of_nat_nonneg (n : nat) : 0 <= of_nat n.
Proof.
  unfold of_nat, Qle. simpl. lia.
Qed.

Lemma of_nat_le (a b : nat) : (a <= b)%nat -> of_nat a <= of_nat b.
Proof.
  intros Hab. unfold of_nat. rewrite <- Zle_Qle. lia.
Qed.

Lemma div_nonneg (x : Q) (n : nat) :
  (0 < n)%nat -> 0 <= x -> 0 <= x / of_nat n.
Proof.
  intros Hn Hx. apply Qle_shift_div_l; [apply of_nat_pos; exact Hn|].
  lra.
Qed.

Section Bounds.
Context `{Host}.
Variable get_sentence_context : pystr -> pystr -> Mdana.context.
Variable clean_markdown_text : pystr -> pystr.
Variable markdown_stats_of : pystr -> Mdana.markdown_stats.

Lemma bonus_nonneg (ctx : option Mdana.context) :
  0 <= Documented.bonus_of ctx.
Proof.
  destruct ctx as [[h l q lvl]|]; [|apply Qle_refl].
  unfold Documented.bonus_of, Documented.bonus, Documented.HEADING_BONUS,
    Documented.LIST_ITEM_BONUS. destruct h, l; cbn; lra.
Qed.

(** X7. Only modifiers lower a score: the score of a segment is never
    below -0.5 for each modifier, and a segment without modifiers has a
    score and a density that are not negative. *)
Theorem only_modifiers_lower_the_score :
  (forall s r,
      Docana.analyze_sentence s = Ok (Some r) ->
      - (0.5) * of_nat (Docana.modifiers (Docana.counts r))
      <= Docana.info_score r
      /\ (Docana.modifiers (Docana.counts r) = 0%nat ->
          0 <= Docana.info_score r /\ 0 <= Docana.density r))
  /\ (forall s ctx r,
         Mdana.analyze_sentence s ctx = Ok (Some r) ->
         - (0.5) * of_nat (Mdana.modifiers (Mdana.counts r))
         <= Mdana.info_score r
         /\ (Mdana.modifiers (Mdana.counts r) = 0%nat ->
             0 <= Mdana.info_score r /\ 0 <= Mdana.density r)).
Proof.
  split.
  - intros s r Hr.
    destruct (docana_scored s r Hr) as (Hpos & _ & _ & Hscore & Hd & _).
    assert (Hlow : - (0.5) * of_nat (Docana.modifiers (Docana.counts r))
                   <= Docana.info_score r).
    { rewrite Hscore. unfold Documented.plain_score, Documented.plain_sum.
      pose proof (of_nat_nonneg (Docana.numbers (Docana.counts r))).
      pose proof (of_nat_nonneg (Docana.time_words (Docana.counts r))).
      pose proof (of_nat_nonneg
                    (Docana.professional_terms (Docana.counts r))).
      pose proof (of_nat_nonneg (Docana.conjunctions (Docana.counts r))).
      lra. }
    split; [exact Hlow|]. intros Hm. rewrite Hm in Hlow.
    assert (Hs : 0 <= Docana.info_score r).
    { change (of_nat 0) with 0 in Hlow. lra. }
    split; [exact Hs|]. rewrite Hd. apply div_nonneg; assumption.
  - intros s ctx r Hr.
    destruct (mdana_scored s ctx r Hr)
      as (Hpos & _ & _ & _ & Hscore & Hd & _).
    assert (Hlow : - (0.5) * of_nat (Mdana.modifiers (Mdana.counts r))
                   <= Mdana.info_score r).
    { rewrite Hscore.
      unfold Documented.markdown_score, Documented.plain_sum,
        Documented.markdown_terms.
      pose proof (bonus_nonneg ctx).
      pose proof (of_nat_nonneg (Mdana.numbers (Mdana.counts r))).
      pose proof (of_nat_nonneg (Mdana.time_words (Mdana.counts r))).
      pose proof (of_nat_nonneg (Mdana.professional_terms (Mdana.counts r))).
      pose proof (of_nat_nonneg (Mdana.conjunctions (Mdana.counts r))).
      pose proof (of_nat_nonneg (Mdana.code_snippets (Mdana.counts r))).
      pose proof (of_nat_nonneg (Mdana.links (Mdana.counts r))).
      lra. }
    split; [exact Hlow|]. intros Hm. rewrite Hm in Hlow.
    assert (Hs : 0 <= Mdana.info_score r).
    { change (of_nat 0) with 0 in Hlow. lra. }
    split; [exact Hs|]. rewrite Hd. apply div_nonneg; assumption.
Qed.

End Bounds.

(** "很 abcde" has one modifier and the score -0.5; "abcdef" has none. *)
Lemma only_modifiers_lower_the_score_witness :
  exists r r',
    Docana.analyze_sentence (H := Demo.host)
      [24456; 32; 97; 98; 99; 100; 101]%N = Ok (Some r)
    /\ Docana.info_score r == - (0.5)
    /\ - (0.5) * of_nat (Docana.modifiers (Docana.counts r))
       <= Docana.info_score r
    /\ Docana.analyze_sentence (H := Demo.host)
         [97; 98; 99; 100; 101; 102]%N = Ok (Some r')
    /\ 0 <= Docana.density r'.
Proof.
  destruct (@only_modifiers_lower_the_score Demo.host) as [Hdoc _].
  destruct (Docana.analyze_sentence (H := Demo.host)
              [24456; 32; 97; 98; 99; 100; 101]%N) as [[r|]|] eqn:Hr;
    try (vm_compute in Hr; discriminate).
  destruct (Docana.analyze_sentence (H := Demo.host)
              [97; 98; 99; 100; 101; 102]%N) as [[r'|]|] eqn:Hr';
    try (vm_compute in Hr'; discriminate).
  exists r, r'.
  destruct (Hdoc _ _ Hr) as [Hlow _].
  destruct (Hdoc _ _ Hr') as [_ Hzero].
  split; [reflexivity|].
  split; [evaluate_record Hr; reflexivity|].
  split; [exact Hlow|]. split; [reflexivity|].
  apply Hzero. evaluate_record Hr'. reflexivity.
Defined.

Section Ratios.
Context `{Host}.
Variable get_sentence_context : pystr -> pystr -> Mdana.context.
Variable clean_markdown_text : pystr -> pystr.
Variable markdown_stats_of : pystr -> Mdana.markdown_stats.

Lemma ratio_in_unit (a n : nat) :
  (0 < n)%nat -> (a <= n)%nat ->
  0 <= of_nat a / of_nat n /\ of_nat a / of_nat n <= 1.
Proof.
  intros Hn Ha. split.
  - apply div_nonneg; [exact Hn | apply of_nat_nonneg].
  - apply Qle_shift_div_r; [apply of_nat_pos; exact Hn|].
    pose proof (of_nat_le a n Ha). lra.
Qed.

(** X8. The share of high segments that a document record reports lies
    between 0 and 1. *)
Theorem high_quality_ratio_in_unit :
  (forall (text filename : pystr) res,
      Docana.analyze_text text filename = Ok res ->
      0 <= Docana.result_high_quality_ratio res
      /\ Docana.result_high_quality_ratio res <= 1)
  /\ (forall (content : option pystr) (filename : pystr) res,
         Mdana.analyze_markdown_content
           get_sentence_context clean_markdown_text markdown_stats_of
           content filename = Ok res ->
         0 <= Mdana.result_high_quality_ratio res
         /\ Mdana.result_high_quality_ratio res <= 1).
Proof.
  split.
  - intros text filename res Hres.
    destruct (docana_analyze_text_ok text filename) as [rs [_ E]].
    rewrite E in Hres. injection Hres as <-.
    destruct text; [cbn; lra|]. destruct rs as [|r rs]; [cbn; lra|].
    cbn [Docana.result_high_quality_ratio Docana.high_quality_ratio].
    apply ratio_in_unit; [cbn; lia|].
    unfold Docana.count_quality. apply filter_length_le.
  - intros [text|] filename res Hres;
      [|injection Hres as <-; cbn; lra].
    destruct (mdana_analyze_content_ok
                get_sentence_context clean_markdown_text markdown_stats_of
                text filename) as [rs [_ [res' [E Hres']]]].
    rewrite E in Hres. injection Hres as ->.
    destruct text; [subst res; cbn; lra|].
    destruct rs as [|r rs]; [subst res; cbn; lra|].
    destruct Hres' as [d (-> & _ & _ & _ & Hr & _)].
    cbn [Mdana.result_high_quality_ratio]. rewrite Hr.
    apply ratio_in_unit; [cbn; lia|].
    unfold Mdana.count_quality. apply filter_length_le.
Qed.

End Ratios.

(** The two sentences of the demo host. *)
Lemma high_quality_ratio_in_unit_witness :
  exists res,
    Docana.analyze_text (H := Demo.host)
      (Demo.TEXT_A ++ 12290%N :: Demo.TEXT_C) Demo.FILE_A = Ok res
    /\ Docana.result_high_quality_ratio res == 1
    /\ 0 <= Docana.result_high_quality_ratio res
    /\ Docana.result_high_quality_ratio res <= 1.
Proof.
  destruct (@high_quality_ratio_in_unit
              Demo.host Demo.no_context (fun s => s) Demo.no_markdown)
    as [Hdoc _].
  destruct (Docana.analyze_text (H := Demo.host)
              (Demo.TEXT_A ++ 12290%N :: Demo.TEXT_C) Demo.FILE_A)
    as [res|] eqn:Hres; [|vm_compute in Hres; discriminate].
  exists res. destruct (Hdoc _ _ _ Hres) as [H0 H1].
  split; [reflexivity|]. split; [|split; assumption].
  vm_compute in Hres. injection Hres as <-. reflexivity.
Defined.

(** ** Ties in the ranking *)

Section Stability.
Variable A : Type.
Variable key : A -> Q.

Lemma below_is_not_equal (x : A) (q : Q) (l : list A) (y : A) :
  Qeq_bool (key x) q = true -> key y < key x ->
  Forall (fun b => key b <= key y) l ->
  filter (fun a => Qeq_bool (key a) q) (y :: l) = [].
Proof.
  intros Hx Hy Hl. apply Qeq_bool_iff in Hx.
  assert (Hall : Forall (fun b => key b < key x) (y :: l)).
  { constructor; [exact Hy|].
    apply Forall_impl with (P := fun b => key b <= key y); [|exact Hl].
    intros b Hb. apply Qle_lt_trans with (key y); assumption. }
  clear Hy Hl. induction Hall as [|b l' Hb _ IH]; [reflexivity|].
  cbn [filter]. destruct (Qeq_bool (key b) q) eqn:Eb; [|exact IH].
  apply Qeq_bool_iff in Eb. exfalso. rewrite Eb, <- Hx in Hb.
  exact (Qlt_irrefl _ Hb).
Qed.

Lemma insert_desc_filter (x : A) (q : Q) (l : list A) :
  Documented.descending key l ->
  filter (fun a => Qeq_bool (key a) q) (insert_desc key x l)
  = filter (fun a => Qeq_bool (key a) q) l
    ++ (if Qeq_bool (key x) q then [x] else []).
Proof.
  unfold Documented.descending.
  induction 1 as [|y l Hl IH Hy]; cbn [insert_desc].
  - cbn [filter]. destruct (Qeq_bool (key x) q); reflexivity.
  - destruct (Qle_bool (key x) (key y)) eqn:E.
    + cbn [filter]. rewrite IH.
      destruct (Qeq_bool (key y) q); reflexivity.
    + assert (Hlt : key y < key x).
      { apply Qnot_le_lt. intros Hle. apply Qle_bool_iff in Hle.
        congruence. }
      pose proof (below_is_not_equal x q l y) as Hnone.
      remember (y :: l) as rest eqn:Hrest.
      cbn [filter].
      destruct (Qeq_bool (key x) q) eqn:Ex.
      * rewrite (Hnone eq_refl Hlt Hy). reflexivity.
      * rewrite app_nil_r. reflexivity.
Qed.

Lemma sorted_filter_from (q : Q) (l acc : list A) :
  Documented.descending key acc ->
  filter (fun a => Qeq_bool (key a) q)
         (fold_left (fun a x => insert_desc key x a) l acc)
  = filter (fun a => Qeq_bool (key a) q) acc
    ++ filter (fun a => Qeq_bool (key a) q) l.
Proof.
  revert acc. induction l as [|x l IH]; intros acc Hacc; cbn [fold_left].
  - cbn [filter]. rewrite app_nil_r. reflexivity.
  - rewrite (IH _ (insert_desc_sorted A key x acc Hacc)).
    rewrite (insert_desc_filter x q acc Hacc), <- app_assoc.
    cbn [filter]. destruct (Qeq_bool (key x) q); reflexivity.
Qed.

(** X10. The ranking is stable: the documents that share a mean density
    come out in the order in which they went in. *)
Theorem ranking_keeps_ties_in_order (q : Q) (l : list A) :
  filter (fun a => Qeq_bool (key a) q) (sorted_desc key l)
  = filter (fun a => Qeq_bool (key a) q) l.
Proof.
  unfold sorted_desc. rewrite sorted_filter_from; [reflexivity|].
  constructor.
Qed.

End Stability.

(** ** The reports of a batch *)

Lemma docana_valid_split (rs : list Docana.doc_result) :
  (length (Docana.valid_results rs)
   + length (filter (fun r => match r with
                              | Docana.WithError _ => true
                              | Docana.Analyzed _ => false
                              end) rs))%nat
  = length rs.
Proof.
  unfold Docana.valid_results.
  induction rs as [|[e|d] rs IH]; cbn [flat_map filter app length];
    [reflexivity | lia | lia].
Qed.

Section Reporting.
Context `{Host}.

(** X11. The reports of a batch of PDF files count every file of the
    folder once: the summary and the JSON report give the number of files
    as their total and the number of unreadable files as failed. They
    differ on the successful ones: the JSON report also counts the records
    that carry an error (a file without text or without a sentence), the
    summary does not. *)
Theorem reports_count_the_batch (folder_path : pystr)
        (files : list pystr) :
  exists rs fs s,
    Docana.analyze_pdf_folder folder_path files = Ok (rs, fs)
    /\ Docana.generate_summary_report rs fs = Ok s
    /\ Docana.total_files s = length files
    /\ Reports.json_total_files (Reports.json_report_summary rs fs)
       = length files
    /\ Docana.failed s
       = length (filter (Documented.pdf_fails folder_path) files)
    /\ Reports.json_failed_files (Reports.json_report_summary rs fs)
       = Docana.failed s
    /\ Reports.json_successful_files (Reports.json_report_summary rs fs)
       = (Docana.successful s
          + length (filter (fun r => match r with
                                     | Docana.WithError _ => true
                                     | Docana.Analyzed _ => false
                                     end) rs))%nat.
Proof.
  destruct (docana_folder_loop_spec folder_path files ([], []))
    as [rs [E F]].
  cbn [fst snd app] in E.
  destruct (docana_summary_ok
              rs (map (fun f =>
                         Docana.mk_failure
                           f (Documented.reason
                                (snd (Docana.extract_text_from_pdf
                                        (path_join folder_path f)))))
                      (filter (Documented.pdf_fails folder_path) files)))
    as [s (Es & Ht & Hs & Hf & _)].
  eexists rs, _, s. split; [exact E|]. split; [exact Es|].
  apply forall2_length in F.
  pose proof (filter_length (Documented.pdf_fails folder_path) files) as Hp.
  rewrite length_map in Ht, Hf.
  cbn [Reports.json_report_summary Reports.json_total_files
       Reports.json_failed_files Reports.json_successful_files].
  rewrite length_map, Hs, Hf, Ht, docana_valid_split.
  repeat split; lia.
Qed.

End Reporting.


(** ** The quality totals of the summary *)

Lemma sum_from (xs : list nat) (a : nat) :
  fold_left Nat.add xs a = (a + list_sum xs)%nat.
Proof.
  unfold list_sum. revert a.
  induction xs as [|x xs IH]; intros a; cbn [fold_left fold_right].
  - lia.
  - rewrite IH. lia.
Qed.

Lemma sum_list_sum (xs : list nat) : sum xs = list_sum xs.
Proof. unfold sum. rewrite sum_from. reflexivity. Qed.

Lemma of_nat_add (a b : nat) : of_nat (a + b) == of_nat a + of_nat b.
Proof.
  unfold of_nat. rewrite Nat2Z.inj_add, inject_Z_plus. reflexivity.
Qed.

Lemma quality_totals_from (valid : list Docana.document)
      (acc : Docana.quality_distribution) :
  let totals :=
    fold_left
      (fun acc r =>
         Docana.mk_quality_distribution
           (Docana.high_count acc
            + Docana.high_count (Docana.distribution r))
           (Docana.medium_count acc
            + Docana.medium_count (Docana.distribution r))
           (Docana.low_count acc + Docana.low_count (Docana.distribution r)))
      valid acc in
  Docana.high_count totals
  = (Docana.high_count acc
     + list_sum (map (fun r => Docana.high_count (Docana.distribution r))
                     valid))%nat
  /\ Docana.medium_count totals
     = (Docana.medium_count acc
        + list_sum (map (fun r => Docana.medium_count (Docana.distribution r))
                        valid))%nat
  /\ Docana.low_count totals
     = (Docana.low_count acc
        + list_sum (map (fun r => Docana.low_count (Docana.distribution r))
                        valid))%nat.
Proof.
  unfold list_sum. revert acc. induction valid as [|d valid IH]; intros acc;
    cbn [fold_left map fold_right].
  - repeat split; lia.
  - cbv zeta in IH. destruct (IH (Docana.mk_quality_distribution
           (Docana.high_count acc
            + Docana.high_count (Docana.distribution d))
           (Docana.medium_count acc
            + Docana.medium_count (Docana.distribution d))
           (Docana.low_count acc + Docana.low_count (Docana.distribution d))))
      as (Hh & Hm & Hl).
    cbv zeta. rewrite Hh, Hm, Hl.
    cbn [Docana.high_count Docana.medium_count Docana.low_count].
    repeat split; lia.
Qed.

Lemma counted_documents_sum (valid : list Docana.document) :
  Forall (fun d =>
            (Docana.high_count (Docana.distribution d)
             + Docana.medium_count (Docana.distribution d)
             + Docana.low_count (Docana.distribution d)
             = Docana.total_sentences d)%nat
            /\ (0 < Docana.total_sentences d)%nat) valid ->
  (list_sum (map (fun r => Docana.high_count (Docana.distribution r)) valid)
   + list_sum (map (fun r => Docana.medium_count (Docana.distribution r))
                   valid)
   + list_sum (map (fun r => Docana.low_count (Docana.distribution r)) valid)
   = list_sum (map Docana.total_sentences valid))%nat
  /\ (valid <> [] -> (0 < list_sum (map Docana.total_sentences valid))%nat).
Proof.
  unfold list_sum.
  induction 1 as [|d valid [Hd Hpos] _ [IH _]]; cbn [map fold_right].
  - split; [reflexivity | congruence].
  - split; [lia | intros _; lia].
Qed.

Section Shares.
Context `{Host}.

Lemma docana_document_counts (text filename : pystr)
      (d : Docana.document) :
  Docana.analyze_text text filename = Ok (Docana.Analyzed d) ->
  (Docana.high_count (Docana.distribution d)
   + Docana.medium_count (Docana.distribution d)
   + Docana.low_count (Docana.distribution d)
   = Docana.total_sentences d)%nat
  /\ (0 < Docana.total_sentences d)%nat.
Proof.
  intros Hd.
  destruct (docana_analyze_text_ok text filename) as [rs [F E]].
  rewrite E in Hd. destruct text as [|c0 t]; [discriminate|].
  destruct rs as [|r rs]; [discriminate|].
  injection Hd as <-.
  cbn [Docana.distribution Docana.total_sentences Docana.high_count
       Docana.medium_count Docana.low_count].
  split; [|cbn [length]; lia].
  apply docana_counts_sum.
  exact (docana_scored_labels _ _ F).
Qed.

Lemma batch_documents_counted (folder_path : pystr) (files : list pystr)
      (rs : list Docana.doc_result) :
  Forall2
    (fun f r =>
       Docana.analyze_text
         (Docana.clean_text
            (fst (Docana.extract_text_from_pdf (path_join folder_path f))))
         f = Ok r) files rs ->
  Forall (fun d =>
            (Docana.high_count (Docana.distribution d)
             + Docana.medium_count (Docana.distribution d)
             + Docana.low_count (Docana.distribution d)
             = Docana.total_sentences d)%nat
            /\ (0 < Docana.total_sentences d)%nat)
         (Docana.valid_results rs).
Proof.
  unfold Docana.valid_results.
  induction 1 as [|f r files rs Hr _ IH]; cbn [flat_map]; [constructor|].
  destruct r as [e|d]; cbn [app]; [exact IH|].
  constructor; [|exact IH].
  exact (docana_document_counts _ _ _ Hr).
Qed.

(** X13. The quality totals at the end of the summary of a batch of PDF
    files add up to the total number of sentences, so the three shares
    printed beside them are never a division by zero and lie between 0
    and 1; the share of the high label is the overall high-quality ratio
    printed further up. *)
Theorem quality_shares_add_up (folder_path : pystr) (files : list pystr) :
  exists rs fs,
    Docana.analyze_pdf_folder folder_path files = Ok (rs, fs)
    /\ Reports.total_quality_sentences (Docana.valid_results rs)
       = sum (map Docana.total_sentences (Docana.valid_results rs))
    /\ exists h m l,
        Reports.quality_shares (Docana.valid_results rs) = Ok [h; m; l]
        /\ 0 <= h /\ h <= 1 /\ 0 <= m /\ m <= 1 /\ 0 <= l /\ l <= 1
        /\ (forall o,
               Docana.overall_stats (Docana.valid_results rs) = Ok o ->
               Docana.overall_high_quality_ratio o == h).
Proof.
  destruct (docana_folder_loop_spec folder_path files ([], []))
    as [rs [E F]].
  cbn [fst snd app] in E. eexists rs, _. split; [exact E|].
  pose proof (batch_documents_counted _ _ _ F) as Hall.
  destruct (counted_documents_sum _ Hall) as [Hsum Hpos].
  remember (Docana.valid_results rs) as valid eqn:Hv. clear Hv F E.
  destruct (quality_totals_from valid (Docana.mk_quality_distribution 0 0 0))
    as (Hh & Hm & Hl).
  cbv zeta in Hh, Hm, Hl.
  cbn [Docana.high_count Docana.medium_count Docana.low_count Nat.add]
    in Hh, Hm, Hl.
  assert (Htotal : Reports.total_quality_sentences valid
                   = sum (map Docana.total_sentences valid)).
  { unfold Reports.total_quality_sentences, Reports.quality_totals.
    rewrite Hh, Hm, Hl, !sum_list_sum.
    unfold list_sum in *. cbn [fold_right]. lia. }
  split; [exact Htotal|].
  unfold Reports.quality_shares. rewrite Htotal.
  unfold Reports.quality_totals. rewrite Hh, Hm, Hl.
  rewrite sum_list_sum in *.
  destruct (Nat.ltb_spec 0 (list_sum (map Docana.total_sentences valid)))
    as [Hlt|Hle].
  - rewrite !truediv_pos by exact Hlt. cbn [bind].
    eexists _, _, _. split; [reflexivity|].
    unfold list_sum in Hsum.
    destruct (ratio_in_unit
                (list_sum
                   (map (fun r => Docana.high_count (Docana.distribution r))
                        valid))
                (list_sum (map Docana.total_sentences valid)) Hlt)
      as [Hh0 Hh1]; [unfold list_sum; lia|].
    destruct (ratio_in_unit
                (list_sum
                   (map (fun r =>
                           Docana.medium_count (Docana.distribution r))
                        valid))
                (list_sum (map Docana.total_sentences valid)) Hlt)
      as [Hm0 Hm1]; [unfold list_sum; lia|].
    destruct (ratio_in_unit
                (list_sum
                   (map (fun r => Docana.low_count (Docana.distribution r))
                        valid))
                (list_sum (map Docana.total_sentences valid)) Hlt)
      as [Hl0 Hl1]; [unfold list_sum; lia|].
    split; [exact Hh0|]. split; [exact Hh1|].
    split; [exact Hm0|]. split; [exact Hm1|].
    split; [exact Hl0|]. split; [exact Hl1|].
    intros o Ho. unfold Docana.overall_stats in Ho.
    destruct (truediv (sumQ (map Docana.average_density valid))
                      (of_nat (length valid))) as [a|e];
      [|discriminate].
    cbn [bind] in Ho. rewrite !sum_list_sum in Ho.
    destruct (Nat.ltb_spec
                0 (list_sum (map Docana.total_sentences valid)))
      as [_|Hle]; [|lia].
    rewrite truediv_pos in Ho by exact Hlt. cbn [bind] in Ho.
    injection Ho as <-. cbn [Docana.overall_high_quality_ratio].
    reflexivity.
  - cbn [bind]. exists 0, 0, 0. split; [reflexivity|].
    split; [lra|]. split; [lra|]. split; [lra|].
    split; [lra|]. split; [lra|]. split; [lra|].
    intros o Ho. unfold Docana.overall_stats in Ho.
    destruct (truediv (sumQ (map Docana.average_density valid))
                      (of_nat (length valid))) as [a|e];
      [|discriminate].
    cbn [bind] in Ho. rewrite !sum_list_sum in Ho.
    destruct (Nat.ltb_spec
                0 (list_sum (map Docana.total_sentences valid)))
      as [Hlt|_]; [lia|].
    cbn [bind] in Ho. injection Ho as <-.
    cbn [Docana.overall_high_quality_ratio]. reflexivity.
Qed.

End Shares.

(** ** The success rate of the markdown summary *)

Section SuccessRate.
Context `{Host}.
Variable get_sentence_context : pystr -> pystr -> Mdana.context.
Variable clean_markdown_text : pystr -> pystr.
Variable markdown_stats_of : pystr -> Mdana.markdown_stats.

Lemma mdana_valid_le (rs : list Mdana.file_result) :
  (length (Mdana.valid_results rs) <= length rs)%nat.
Proof.
  unfold Mdana.valid_results.
  induction rs as [|r rs IH]; cbn [flat_map length]; [lia|].
  rewrite length_app. destruct (Mdana.analysis r); cbn [length]; lia.
Qed.

(** X14. The success rate in the header of the markdown summary divides
    by the number of files of the batch. With no result and no failure it
    is a division by zero; for the results of a folder that has a
    markdown file it is the share of the files analyzed without an error
    record, between 0 and 100. *)
Theorem markdown_success_rate :
  Reports.success_rate [] [] = Raise ZeroDivisionError
  /\ forall folder_path files,
      files <> [] ->
      exists rs fs q,
        Mdana.analyze_markdown_folder
          get_sentence_context clean_markdown_text markdown_stats_of
          folder_path files = Ok (rs, fs)
        /\ Reports.success_rate rs fs = Ok q
        /\ q == of_nat (length (Mdana.valid_results rs))
                / of_nat (length files) * 100
        /\ 0 <= q /\ q <= 100.
Proof.
  split; [reflexivity|].
  intros folder_path files Hne.
  destruct (mdana_folder_loop_spec
              get_sentence_context clean_markdown_text markdown_stats_of
              folder_path files ([], [])) as [rs [E F]].
  cbn [fst snd app] in E. eexists rs, _, _.
  split; [exact E|].
  apply forall2_length in F.
  pose proof (filter_length Documented.markdown_fails files) as Hp.
  pose proof (mdana_valid_le rs) as Hv.
  assert (Hpos : (0 < length files)%nat)
    by (destruct files; [congruence | cbn [length]; lia]).
  unfold Reports.success_rate. rewrite length_map.
  replace (length rs + length (filter Documented.markdown_fails files))%nat
    with (length files) by lia.
  rewrite truediv_pos by exact Hpos. cbn [bind].
  split; [reflexivity|]. split; [reflexivity|].
  destruct (ratio_in_unit (length (Mdana.valid_results rs)) (length files)
                          Hpos) as [H0 H1]; [lia|].
  split; lra.
Qed.

End SuccessRate.

(** Of the three files of the demo folder two are analyzed. *)
Lemma markdown_success_rate_witness :
  exists rs fs q,
    Mdana.analyze_markdown_folder (H := Demo.host)
      Demo.no_context (fun t => t) Demo.no_markdown Demo.FOLDER
      [Demo.FOLDER ++ Demo.SLASH :: Demo.FILE_A;
       Demo.FOLDER ++ Demo.SLASH :: Demo.FILE_B;
       Demo.FOLDER ++ Demo.SLASH :: Demo.FILE_C] = Ok (rs, fs)
    /\ Reports.success_rate rs fs = Ok q
    /\ q == 200 # 3.
Proof.
  destruct (@markdown_success_rate
              Demo.host Demo.no_context (fun t => t) Demo.no_markdown)
    as [_ Hrate].
  destruct (Hrate Demo.FOLDER
                  [Demo.FOLDER ++ Demo.SLASH :: Demo.FILE_A;
                   Demo.FOLDER ++ Demo.SLASH :: Demo.FILE_B;
                   Demo.FOLDER ++ Demo.SLASH :: Demo.FILE_C])
    as [rs [fs [q (E & Eq & Hq & _)]]]; [discriminate|].
  exists rs, fs, q. split; [exact E|]. split; [exact Eq|].
  rewrite Hq. vm_compute in E. injection E as <- _. reflexivity.
Defined.

(** ** The order of the files *)

Lemma sum_map_perm (A : Type) (f : A -> nat) (l l' : list A) :
  Permutation l l' -> sum (map f l) = sum (map f l').
Proof.
  intros Hp. rewrite !sum_list_sum.
  apply Permutation_list_sum, Permutation_map. exact Hp.
Qed.

Lemma docana_overall_perm (valid valid' : list Docana.document)
      (o o' : Docana.overall) :
  Permutation valid valid' ->
  Docana.overall_stats valid = Ok o ->
  Docana.overall_stats valid' = Ok o' ->
  Docana.all_sentences o = Docana.all_sentences o'
  /\ Docana.all_chars o = Docana.all_chars o'
  /\ Docana.high_quality_sentences o = Docana.high_quality_sentences o'
  /\ Docana.overall_high_quality_ratio o
     = Docana.overall_high_quality_ratio o'
  /\ Permutation (Docana.sorted_results o) (Docana.sorted_results o').
Proof.
  intros Hp Ho Ho'. unfold Docana.overall_stats in Ho, Ho'.
  rewrite <- (sum_map_perm _ Docana.total_sentences _ _ Hp) in Ho'.
  rewrite <- (sum_map_perm _ Docana.doc_total_chars _ _ Hp) in Ho'.
  rewrite <- (sum_map_perm
                _ (fun r => Docana.high_count (Docana.distribution r))
                _ _ Hp) in Ho'.
  destruct (truediv (sumQ (map Docana.average_density valid))
                    (of_nat (length valid))) as [a|]; [|discriminate].
  destruct (truediv (sumQ (map Docana.average_density valid'))
                    (of_nat (length valid'))) as [a'|]; [|discriminate].
  cbn [bind] in Ho, Ho'.
  destruct (if (0 <? sum (map Docana.total_sentences valid))%nat
            then truediv
                   (of_nat (sum (map (fun r =>
                                        Docana.high_count
                                          (Docana.distribution r)) valid)))
                   (of_nat (sum (map Docana.total_sentences valid)))
            else Ok 0) as [q|]; [|discriminate].
  cbn [bind] in Ho, Ho'. injection Ho as <-. injection Ho' as <-.
  cbn [Docana.all_sentences Docana.all_chars Docana.high_quality_sentences
       Docana.overall_high_quality_ratio Docana.sorted_results].
  repeat split.
  apply Permutation_trans with valid;
    [apply Permutation_sym;
     exact (proj1 (sorted_desc_spec _ Docana.average_density valid))|].
  apply Permutation_trans with valid'; [exact Hp|].
  exact (proj1 (sorted_desc_spec _ Docana.average_density valid')).
Qed.

Section Order.
Context `{Host}.

(** X15. The counts of the two summaries do not depend on the order in
    which the files of the folder were analyzed: the numbers of files,
    the totals of sentences and characters, the number of high
    sentences and the ratios computed from these counts are the same for
    any reordering of the results, and the same documents are ranked. *)
Theorem totals_ignore_the_order :
  (forall results results' failed_files s s',
      Permutation results results' ->
      Docana.generate_summary_report results failed_files = Ok s ->
      Docana.generate_summary_report results' failed_files = Ok s' ->
      Docana.total_files s = Docana.total_files s'
      /\ Docana.successful s = Docana.successful s'
      /\ match Docana.stats_section s, Docana.stats_section s' with
         | Some o, Some o' =>
             Docana.all_sentences o = Docana.all_sentences o'
             /\ Docana.all_chars o = Docana.all_chars o'
             /\ Docana.high_quality_sentences o
                = Docana.high_quality_sentences o'
             /\ Docana.overall_high_quality_ratio o
                = Docana.overall_high_quality_ratio o'
             /\ Permutation (Docana.sorted_results o)
                            (Docana.sorted_results o')
         | None, None => True
         | _, _ => False
         end)
  /\ (forall results results' g g',
         Permutation results results' ->
         Mdana.calculate_global_stats results = Ok g ->
         Mdana.calculate_global_stats results' = Ok g' ->
         match g, g' with
         | Some a, Some b =>
             Mdana.g_total_sentences a = Mdana.g_total_sentences b
             /\ Mdana.g_total_characters a = Mdana.g_total_characters b
             /\ Mdana.g_high_quality_ratio a = Mdana.g_high_quality_ratio b
             /\ Mdana.g_total_headings a = Mdana.g_total_headings b
             /\ Mdana.g_total_code_blocks a = Mdana.g_total_code_blocks b
             /\ Mdana.g_total_links a = Mdana.g_total_links b
             /\ Mdana.g_total_images a = Mdana.g_total_images b
             /\ Mdana.g_avg_headings_per_doc a
                = Mdana.g_avg_headings_per_doc b
             /\ Mdana.g_avg_code_blocks_per_doc a
                = Mdana.g_avg_code_blocks_per_doc b
             /\ Mdana.g_total_professional_terms a
                = Mdana.g_total_professional_terms b
             /\ Mdana.g_total_numbers a = Mdana.g_total_numbers b
             /\ Mdana.g_total_time_words a = Mdana.g_total_time_words b
         | None, None => True
         | _, _ => False
         end).
Proof.
  split.
  - intros results results' failed_files s s' Hp Hs Hs'.
    assert (Hv : Permutation (Docana.valid_results results)
                             (Docana.valid_results results'))
      by (unfold Docana.valid_results; apply Permutation_flat_map;
          exact Hp).
    unfold Docana.generate_summary_report in Hs, Hs'.
    rewrite <- (Permutation_length Hp) in Hs'.
    rewrite <- (Permutation_length Hv) in Hs'.
    destruct (Docana.valid_results results) as [|d v] eqn:Ev;
      destruct (Docana.valid_results results') as [|d' v'] eqn:Ev'.
    + injection Hs as <-. injection Hs' as <-. cbn. tauto.
    + apply Permutation_nil in Hv. discriminate.
    + apply Permutation_sym, Permutation_nil in Hv. discriminate.
    + destruct (Docana.overall_stats (d :: v)) as [o|] eqn:Eo;
        [|discriminate].
      destruct (Docana.overall_stats (d' :: v')) as [o'|] eqn:Eo';
        [|discriminate].
      cbn [bind] in Hs, Hs'. injection Hs as <-. injection Hs' as <-.
      cbn [Docana.total_files Docana.successful Docana.stats_section].
      split; [reflexivity|]. split; [reflexivity|].
      exact (docana_overall_perm _ _ _ _ Hv Eo Eo').
  - intros results results' g g' Hp Hg Hg'.
    assert (Hv : Permutation (Mdana.valid_results results)
                             (Mdana.valid_results results'))
      by (unfold Mdana.valid_results; apply Permutation_flat_map;
          exact Hp).
    unfold Mdana.calculate_global_stats in Hg, Hg'.
    destruct (Mdana.valid_results results) as [|d v] eqn:Ev;
      destruct (Mdana.valid_results results') as [|d' v'] eqn:Ev'.
    + cbv zeta in Hg, Hg'. destruct g, g'; try discriminate. exact I.
    + apply Permutation_nil in Hv. discriminate.
    + apply Permutation_sym, Permutation_nil in Hv. discriminate.
    + remember (d :: v) as l eqn:Hl. remember (d' :: v') as l' eqn:Hl'.
      cbv zeta in Hg, Hg'.
      rewrite <- (Permutation_length Hv) in Hg'.
      rewrite <- (sum_map_perm _ Mdana.total_sentences _ _ Hv) in Hg'.
      rewrite <- (sum_map_perm _ Mdana.doc_total_chars _ _ Hv) in Hg'.
      rewrite <- (sum_map_perm
                    _ (fun r => Mdana.high_count (Mdana.distribution r))
                    _ _ Hv) in Hg'.
      rewrite <- (sum_map_perm
                    _ (fun r => Mdana.headings_count
                                  (Mdana.doc_markdown_stats r))
                    _ _ Hv) in Hg'.
      rewrite <- (sum_map_perm
                    _ (fun r => Mdana.code_blocks_count
                                  (Mdana.doc_markdown_stats r))
                    _ _ Hv) in Hg'.
      rewrite <- (sum_map_perm
                    _ (fun r => Mdana.links_count
                                  (Mdana.doc_markdown_stats r))
                    _ _ Hv) in Hg'.
      rewrite <- (sum_map_perm
                    _ (fun r => Mdana.images_count
                                  (Mdana.doc_markdown_stats r))
                    _ _ Hv) in Hg'.
      rewrite <- (sum_map_perm
                    _ (fun r => Mdana.professional_terms_count
                                  (Mdana.doc_content_stats r))
                    _ _ Hv) in Hg'.
      rewrite <- (sum_map_perm
                    _ (fun r => Mdana.numbers_count
                                  (Mdana.doc_content_stats r))
                    _ _ Hv) in Hg'.
      rewrite <- (sum_map_perm
                    _ (fun r => Mdana.time_words_count
                                  (Mdana.doc_content_stats r))
                    _ _ Hv) in Hg'.
      assert (Hpos : (0 < length l)%nat) by (subst l; cbn [length]; lia).
      assert (Ht : forall a,
                 truediv a (of_nat (length l)) = Ok (a / of_nat (length l)))
        by (intros a; apply truediv_pos; exact Hpos).
      rewrite !Ht in Hg, Hg'. cbn [bind] in Hg, Hg'.
      destruct (if (0 <? sum (map Mdana.total_sentences l))%nat
                then truediv
                       (of_nat (sum (map (fun r =>
                                            Mdana.high_count
                                              (Mdana.distribution r)) l)))
                       (of_nat (sum (map Mdana.total_sentences l)))
                else Ok 0) as [q|]; [|discriminate].
      cbn [bind] in Hg, Hg'. injection Hg as <-. injection Hg' as <-.
      cbn. repeat split.
Qed.

End Order.

(** Two documents, analyzed in either order. *)
Lemma totals_ignore_the_order_witness :
  exists s s' g g',
    Docana.generate_summary_report
      [Docana.Analyzed (Demo.plain_document Demo.FILE_A 0.2);
       Docana.Analyzed (Demo.plain_document Demo.FILE_C 0.1)] [] = Ok s
    /\ Docana.generate_summary_report
         [Docana.Analyzed (Demo.plain_document Demo.FILE_C 0.1);
          Docana.Analyzed (Demo.plain_document Demo.FILE_A 0.2)] []
       = Ok s'
    /\ Docana.total_files s = Docana.total_files s'
    /\ Docana.successful s = Docana.successful s'
    /\ Mdana.calculate_global_stats (H := Demo.host)
         [Mdana.mk_file_result
            (Mdana.Analyzed (Demo.markdown_document Demo.FILE_A 0.2))
            None Demo.FILE_A;
          Mdana.mk_file_result
            (Mdana.Analyzed (Demo.markdown_document Demo.FILE_C 0.1))
            None Demo.FILE_C] = Ok g
    /\ Mdana.calculate_global_stats (H := Demo.host)
         [Mdana.mk_file_result
            (Mdana.Analyzed (Demo.markdown_document Demo.FILE_C 0.1))
            None Demo.FILE_C;
          Mdana.mk_file_result
            (Mdana.Analyzed (Demo.markdown_document Demo.FILE_A 0.2))
            None Demo.FILE_A] = Ok g'
    /\ match g, g' with
       | Some a, Some b =>
           Mdana.g_total_sentences a = Mdana.g_total_sentences b
       | _, _ => False
       end.
Proof.
  destruct (@totals_ignore_the_order Demo.host) as [Hd Hm].
  destruct (Docana.generate_summary_report
              [Docana.Analyzed (Demo.plain_document Demo.FILE_A 0.2);
               Docana.Analyzed (Demo.plain_document Demo.FILE_C 0.1)] [])
    as [s|] eqn:Es; [|vm_compute in Es; discriminate].
  destruct (Docana.generate_summary_report
              [Docana.Analyzed (Demo.plain_document Demo.FILE_C 0.1);
               Docana.Analyzed (Demo.plain_document Demo.FILE_A 0.2)] [])
    as [s'|] eqn:Es'; [|vm_compute in Es'; discriminate].
  destruct (Mdana.calculate_global_stats (H := Demo.host)
         [Mdana.mk_file_result
            (Mdana.Analyzed (Demo.markdown_document Demo.FILE_A 0.2))
            None Demo.FILE_A;
          Mdana.mk_file_result
            (Mdana.Analyzed (Demo.markdown_document Demo.FILE_C 0.1))
            None Demo.FILE_C])
    as [g|] eqn:Eg; [|vm_compute in Eg; discriminate].
  destruct (Mdana.calculate_global_stats (H := Demo.host)
         [Mdana.mk_file_result
            (Mdana.Analyzed (Demo.markdown_document Demo.FILE_C 0.1))
            None Demo.FILE_C;
          Mdana.mk_file_result
            (Mdana.Analyzed (Demo.markdown_document Demo.FILE_A 0.2))
            None Demo.FILE_A])
    as [g'|] eqn:Eg'; [|vm_compute in Eg'; discriminate].
  exists s, s', g, g'.
  destruct (Hd _ _ [] s s' (perm_swap _ _ []) Es Es') as (Ht & Hs & _).
  pose proof (Hm _ _ g g' (perm_swap _ _ []) Eg Eg') as Hg.
  split; [reflexivity|]. split; [reflexivity|].
  split; [exact Ht|]. split; [exact Hs|].
  split; [reflexivity|]. split; [reflexivity|].
  destruct g as [a|], g' as [b|];
    [exact (proj1 Hg) | exact Hg | exact Hg
     | vm_compute in Eg; discriminate].
Defined.

(** ** The paragraphs of the splitter *)

Lemma flush_length (r : nat) :
  Segmenter.flush r
  = repeat NEWLINE (if (3 <=? r)%nat then 2%nat else r).
Proof. reflexivity. Qed.

Lemma flush_again (k r : nat) :
  k = 0%nat \/ (k = 2%nat /\ (2 <= r)%nat) ->
  Segmenter.flush (k + (if (3 <=? r)%nat then 2 else r)) = Segmenter.flush r.
Proof.
  intros Hk. unfold Segmenter.flush. f_equal.
  destruct (Nat.leb_spec 3 r);
    destruct (Nat.leb_spec 3 (k + 2)); destruct (Nat.leb_spec 3 (k + r));
    lia.
Qed.

Lemma collapse_repeat (n k : nat) (t : pystr) :
  Segmenter.collapse_loop k (repeat NEWLINE n ++ t)
  = Segmenter.collapse_loop (k + n) t.
Proof.
  revert k. induction n as [|n IH]; intros k; cbn [repeat app].
  - rewrite Nat.add_0_r. reflexivity.
  - cbn [Segmenter.collapse_loop]. rewrite N.eqb_refl, IH.
    f_equal. lia.
Qed.

Lemma collapse_other (k : nat) (c : char) (t : pystr) :
  c <> NEWLINE ->
  Segmenter.collapse_loop k (c :: t)
  = Segmenter.flush k ++ c :: Segmenter.collapse_loop 0 t.
Proof.
  intros Hc. cbn [Segmenter.collapse_loop].
  apply N.eqb_neq in Hc. rewrite Hc. reflexivity.
Qed.

Lemma step_newline (st : Segmenter.state) :
  Segmenter.step st NEWLINE = (st, [[NEWLINE]]).
Proof.
  unfold Segmenter.step.
  change (Segmenter.is_quote_key NEWLINE) with false.
  change (Segmenter.is_break_mark NEWLINE) with false.
  rewrite andb_false_r.
  destruct (Segmenter.quote_get (Segmenter.current_quote_start st))
    as [close|] eqn:E.
  - apply quote_get_spec in E.
    replace (N.eqb NEWLINE close) with false
      by (destruct E as [-> | ->]; reflexivity).
    rewrite andb_false_r. reflexivity.
  - rewrite andb_false_r. reflexivity.
Qed.

Lemma scan_repeat (st : Segmenter.state) (n : nat) (t : pystr) :
  concat (Segmenter.scan st (repeat NEWLINE n ++ t))
  = repeat NEWLINE n ++ concat (Segmenter.scan st t).
Proof.
  induction n as [|n IH]; cbn [repeat app Segmenter.scan]; [reflexivity|].
  rewrite step_newline. cbn [fst snd app concat]. rewrite IH. reflexivity.
Qed.

Lemma break_mark_not_newline (c : char) :
  Segmenter.is_break_mark c = true -> c <> NEWLINE.
Proof. intros Hc ->. discriminate Hc. Qed.

(** The second pass over the output of a first one: [k] newlines are
    pending in the second pass where [r] were in the first. *)
Lemma second_pass (s : pystr) :
  forall (st : Segmenter.state) (r k : nat),
    k = 0%nat \/ (k = 2%nat /\ (2 <= r)%nat) ->
    Segmenter.collapse_loop
      k (concat (Segmenter.scan
                   st (Segmenter.collapse_loop
                         r (concat (Segmenter.scan st s)))))
    = Segmenter.collapse_loop r (concat (Segmenter.scan st s)).
Proof.
  induction s as [|c s IH]; intros st r k Hk.
  - cbn [Segmenter.scan concat Segmenter.collapse_loop].
    rewrite flush_length.
    rewrite <- (app_nil_r (repeat NEWLINE _)) at 1.
    rewrite scan_repeat, collapse_repeat.
    cbn [Segmenter.scan concat Segmenter.collapse_loop].
    rewrite flush_again by exact Hk. reflexivity.
  - cbn [Segmenter.scan]. rewrite concat_app, step_output.
    destruct (Segmenter.is_break_mark c
              && negb (Segmenter.in_quotes st)) eqn:Hb.
    + apply andb_true_iff in Hb. destruct Hb as [Hmark Hout].
      pose proof (break_mark_not_newline c Hmark) as Hc.
      rewrite (step_state_mark st c Hmark).
      cbn [concat app Segmenter.BREAK].
      rewrite (collapse_other r c _ Hc).
      cbn [Segmenter.collapse_loop]. rewrite !N.eqb_refl.
      rewrite flush_length, scan_repeat, collapse_repeat.
      cbn [Segmenter.scan]. rewrite concat_app, step_output.
      rewrite Hmark, Hout, (step_state_mark st c Hmark).
      cbn [andb concat app Segmenter.BREAK].
      rewrite (collapse_other _ c _ Hc).
      cbn [Segmenter.collapse_loop]. rewrite !N.eqb_refl.
      rewrite (IH st 2%nat 2%nat) by (right; lia).
      rewrite flush_again by exact Hk. reflexivity.
    + cbn [concat app].
      destruct (N.eq_dec c NEWLINE) as [-> | Hc].
      * rewrite step_newline. cbn [fst].
        cbn [Segmenter.collapse_loop]. rewrite N.eqb_refl.
        apply IH. lia.
      * rewrite (collapse_other r c _ Hc).
        rewrite flush_length, scan_repeat, collapse_repeat.
        cbn [Segmenter.scan]. rewrite concat_app, step_output, Hb.
        cbn [concat app].
        rewrite (collapse_other _ c _ Hc).
        rewrite (IH _ 0%nat 0%nat) by (left; reflexivity).
        rewrite flush_again by exact Hk. reflexivity.
Qed.

(** X16. Splitting a text that has been split changes nothing: the file
    the tool writes over its input can be processed again. *)
Theorem process_content_is_idempotent (content : pystr) :
  Segmenter.process_content (Segmenter.process_content content)
  = Segmenter.process_content content.
Proof.
  unfold Segmenter.process_content, Segmenter.collapse_newlines.
  apply second_pass. left. reflexivity.
Qed.

Lemma flush_has_newlines_only (r : nat) :
  filter (fun c => negb (N.eqb c NEWLINE)) (Segmenter.flush r) = [].
Proof.
  unfold Segmenter.flush.
  induction (if (3 <=? r)%nat then 2%nat else r) as [|n IH];
    [reflexivity|].
  cbn [repeat filter]. rewrite N.eqb_refl. exact IH.
Qed.

Lemma collapse_keeps_the_rest (s : pystr) (r : nat) :
  filter (fun c => negb (N.eqb c NEWLINE)) (Segmenter.collapse_loop r s)
  = filter (fun c => negb (N.eqb c NEWLINE)) s.
Proof.
  revert r. induction s as [|c s IH]; intros r;
    cbn [Segmenter.collapse_loop].
  - apply flush_has_newlines_only.
  - cbn [filter]. destruct (N.eqb c NEWLINE) eqn:Ec; cbn [negb].
    + apply IH.
    + rewrite filter_app, flush_has_newlines_only. cbn [app filter].
      rewrite Ec. cbn [negb]. rewrite IH. reflexivity.
Qed.

Lemma scan_keeps_the_rest (s : pystr) (st : Segmenter.state) :
  filter (fun c => negb (N.eqb c NEWLINE)) (concat (Segmenter.scan st s))
  = filter (fun c => negb (N.eqb c NEWLINE)) s.
Proof.
  revert st. induction s as [|c s IH]; intros st; [reflexivity|].
  cbn [Segmenter.scan]. rewrite concat_app, filter_app, IH, step_output.
  destruct (Segmenter.is_break_mark c && negb (Segmenter.in_quotes st));
    cbn [concat app filter Segmenter.BREAK]; rewrite ?N.eqb_refl;
    cbn [negb]; destruct (N.eqb c NEWLINE); reflexivity.
Qed.

Lemma collapse_fixed (s : pystr) (r : nat) :
  Segmenter.collapse_loop 0 (Segmenter.collapse_loop r s)
  = Segmenter.collapse_loop r s.
Proof.
  revert r. induction s as [|c s IH]; intros r.
  - cbn [Segmenter.collapse_loop]. rewrite flush_length.
    rewrite <- (app_nil_r (repeat NEWLINE _)) at 1.
    rewrite collapse_repeat. cbn [Segmenter.collapse_loop].
    rewrite flush_again by (left; reflexivity). reflexivity.
  - destruct (N.eq_dec c NEWLINE) as [-> | Hc].
    + cbn [Segmenter.collapse_loop]. rewrite N.eqb_refl. apply IH.
    + rewrite (collapse_other r c _ Hc).
      rewrite flush_length, collapse_repeat, (collapse_other _ c _ Hc).
      rewrite IH, flush_again by (left; reflexivity). reflexivity.
Qed.

Lemma flush_step (r : nat) :
  (length (Segmenter.flush (S r)) <= S (length (Segmenter.flush r)))%nat
  /\ (length (Segmenter.flush r) <= 2)%nat.
Proof.
  unfold Segmenter.flush. rewrite !repeat_length.
  destruct (Nat.leb_spec 3 (S r)); destruct (Nat.leb_spec 3 r); lia.
Qed.

Lemma collapse_length (s : pystr) (r : nat) :
  (length (Segmenter.collapse_loop r s)
   <= length (Segmenter.flush r) + length s)%nat.
Proof.
  revert r. induction s as [|c s IH]; intros r;
    cbn [Segmenter.collapse_loop length]; [lia|].
  destruct (N.eqb c NEWLINE).
  - specialize (IH (S r)). pose proof (flush_step r). lia.
  - rewrite length_app. cbn [length]. specialize (IH 0%nat).
    change (length (Segmenter.flush 0)) with 0%nat in IH. lia.
Qed.

Lemma collapse_prefix (a t : pystr) (r : nat) :
  exists p r',
    Segmenter.collapse_loop r (a ++ t) = p ++ Segmenter.collapse_loop r' t
    /\ (length p + length (Segmenter.flush r')
        <= length (Segmenter.flush r) + length a)%nat.
Proof.
  revert r. induction a as [|c a IH]; intros r; cbn [app].
  - exists [], r. split; [reflexivity | cbn [length]; lia].
  - cbn [Segmenter.collapse_loop length]. destruct (N.eqb c NEWLINE).
    + destruct (IH (S r)) as [p [r' [E Hl]]]. exists p, r'.
      split; [exact E|]. pose proof (flush_step r). lia.
    + destruct (IH 0%nat) as [p [r' [E Hl]]].
      exists (Segmenter.flush r ++ c :: p), r'.
      split; [rewrite E, <- app_assoc; reflexivity|].
      rewrite length_app. cbn [length].
      change (length (Segmenter.flush 0)) with 0%nat in Hl. lia.
Qed.

Lemma triple_shrinks (a b : pystr) :
  (length (Segmenter.collapse_newlines
             (a ++ NEWLINE :: NEWLINE :: NEWLINE :: b))
   < length (a ++ NEWLINE :: NEWLINE :: NEWLINE :: b))%nat.
Proof.
  unfold Segmenter.collapse_newlines.
  destruct (collapse_prefix a (NEWLINE :: NEWLINE :: NEWLINE :: b) 0)
    as [p [r' [E Hl]]].
  rewrite E. cbn [Segmenter.collapse_loop]. rewrite !N.eqb_refl.
  rewrite !length_app. cbn [length].
  pose proof (collapse_length b (S (S (S r')))) as Hb.
  pose proof (flush_step (S (S (S r')))) as [_ H2].
  change (length (Segmenter.flush 0)) with 0%nat in Hl. lia.
Qed.

(** X17. The splitter only moves newlines: without its newlines the
    output is the input without its newlines, character by character.
    The output never has three newlines in a row, so the substitution
    that removes them finds nothing left to do. *)
Theorem process_content_moves_only_newlines (content : pystr) :
  filter (fun c => negb (N.eqb c NEWLINE))
         (Segmenter.process_content content)
  = filter (fun c => negb (N.eqb c NEWLINE)) content
  /\ Segmenter.collapse_newlines (Segmenter.process_content content)
     = Segmenter.process_content content
  /\ (forall a b,
         Segmenter.process_content content
         = a ++ NEWLINE :: NEWLINE :: NEWLINE :: b -> False).
Proof.
  assert (Hfix : Segmenter.collapse_newlines
                   (Segmenter.process_content content)
                 = Segmenter.process_content content)
    by apply collapse_fixed.
  split; [|split; [exact Hfix|]].
  - unfold Segmenter.process_content, Segmenter.collapse_newlines.
    rewrite collapse_keeps_the_rest. apply scan_keeps_the_rest.
  - intros a b E. pose proof (triple_shrinks a b) as Hlt.
    rewrite <- E, Hfix in Hlt. lia.
Qed.

(** ** The statistics of a markdown document *)

Lemma split_lines_loop_length (s cur : pystr) :
  length (MdStats.split_lines_loop cur s)
  = S (count (fun c => N.eqb c NEWLINE) s).
Proof.
  unfold count. revert cur.
  induction s as [|c s IH]; intros cur;
    cbn [MdStats.split_lines_loop filter length]; [reflexivity|].
  destruct (N.eqb c NEWLINE); cbn [length]; rewrite IH; reflexivity.
Qed.

Lemma split_lines_loop_no_newline (s cur : pystr) :
  (forall c, In c cur -> c <> NEWLINE) ->
  Forall (fun line => forall c, In c line -> c <> NEWLINE)
         (MdStats.split_lines_loop cur s).
Proof.
  revert cur. induction s as [|c s IH]; intros cur Hcur;
    cbn [MdStats.split_lines_loop].
  - constructor; [|constructor].
    intros d Hd. apply Hcur, in_rev. exact Hd.
  - destruct (N.eqb_spec c NEWLINE) as [_|Hc].
    + constructor; [|apply IH; intros d []].
      intros d Hd. apply Hcur, in_rev. exact Hd.
    + apply IH. intros d [<- | Hd]; [exact Hc | apply Hcur; exact Hd].
Qed.

Lemma table_line_has_content (line : pystr) :
  MdStats.is_table_line line = true -> truthy (strip line) = true.
Proof.
  unfold MdStats.is_table_line. intros Ht.
  apply andb_true_iff in Ht. destruct Ht as [_ Hs].
  destruct (strip line); [discriminate Hs | reflexivity].
Qed.

Lemma filter_length_impl (A : Type) (p q : A -> bool) (l : list A) :
  (forall x, p x = true -> q x = true) ->
  (length (filter p l) <= length (filter q l))%nat.
Proof.
  intros Hpq. induction l as [|x l IH]; cbn [filter]; [lia|].
  destruct (p x) eqn:Ep.
  - rewrite (Hpq x Ep). cbn [length]. lia.
  - destruct (q x); cbn [length]; lia.
Qed.

Lemma bump_total (level : nat) (d : list (nat * nat)) :
  list_sum (map snd (MdStats.bump level d)) = S (list_sum (map snd d)).
Proof.
  unfold list_sum.
  induction d as [|[k v] d IH]; cbn [MdStats.bump map snd fold_right];
    [reflexivity|].
  destruct (k =? level)%nat; cbn [map snd fold_right]; [lia|].
  rewrite IH. lia.
Qed.

Lemma heading_levels_total (lines headings : list pystr)
      (d : list (nat * nat)) :
  list_sum
    (map snd
         (fold_left (fun d heading =>
                       match MdStats.find_level heading lines with
                       | Some level => MdStats.bump level d
                       | None => d
                       end) headings d))
  = (list_sum (map snd d)
     + length (filter (fun heading =>
                         match MdStats.find_level heading lines with
                         | Some _ => true
                         | None => false
                         end) headings))%nat.
Proof.
  revert d. induction headings as [|h headings IH]; intros d;
    cbn [fold_left filter]; [cbn [length]; lia|].
  rewrite IH.
  destruct (MdStats.find_level h lines) as [level|]; cbn [length];
    [rewrite bump_total|]; lia.
Qed.

(** X18. [calculate_markdown_stats] never raises. The text has one line
    more than it has newlines, none of them holding a newline; every line
    is either empty or a content line; a table line is a content line;
    the two ratios are not negative, and zero for a text without a
    content line; the heading levels count the headings found on a line
    of the text, at most all of them. *)
Theorem markdown_stats_invariants (md_elements : MdStats.elements)
        (content : pystr) :
  exists st,
    MdStats.calculate_markdown_stats md_elements content = Ok st
    /\ MdStats.total_lines st
       = S (count (fun c => N.eqb c NEWLINE) content)
    /\ Forall (fun line => forall c, In c line -> c <> NEWLINE)
              (MdStats.split_lines content)
    /\ MdStats.total_lines st
       = (MdStats.empty_lines st + MdStats.content_lines st)%nat
    /\ (MdStats.tables_count st <= MdStats.content_lines st)%nat
    /\ 0 <= MdStats.structure_ratio st
    /\ 0 <= MdStats.code_density st
    /\ (MdStats.content_lines st = 0%nat ->
        MdStats.structure_ratio st == 0 /\ MdStats.code_density st == 0)
    /\ list_sum (map snd (MdStats.heading_levels st))
       = length (filter (fun heading =>
                           match MdStats.find_level
                                   heading (MdStats.split_lines content)
                           with
                           | Some _ => true
                           | None => false
                           end) (MdStats.headings md_elements))
    /\ (list_sum (map snd (MdStats.heading_levels st))
        <= MdStats.headings_count st)%nat.
Proof.
  unfold MdStats.calculate_markdown_stats.
  remember (MdStats.split_lines content) as lines eqn:Hlines.
  pose proof (filter_length (fun line => truthy (strip line)) lines) as Hp.
  pose proof (filter_length_impl _ MdStats.is_table_line
                (fun line => truthy (strip line)) lines
                table_line_has_content) as Ht.
  pose proof (heading_levels_total lines (MdStats.headings md_elements) [])
    as Hh.
  pose proof (filter_length_le
                (fun heading =>
                   match MdStats.find_level heading lines with
                   | Some _ => true
                   | None => false
                   end) (MdStats.headings md_elements)) as Hle.
  assert (Hn : length lines = S (count (fun c => N.eqb c NEWLINE) content))
    by (subst lines; apply split_lines_loop_length).
  assert (Hline : Forall (fun line => forall c, In c line -> c <> NEWLINE)
                         lines)
    by (subst lines; apply split_lines_loop_no_newline; intros c []).
  cbv zeta.
  destruct (Nat.ltb_spec
              0 (length (filter (fun line => truthy (strip line)) lines)))
    as [Hpos|Hzero].
  - rewrite !truediv_pos by exact Hpos. cbn [bind].
    eexists. split; [reflexivity|].
    cbn [MdStats.total_lines MdStats.empty_lines MdStats.content_lines
         MdStats.tables_count MdStats.structure_ratio MdStats.code_density
         MdStats.heading_levels MdStats.headings_count].
    unfold MdStats.heading_levels_of. rewrite Hh.
    cbn [map list_sum fold_right Nat.add].
    split; [exact Hn|]. split; [exact Hline|]. split; [lia|].
    split; [exact Ht|].
    split; [apply div_nonneg; [exact Hpos | apply of_nat_nonneg]|].
    split; [apply div_nonneg; [exact Hpos | apply of_nat_nonneg]|].
    split; [lia|]. split; [reflexivity | exact Hle].
  - cbn [bind]. eexists. split; [reflexivity|].
    cbn [MdStats.total_lines MdStats.empty_lines MdStats.content_lines
         MdStats.tables_count MdStats.structure_ratio MdStats.code_density
         MdStats.heading_levels MdStats.headings_count].
    unfold MdStats.heading_levels_of. rewrite Hh.
    cbn [map list_sum fold_right Nat.add].
    split; [exact Hn|]. split; [exact Hline|]. split; [lia|].
    split; [exact Ht|].
    split; [lra|]. split; [lra|].
    split; [intros _; split; reflexivity|].
    split; [reflexivity | exact Hle].
Qed.

Lemma lstrip_hashes_spec (line : pystr) :
  (length (MdStats.lstrip_hashes line) <= length line)%nat
  /\ line
     = repeat MdStats.HASH
              (length line - length (MdStats.lstrip_hashes line))
       ++ MdStats.lstrip_hashes line
  /\ (forall c rest,
         MdStats.lstrip_hashes line = c :: rest -> c <> MdStats.HASH).
Proof.
  induction line as [|c line (Hle & Heq & Hhead)];
    cbn [MdStats.lstrip_hashes].
  - split; [reflexivity|]. split; [reflexivity | discriminate].
  - destruct (N.eqb_spec c MdStats.HASH) as [-> | Hc].
    + split; [cbn [length]; lia|]. split; [|exact Hhead].
      replace (length (MdStats.HASH :: line)
               - length (MdStats.lstrip_hashes line))%nat
        with (S (length line - length (MdStats.lstrip_hashes line)))
        by (cbn [length]; lia).
      cbn [repeat app]. f_equal. exact Heq.
    + split; [lia|]. rewrite Nat.sub_diag.
      split; [reflexivity|]. intros d rest E. injection E as <- _.
      exact Hc.
Qed.

(** X19. The level of a heading is read off the first line that holds
    its text and starts with [#] once stripped, and it is the number of
    [#] at the very start of that line as it stands: an indented heading
    line gives the level 0. *)
Theorem heading_level_counts_leading_hashes
        (heading : pystr) (lines : list pystr) (level : nat) :
  MdStats.find_level heading lines = Some level ->
  exists before line after,
    lines = before ++ line :: after
    /\ Forall (fun l =>
                 contains l heading
                 && startswith (strip l) [MdStats.HASH] = false) before
    /\ contains line heading = true
    /\ startswith (strip line) [MdStats.HASH] = true
    /\ line = repeat MdStats.HASH level ++ MdStats.lstrip_hashes line
    /\ (forall c rest,
           MdStats.lstrip_hashes line = c :: rest -> c <> MdStats.HASH)
    /\ (forall c rest,
           line = c :: rest -> isspace c = true -> level = 0%nat).
Proof.
  induction lines as [|l lines IH]; cbn [MdStats.find_level];
    [discriminate|].
  destruct (contains l heading && startswith (strip l) [MdStats.HASH])
    eqn:Hl.
  - intros E. injection E as <-.
    apply andb_true_iff in Hl. destruct Hl as [Hc Hs].
    destruct (lstrip_hashes_spec l) as (_ & Heq & Hhead).
    exists [], l, lines. split; [reflexivity|].
    split; [constructor|]. split; [exact Hc|]. split; [exact Hs|].
    split; [exact Heq|]. split; [exact Hhead|].
    intros c rest -> Hsp. cbn [MdStats.lstrip_hashes].
    destruct (N.eqb_spec c MdStats.HASH) as [-> | _];
      [discriminate Hsp | apply Nat.sub_diag].
  - intros E. destruct (IH E)
      as [before [line [after (-> & Hb & Hrest)]]].
    exists (l :: before), line, after.
    split; [reflexivity|]. split; [constructor; assumption | exact Hrest].
Qed.

(** The heading [t] on the second line, [  # t]. *)
Lemma heading_level_counts_leading_hashes_witness :
  MdStats.find_level [116]%N [[97]; [32; 32; 35; 32; 116]]%N = Some 0%nat
  /\ exists before line after,
      [[97]; [32; 32; 35; 32; 116]]%N = before ++ line :: after
      /\ line = repeat MdStats.HASH 0 ++ MdStats.lstrip_hashes line.
Proof.
  split; [reflexivity|].
  destruct (heading_level_counts_leading_hashes
              [116]%N [[97]; [32; 32; 35; 32; 116]]%N 0 eq_refl)
    as [before [line [after (E & _ & _ & _ & Hl & _)]]].
  exists before, line, after. split; [exact E | exact Hl].
Defined.

(** ** The front matter of a markdown file *)

Lemma startswith_spec (p s : pystr) :
  startswith s p = true -> s = p ++ skipn (length p) s.
Proof.
  revert s. induction p as [|d p IH]; intros s; [reflexivity|].
  destruct s as [|c s]; cbn [startswith]; [discriminate|].
  intros E. apply andb_true_iff in E. destruct E as [Ec Es].
  apply N.eqb_eq in Ec. subst d. cbn [length skipn app].
  f_equal. exact (IH s Es).
Qed.

Lemma contains_prefix (p r : pystr) : contains (p ++ r) p = true.
Proof.
  assert (Hs : startswith (p ++ r) p = true).
  { induction p as [|c p IH]; [destruct r; reflexivity|].
    cbn [app startswith]. rewrite N.eqb_refl. exact IH. }
  destruct (p ++ r); cbn [contains]; rewrite Hs; reflexivity.
Qed.

Lemma split_fence_spec (s : pystr) :
  match Mdana.split_fence s with
  | Some (before, after) =>
      s = before ++ Mdana.FENCE ++ after
      /\ forall k, (k < length before)%nat ->
                   startswith (skipn k s) Mdana.FENCE = false
  | None => contains s Mdana.FENCE = false
  end.
Proof.
  induction s as [|c s IH].
  - cbn. reflexivity.
  - cbn [Mdana.split_fence contains].
    destruct (startswith (c :: s) Mdana.FENCE) eqn:Es.
    + split; [exact (startswith_spec Mdana.FENCE (c :: s) Es)|].
      intros k Hk. cbn [length] in Hk. lia.
    + destruct (Mdana.split_fence s) as [[before after]|].
      * destruct IH as [-> Hmin]. split; [reflexivity|].
        intros [|k] Hk; [exact Es|].
        cbn [skipn]. apply Hmin. cbn [length] in Hk. lia.
      * cbn [orb]. exact IH.
Qed.

Lemma startswith_app (p r : pystr) : startswith (p ++ r) p = true.
Proof.
  induction p as [|c p IH]; [destruct r; reflexivity|].
  cbn [app startswith]. rewrite N.eqb_refl. exact IH.
Qed.

(** The cut is at the first fence: a text before which no fence starts
    is the header. *)
Lemma split_fence_first (header rest : pystr) :
  (forall k, (k < length header)%nat ->
             startswith (skipn k (header ++ Mdana.FENCE ++ rest)) Mdana.FENCE
             = false) ->
  Mdana.split_fence (header ++ Mdana.FENCE ++ rest) = Some (header, rest).
Proof.
  induction header as [|c header IH]; intros Hmin.
  - cbn [app]. pose proof (startswith_app Mdana.FENCE rest) as Hs.
    unfold Mdana.FENCE in *. cbn [app] in *.
    cbn [Mdana.split_fence]. unfold Mdana.FENCE. rewrite Hs. reflexivity.
  - pose proof (Hmin 0%nat) as H0. cbn [skipn length] in H0.
    specialize (H0 (Nat.lt_0_succ _)).
    cbn [app] in *. cbn [Mdana.split_fence]. rewrite H0.
    rewrite IH; [reflexivity|].
    intros k Hk. apply (Hmin (S k)). cbn [length]. lia.
Qed.

Section FrontMatter.
Context `{Host}.

(** X20. What [parse_markdown_file] returns. A file that cannot be read
    gives no body and the message of the exception. A file that can be
    read gives no error. Its body is the whole content, with an empty
    front matter, when the content does not start with the fence [---]
    or has no second fence. When it starts with a fence and has a second
    one, the text between the opening and the first fence after it is
    loaded as YAML: if that succeeds the body is what follows the second
    fence, stripped, and the front matter is the loaded value (the empty
    dict if it is falsy); if the loader raises, the body is the whole
    content. These cases are all there are. *)
Theorem front_matter_is_cut_at_the_second_fence (path : pystr) :
  match read_text path with
  | inr message =>
      Mdana.parse_markdown_file path = (None, None, Some message)
  | inl content =>
      (exists body fm,
          Mdana.parse_markdown_file path = (Some body, fm, None))
      /\ (startswith content Mdana.FENCE = false ->
          Mdana.parse_markdown_file path = (Some content, None, None))
      /\ (contains (skipn 3 content) Mdana.FENCE = false ->
          Mdana.parse_markdown_file path = (Some content, None, None))
      /\ (forall header rest,
             content = Mdana.FENCE ++ header ++ Mdana.FENCE ++ rest ->
             (forall k, (k < length header)%nat ->
                        startswith
                          (skipn k (header ++ Mdana.FENCE ++ rest))
                          Mdana.FENCE = false) ->
             Mdana.parse_markdown_file path
             = match yaml_safe_load header with
               | Some y =>
                   (Some (strip rest),
                    if yaml_truthy y then Some y else None,
                    None)
               | None => (Some content, None, None)
               end)
      /\ (startswith content Mdana.FENCE = true ->
          contains (skipn 3 content) Mdana.FENCE = true ->
          exists header rest,
            content = Mdana.FENCE ++ header ++ Mdana.FENCE ++ rest
            /\ forall k, (k < length header)%nat ->
                         startswith
                           (skipn k (header ++ Mdana.FENCE ++ rest))
                           Mdana.FENCE = false)
  end.
Proof.
  unfold Mdana.parse_markdown_file.
  destruct (read_text path) as [content|message]; [|reflexivity].
  split; [|split; [|split; [|split]]].
  - destruct (startswith content Mdana.FENCE);
      [|eexists _, _; reflexivity].
    destruct (Mdana.split_fence (skipn 3 content)) as [[header rest]|];
      [|eexists _, _; reflexivity].
    destruct (yaml_safe_load header); eexists _, _; reflexivity.
  - intros Es. rewrite Es. reflexivity.
  - intros Hno. destruct (startswith content Mdana.FENCE); [|reflexivity].
    pose proof (split_fence_spec (skipn 3 content)) as Hsplit.
    destruct (Mdana.split_fence (skipn 3 content)) as [[header rest]|];
      [|reflexivity].
    destruct Hsplit as [Hcut _]. exfalso. rewrite Hcut in Hno.
    clear - Hno. induction header as [|c header IH].
    + cbn [app] in Hno. rewrite contains_prefix in Hno. discriminate.
    + cbn [app contains] in Hno.
      apply orb_false_iff in Hno. exact (IH (proj2 Hno)).
  - intros header rest -> Hmin.
    rewrite startswith_app.
    change (skipn 3 (Mdana.FENCE ++ header ++ Mdana.FENCE ++ rest))
      with (header ++ Mdana.FENCE ++ rest).
    rewrite (split_fence_first header rest Hmin).
    destruct (yaml_safe_load header); reflexivity.
  - intros Es Hyes.
    pose proof (split_fence_spec (skipn 3 content)) as Hsplit.
    destruct (Mdana.split_fence (skipn 3 content)) as [[header rest]|];
      [|congruence].
    destruct Hsplit as [Hcut Hmin]. exists header, rest.
    split; [|rewrite <- Hcut; exact Hmin].
    rewrite <- Hcut. exact (startswith_spec Mdana.FENCE content Es).
Qed.

End FrontMatter.

(** The file of the second demo host: a fence, a line [a], a fence, and
    the line [b c]. *)
Lemma front_matter_is_cut_at_the_second_fence_witness :
  Mdana.parse_markdown_file (H := Demo.fenced_host) Demo.FILE_A
  = (Some [98; 32; 99]%N, Some [97]%N, None).
Proof.
  pose proof (@front_matter_is_cut_at_the_second_fence
                Demo.fenced_host Demo.FILE_A) as Hspec.
  cbn [read_text Demo.fenced_host] in Hspec.
  destruct Hspec as (_ & _ & _ & Hcut & _).
  rewrite (Hcut [10; 97; 10]%N [10; 98; 32; 99]%N eq_refl).
  - reflexivity.
  - intros k Hk. destruct k as [|[|[|k]]]; try reflexivity.
    cbn [length] in Hk. lia.
Defined.

(** ** Code snippets and links of a markdown sentence *)

Lemma code_loop_bound (s : pystr) (st : Mdana.code_state) :
  (2 * Mdana.code_loop st s
   <= count (fun c => N.eqb c 96) s
      + match st with Mdana.CodeOut => 0 | _ => 1 end)%nat.
Proof.
  unfold count. revert st.
  induction s as [|c s IH]; intros st; cbn [Mdana.code_loop filter].
  - destruct st; cbn [length]; lia.
  - pose proof (IH Mdana.CodeOut) as HO.
    pose proof (IH Mdana.CodeOpen) as HP.
    pose proof (IH Mdana.CodeBody) as HB.
    destruct st; destruct (N.eqb c 96); cbn [length]; cbv iota in *; lia.
Qed.

Lemma link_loop_closing (s : pystr) (st : Mdana.link_state) :
  (Mdana.link_loop st s <= count (fun c => N.eqb c 41) s)%nat.
Proof.
  unfold count. revert st.
  induction s as [|c s IH]; intros st; cbn [Mdana.link_loop filter];
    [destruct st; lia|].
  pose proof (IH Mdana.LinkOut). pose proof (IH Mdana.LinkOpen).
  pose proof (IH Mdana.LinkText). pose proof (IH Mdana.LinkClosed).
  pose proof (IH Mdana.LinkParen). pose proof (IH Mdana.LinkTarget).
  destruct st; destruct (N.eqb_spec c 41) as [-> | _];
    cbn [N.eqb Pos.eqb length];
    try (destruct (N.eqb c 91)); try (destruct (N.eqb c 93));
    try (destruct (N.eqb c 40)); cbn [length]; cbv iota in *; lia.
Qed.

Lemma link_loop_opening (s : pystr) (st : Mdana.link_state) :
  (Mdana.link_loop st s
   <= count (fun c => N.eqb c 91) s
      + match st with Mdana.LinkOut => 0 | _ => 1 end)%nat.
Proof.
  unfold count. revert st.
  induction s as [|c s IH]; intros st; cbn [Mdana.link_loop filter];
    [destruct st; lia|].
  pose proof (IH Mdana.LinkOut). pose proof (IH Mdana.LinkOpen).
  pose proof (IH Mdana.LinkText). pose proof (IH Mdana.LinkClosed).
  pose proof (IH Mdana.LinkParen). pose proof (IH Mdana.LinkTarget).
  destruct st; destruct (N.eqb_spec c 91) as [-> | _];
    cbn [N.eqb Pos.eqb length];
    try (destruct (N.eqb c 93)); try (destruct (N.eqb c 40));
    try (destruct (N.eqb c 41)); cbn [length]; cbv iota in *; lia.
Qed.

(** X21. A code snippet of a sentence takes two backquotes of its own,
    and a link an opening bracket and a closing parenthesis of its own:
    a sentence without a backquote has no code snippet, one without [[]
    or without [)] has no link. *)
Theorem snippets_and_links_are_bounded (s : pystr) :
  (2 * Mdana.count_code_snippets s <= count (fun c => N.eqb c 96) s)%nat
  /\ (Mdana.count_links s <= count (fun c => N.eqb c 91) s)%nat
  /\ (Mdana.count_links s <= count (fun c => N.eqb c 41) s)%nat.
Proof.
  unfold Mdana.count_code_snippets, Mdana.count_links.
  pose proof (code_loop_bound s Mdana.CodeOut).
  pose proof (link_loop_opening s Mdana.LinkOut).
  pose proof (link_loop_closing s Mdana.LinkOut).
  cbv beta iota in *. lia.
Qed.
